(** * Ethernet II frames and 802.1Q VLAN tags: the codec of package [ethernet]

    A shallow embedding of [vlan.go] and of the three revisions of
    [ethernet.go] found among the sources, followed by the properties of the
    codec.

    - Go's [[]byte] is a [list byte]; a slice expression [b[lo:hi]] is the
      checked function [slice], whose failure is a run-time panic.  Buffers
      are taken with capacity equal to length.
    - Unsigned integers are [Z] with the wrap-around written out.
    - A method with a pointer receiver is a state transformer over the
      receiver; [return err] is an exception of the monad [M]. *)

From Stdlib Require Import ZArith List Lia Bool.
From Stdlib Require Import Strings.Byte.
From Stdlib Require Strings.String Strings.Ascii DecimalString DecimalZ.
Import ListNotations.

Local Open Scope Z_scope.

(** ** Errors and results *)

(** [io.ErrUnexpectedEOF], [ErrInvalidVLAN] (vlan.go:24) and [ErrInvalidFCS]
    (ethernet.go:223).  The specification calls them [TruncatedInput],
    [InvalidVlanId] and [ChecksumMismatch]. *)
Inductive error : Type :=
| ErrUnexpectedEOF
| ErrInvalidVLAN
| ErrInvalidFCS.

(** What a call does: it returns normally ([Ok]), returns an error, panics
    (an index or slice bound out of range), or exhausts the fuel of the
    decoding loop (shown below never to happen). *)
Inductive result (A : Type) : Type :=
| Ok (a : A)
| Err (e : error)
| Panic
| OutOfFuel.

Arguments Ok {A} a.
Arguments Err {A} e.
Arguments Panic {A}.
Arguments OutOfFuel {A}.

(** ** A state-and-exception monad for method bodies *)

Definition M (S A : Type) : Type := S -> S * result A.

Definition ret {S A} (a : A) : M S A := fun s => (s, Ok a).

Definition bind {S A B} (m : M S A) (k : A -> M S B) : M S B :=
  fun s =>
    match m s with
    | (s', Ok a) => k a s'
    | (s', Err e) => (s', Err e)
    | (s', Panic) => (s', Panic)
    | (s', OutOfFuel) => (s', OutOfFuel)
    end.

Definition throw {S A} (e : error) : M S A := fun s => (s, Err e).

Definition get {S} : M S S := fun s => (s, Ok s).

Definition modify {S} (f : S -> S) : M S unit := fun s => (f s, Ok tt).

(** A checked operation: [None] is a panic. *)
Definition lift {S A} (o : option A) : M S A :=
  fun s => match o with Some a => (s, Ok a) | None => (s, Panic) end.

(** A method or built-in run on a receiver [t] of its own, as in
    [err := vlan.UnmarshalBinary(..)] followed by [return err] when the error
    is not nil: the caller gets the receiver as the call left it. *)
Definition call {S T A} (m : M T A) (t : T) : M S (T * A) :=
  fun s =>
    match m t with
    | (t', Ok a) => (s, Ok (t', a))
    | (_, Err e) => (s, Err e)
    | (_, Panic) => (s, Panic)
    | (_, OutOfFuel) => (s, OutOfFuel)
    end.

Declare Scope go_scope.
Delimit Scope go_scope with go.
Notation "x <- m ;; k" := (bind m (fun x => k))
  (at level 61, m at next level, right associativity) : go_scope.
Notation "' pat <- m ;; k" := (bind m (fun x => match x with pat => k end))
  (at level 61, pat pattern, m at next level, right associativity) : go_scope.
Notation "m ;; k" := (bind m (fun _ => k))
  (at level 61, right associativity) : go_scope.
Local Open Scope go_scope.

(** ** Bytes, slices and [encoding/binary] *)

Definition byte_to_Z (b : byte) : Z := Z.of_N (Byte.to_N b).

(** The conversion [byte(z)]: the low eight bits. *)
Definition Z_to_byte (z : Z) : byte :=
  match Byte.of_N (Z.to_N (z mod 256)) with
  | Some b => b
  | None => x00
  end.

Definition uint8 (z : Z) : Z := z mod 256.
Definition uint16 (z : Z) : Z := z mod 65536.

(** [make([]byte, n)]. *)
Definition make (n : nat) : list byte := repeat x00 n.

(** [b[lo:hi]]; panics unless [lo <= hi <= len(b)]. *)
Definition slice (b : list byte) (lo hi : nat) : option (list byte) :=
  if ((lo <=? hi) && (hi <=? length b))%nat
  then Some (firstn (hi - lo) (skipn lo b))
  else None.

(** [b[lo:]]. *)
Definition slice_from (b : list byte) (lo : nat) : option (list byte) :=
  slice b lo (length b).

(** [data] stored over the bytes of [b] that start at [lo]. *)
Definition splice (b : list byte) (lo : nat) (data : list byte) : list byte :=
  firstn lo b ++ data ++ skipn (lo + length data) b.

(** A program run on the sub-slice [b[lo:hi]] of the buffer in the state:
    the sub-slice shares the buffer's array, so what the program stores is
    stored in the buffer. *)
Definition focus {A} (lo hi : nat) (m : M (list byte) A) : M (list byte) A :=
  fun b =>
    match slice b lo hi with
    | None => (b, Panic)
    | Some s => let (s', r) := m s in (splice b lo s', r)
    end.

Definition focus_from {A} (lo : nat) (m : M (list byte) A) : M (list byte) A :=
  fun b => focus lo (length b) m b.

(** The built-in [copy(dst, src)] with [dst] the slice in the state: the
    first [min(len(dst), len(src))] bytes of [src] are stored. *)
Definition copy (src : list byte) : M (list byte) nat :=
  fun dst =>
    (firstn (length dst) src ++ skipn (length src) dst,
     Ok (Nat.min (length dst) (length src))).

(** [binary.BigEndian.Uint16(s)]. *)
Definition Uint16 (s : list byte) : option Z :=
  match s with
  | b0 :: b1 :: _ => Some (Z.lor (byte_to_Z b1) (Z.shiftl (byte_to_Z b0) 8))
  | _ => None
  end.

(** [binary.BigEndian.PutUint16(s, v)] with [s] the slice in the state. *)
Definition PutUint16 (v : Z) : M (list byte) unit :=
  fun s =>
    match s with
    | _ :: _ :: rest => (Z_to_byte (Z.shiftr v 8) :: Z_to_byte v :: rest, Ok tt)
    | _ => (s, Panic)
    end.

(** [binary.BigEndian.Uint32(s)]. *)
Definition Uint32 (s : list byte) : option Z :=
  match s with
  | b0 :: b1 :: b2 :: b3 :: _ =>
      Some (Z.lor (Z.lor (Z.lor (byte_to_Z b3) (Z.shiftl (byte_to_Z b2) 8))
                         (Z.shiftl (byte_to_Z b1) 16))
                  (Z.shiftl (byte_to_Z b0) 24))
  | _ => None
  end.

(** [binary.BigEndian.PutUint32(s, v)] with [s] the slice in the state. *)
Definition PutUint32 (v : Z) : M (list byte) unit :=
  fun s =>
    match s with
    | _ :: _ :: _ :: _ :: rest =>
        (Z_to_byte (Z.shiftr v 24) :: Z_to_byte (Z.shiftr v 16)
           :: Z_to_byte (Z.shiftr v 8) :: Z_to_byte v :: rest, Ok tt)
    | _ => (s, Panic)
    end.

(** ** [hash/crc32]: the IEEE checksum, bit by bit (reflected polynomial
    [0xedb88320], initial value and final complement [0xffffffff]). *)

Fixpoint crc_shift (k : nat) (c : Z) : Z :=
  match k with
  | O => c
  | S k' =>
      crc_shift k' (if Z.testbit c 0
                    then Z.lxor (Z.shiftr c 1) 0xedb88320
                    else Z.shiftr c 1)
  end.

Definition crc_update (c : Z) (b : byte) : Z :=
  crc_shift 8 (Z.lxor c (byte_to_Z b)).

Definition ChecksumIEEE (data : list byte) : Z :=
  Z.lxor (fold_left crc_update data 0xffffffff) 0xffffffff.

(** ** vlan.go *)

Module VLAN.

Definition VLANNone : Z := 0x000.
Definition VLANMax : Z := 0xfff.

(** [type VLAN struct]: [Priority uint8], [DropEligible bool], [ID uint16]. *)
Record t : Type := mk {
  Priority : Z;
  DropEligible : bool;
  ID : Z
}.

(** [new(VLAN)]. *)
Definition new : t := mk 0 false 0.

Definition set_Priority (p : Z) (v : t) : t := mk p (DropEligible v) (ID v).
Definition set_DropEligible (d : bool) (v : t) : t := mk (Priority v) d (ID v).
Definition set_ID (i : Z) (v : t) : t := mk (Priority v) (DropEligible v) i.

(** [func (v *VLAN) MarshalBinary() ([]byte, error)], vlan.go:49-72.  The
    first component is the returned slice, [None] for [nil]. *)
Definition MarshalBinary (v : t) : option (list byte) * result unit :=
  if VLANMax <=? ID v then (None, Err ErrInvalidVLAN)
  else
    let ub := uint16 (Z.shiftl (Priority v) 13) in
    let drop := if DropEligible v then 1 else 0 in
    let ub := Z.lor ub (uint16 (Z.shiftl drop 12)) in
    let ub := Z.lor ub (ID v) in
    let b := make 2 in
    match PutUint16 ub b with
    | (b', Ok _) => (Some b', Ok tt)
    | (_, Err e) => (None, Err e)
    | (_, Panic) => (None, Panic)
    | (_, OutOfFuel) => (None, OutOfFuel)
    end.

(** [func (v *VLAN) UnmarshalBinary(b []byte) error], vlan.go:80-100. *)
Definition UnmarshalBinary (b : list byte) : M t unit :=
  if negb (length b =? 2)%nat then throw ErrUnexpectedEOF
  else
    s <- lift (slice b 0 2) ;;
    ub <- lift (Uint16 s) ;;
    modify (set_Priority (uint8 (Z.shiftr ub 13))) ;;
    modify (set_DropEligible (negb (Z.land ub 0x1000 =? 0))) ;;
    modify (set_ID (Z.land ub 0x0fff)) ;;
    v <- get ;;
    if VLANMax <=? ID v then throw ErrInvalidVLAN
    else ret tt.

(** Modelled from the spec: [VLAN.read], the method that
    [Frame.MarshalBinary] and [Frame.read] call on each tag
    (ethernet.go:97 and ethernet.go:303), is not among the sources.  The
    specification (4.2, step 4) has the frame encoder "delegate to the VLAN
    Tag Codec to write the tag's 2-byte body" and propagate its error: the
    result of the tag encoder is stored in the slice of the state. *)
Definition read (v : t) : M (list byte) nat :=
  fun s =>
    match MarshalBinary v with
    | (Some w, Ok _) => (fst (copy w s), Ok 2%nat)
    | (_, Ok _) => (s, Ok 0%nat)
    | (_, Err e) => (s, Err e)
    | (_, Panic) => (s, Panic)
    | (_, OutOfFuel) => (s, OutOfFuel)
    end.

End VLAN.

(** ** ethernet.go: what the revisions share *)

Definition minPayload : Z := 46.

Definition EtherTypeIPv4 : Z := 0x0800.
Definition EtherTypeARP : Z := 0x0806.
Definition EtherTypeVLAN : Z := 0x8100.
Definition EtherTypeIPv6 : Z := 0x86DD.

Definition Broadcast : list byte := [xff; xff; xff; xff; xff; xff].

Module Frame.

(** [type Frame struct].  The two address fields are
    [DestinationHardwareAddr] and [SourceHardwareAddr] in the first
    revision and [Destination] and [Source] in the later ones; [VLAN] is
    [[]*VLAN], a list of tag values here, so every element of the slice
    points to a tag: a frame that holds a nil pointer, which the encoder
    would dereference, is not a frame of this model; [EtherType] is a
    [uint16]. *)
Record t : Type := mk {
  Destination : list byte;
  Source : list byte;
  VLAN : list VLAN.t;
  EtherType : Z;
  Payload : list byte
}.

(** [new(Frame)]. *)
Definition new : t := mk [] [] [] 0 [].

Definition set_Destination (a : list byte) (f : t) : t :=
  mk a (Source f) (VLAN f) (EtherType f) (Payload f).
Definition set_Source (a : list byte) (f : t) : t :=
  mk (Destination f) a (VLAN f) (EtherType f) (Payload f).
Definition append_VLAN (v : VLAN.t) (f : t) : t :=
  mk (Destination f) (Source f) (VLAN f ++ [v]) (EtherType f) (Payload f).
Definition set_EtherType (e : Z) (f : t) : t :=
  mk (Destination f) (Source f) (VLAN f) e (Payload f).
Definition set_Payload (p : list byte) (f : t) : t :=
  mk (Destination f) (Source f) (VLAN f) (EtherType f) p.

End Frame.

(** The loop over [f.VLAN] of the encoder (ethernet.go:92-102, the same text
    at ethernet.go:298-308 and part_000:92-102), on the output buffer [b] of
    the state: it returns the offset [n] after the last tag. *)
Fixpoint put_vlans (vs : list VLAN.t) (n : nat) : M (list byte) nat :=
  match vs with
  | [] => ret n
  | v :: vs' =>
      focus n (n + 2) (PutUint16 (uint16 EtherTypeVLAN)) ;;
      focus (n + 2) (n + 4) (VLAN.read v) ;;
      put_vlans vs' (n + 4)
  end.

(** The loop [for ; et == EtherTypeVLAN; n += 4] of the decoder
    (ethernet.go:139-157, ethernet.go:337-355, part_000:139-157).  [need] is
    the literal of the length test that opens the body: [2] at
    ethernet.go:142, [4] at ethernet.go:340 and part_000:142; the rest of the
    text is the same.  The loop returns the offset and the EtherType it
    stopped at. *)
Fixpoint vlan_loop (need : nat) (fuel : nat) (b : list byte) (n : nat) (et : Z)
  : M Frame.t (nat * Z) :=
  if et =? EtherTypeVLAN then
    match fuel with
    | O => fun f => (f, OutOfFuel)
    | S fuel' =>
        rest <- lift (slice_from b n) ;;
        if (length rest <? need)%nat then throw ErrUnexpectedEOF
        else
          s <- lift (slice b n (n + 2)) ;;
          '(vlan, _) <- call (VLAN.UnmarshalBinary s) VLAN.new ;;
          modify (Frame.append_VLAN vlan) ;;
          s' <- lift (slice b (n + 2) (n + 4)) ;;
          et' <- lift (Uint16 s') ;;
          vlan_loop need fuel' b (n + 4)%nat et'
    end
  else ret (n, et).

(** ** ethernet.go, lines 1-195: the revision with the minimum payload *)

Module Ethernet1.

(** [func (f *Frame) MarshalBinary() ([]byte, error)], ethernet.go:69-111. *)
Definition MarshalBinary (f : Frame.t) : option (list byte) * result unit :=
  let pl := length (Frame.Payload f) in
  let pl := if (pl <? 46)%nat then 46%nat else pl in
  let b := make (6 + 6 + 4 * length (Frame.VLAN f) + 2 + pl) in
  match (focus 0 6 (copy (Frame.Destination f)) ;;
         focus 6 12 (copy (Frame.Source f)) ;;
         n <- put_vlans (Frame.VLAN f) 12 ;;
         focus n (n + 2) (PutUint16 (uint16 (Frame.EtherType f))) ;;
         focus_from (n + 2) (copy (Frame.Payload f)) ;;
         ret tt) b with
  | (b', Ok _) => (Some b', Ok tt)
  | (_, Err e) => (None, Err e)
  | (_, Panic) => (None, Panic)
  | (_, OutOfFuel) => (None, OutOfFuel)
  end.

(** [func (f *Frame) UnmarshalBinary(b []byte) error], ethernet.go:120-195. *)
Definition UnmarshalBinary (b : list byte) : M Frame.t unit :=
  if (length b <? 14)%nat then throw ErrUnexpectedEOF
  else
    s <- lift (slice b 0 6) ;;
    '(dst, _) <- call (copy s) (make 6) ;;
    modify (Frame.set_Destination dst) ;;
    s <- lift (slice b 6 12) ;;
    '(src, _) <- call (copy s) (make 6) ;;
    modify (Frame.set_Source src) ;;
    let n := 14%nat in
    s <- lift (slice b (n - 2) n) ;;
    et <- lift (Uint16 s) ;;
    '(n, et) <- vlan_loop 2 (length b) b n et ;;
    modify (Frame.set_EtherType et) ;;
    rest <- lift (slice_from b n) ;;
    let l := minPayload - Z.of_nat (length rest) in
    f <- get ;;
    let vl := Z.of_nat (length (Frame.VLAN f)) in
    let vl := if 1 <? vl then 1 else vl in
    let vl := if (vl =? 0) && (l =? 4) then vl + 1 else vl in
    if Z.of_nat (length rest) <? minPayload - vl * 4
    then throw ErrUnexpectedEOF
    else
      '(payload, _) <- call (copy rest) (make (length rest)) ;;
      modify (Frame.set_Payload payload) ;;
      ret tt.

End Ethernet1.

(** ** part_000: the minimum payload is gone, the loop asks for four bytes *)

Module Ethernet2.

(** [func (f *Frame) MarshalBinary() ([]byte, error)], part_000:69-111:
    the text of ethernet.go:69-111. *)
Definition MarshalBinary (f : Frame.t) : option (list byte) * result unit :=
  let pl := length (Frame.Payload f) in
  let pl := if (pl <? 46)%nat then 46%nat else pl in
  let b := make (6 + 6 + 4 * length (Frame.VLAN f) + 2 + pl) in
  match (focus 0 6 (copy (Frame.Destination f)) ;;
         focus 6 12 (copy (Frame.Source f)) ;;
         n <- put_vlans (Frame.VLAN f) 12 ;;
         focus n (n + 2) (PutUint16 (uint16 (Frame.EtherType f))) ;;
         focus_from (n + 2) (copy (Frame.Payload f)) ;;
         ret tt) b with
  | (b', Ok _) => (Some b', Ok tt)
  | (_, Err e) => (None, Err e)
  | (_, Panic) => (None, Panic)
  | (_, OutOfFuel) => (None, OutOfFuel)
  end.

(** [func (f *Frame) UnmarshalBinary(b []byte) error], part_000:120-169. *)
Definition UnmarshalBinary (b : list byte) : M Frame.t unit :=
  if (length b <? 14)%nat then throw ErrUnexpectedEOF
  else
    s <- lift (slice b 0 6) ;;
    '(dst, _) <- call (copy s) (make 6) ;;
    modify (Frame.set_Destination dst) ;;
    s <- lift (slice b 6 12) ;;
    '(src, _) <- call (copy s) (make 6) ;;
    modify (Frame.set_Source src) ;;
    let n := 14%nat in
    s <- lift (slice b (n - 2) n) ;;
    et <- lift (Uint16 s) ;;
    '(n, et) <- vlan_loop 4 (length b) b n et ;;
    modify (Frame.set_EtherType et) ;;
    rest <- lift (slice_from b n) ;;
    '(payload, _) <- call (copy rest) (make (length rest)) ;;
    modify (Frame.set_Payload payload) ;;
    ret tt.

End Ethernet2.

(** ** ethernet.go, lines 196-401: the revision with the frame check sequence *)

Module Ethernet3.

(** [func (f *Frame) length() int], ethernet.go:394-401. *)
Definition length (f : Frame.t) : nat :=
  let pl := List.length (Frame.Payload f) in
  let pl := if (pl <? 46)%nat then 46%nat else pl in
  (6 + 6 + 4 * List.length (Frame.VLAN f) + 2 + pl)%nat.

(** [func (f *Frame) read(b []byte) (int, error)], ethernet.go:292-317,
    with [b] the buffer of the state. *)
Definition read (f : Frame.t) : M (list byte) nat :=
  focus 0 6 (copy (Frame.Destination f)) ;;
  focus 6 12 (copy (Frame.Source f)) ;;
  n <- put_vlans (Frame.VLAN f) 12 ;;
  focus n (n + 2) (PutUint16 (uint16 (Frame.EtherType f))) ;;
  focus_from (n + 2) (copy (Frame.Payload f)) ;;
  b <- get ;;
  ret (List.length b).

(** [func (f *Frame) MarshalBinary() ([]byte, error)], ethernet.go:270-274:
    [return b, err], the buffer whatever [read] said. *)
Definition MarshalBinary (f : Frame.t) : option (list byte) * result unit :=
  let b := make (length f) in
  match read f b with
  | (b', Ok _) => (Some b', Ok tt)
  | (b', Err e) => (Some b', Err e)
  | (b', Panic) => (Some b', Panic)
  | (b', OutOfFuel) => (Some b', OutOfFuel)
  end.

(** [func (f *Frame) MarshalFCS() ([]byte, error)], ethernet.go:279-288. *)
Definition MarshalFCS (f : Frame.t) : option (list byte) * result unit :=
  let b := make (length f + 4) in
  match read f b with
  | (b', Ok _) =>
      match (body <- lift (slice b' 0 (List.length b' - 4)) ;;
             focus_from (List.length b' - 4)
               (PutUint32 (ChecksumIEEE body))) b' with
      | (b'', Ok _) => (Some b'', Ok tt)
      | (_, Err e) => (None, Err e)
      | (_, Panic) => (None, Panic)
      | (_, OutOfFuel) => (None, OutOfFuel)
      end
  | (_, Err e) => (None, Err e)
  | (_, Panic) => (None, Panic)
  | (_, OutOfFuel) => (None, OutOfFuel)
  end.

(** [func (f *Frame) UnmarshalBinary(b []byte) error], ethernet.go:326-374.
    The addresses and the payload are slices of one buffer [bb]; the
    stores into [bb] that follow an assignment do not reach the bytes of
    the slice assigned, so each field is given the slice as it is then. *)
Definition UnmarshalBinary (b : list byte) : M Frame.t unit :=
  if (List.length b <? 14)%nat then throw ErrUnexpectedEOF
  else
    let n := 14%nat in
    s <- lift (slice b (n - 2) n) ;;
    et <- lift (Uint16 s) ;;
    '(n, et) <- vlan_loop 4 (List.length b) b n et ;;
    modify (Frame.set_EtherType et) ;;
    rest <- lift (slice_from b n) ;;
    let bb := make (6 + 6 + List.length rest) in
    s <- lift (slice b 0 6) ;;
    '(bb, _) <- call (focus 0 6 (copy s)) bb ;;
    dst <- lift (slice bb 0 6) ;;
    modify (Frame.set_Destination dst) ;;
    s <- lift (slice b 6 12) ;;
    '(bb, _) <- call (focus 6 12 (copy s)) bb ;;
    src <- lift (slice bb 6 12) ;;
    modify (Frame.set_Source src) ;;
    '(bb, _) <- call (focus_from 12 (copy rest)) bb ;;
    payload <- lift (slice_from bb 12) ;;
    modify (Frame.set_Payload payload) ;;
    ret tt.

(** [func (f *Frame) UnmarshalFCS(b []byte) error], ethernet.go:379-392. *)
Definition UnmarshalFCS (b : list byte) : M Frame.t unit :=
  if (List.length b <? 4)%nat then throw ErrUnexpectedEOF
  else
    s <- lift (slice_from b (List.length b - 4)) ;;
    want <- lift (Uint32 s) ;;
    body <- lift (slice b 0 (List.length b - 4)) ;;
    let got := ChecksumIEEE body in
    if negb (want =? got) then throw ErrInvalidFCS
    else
      body <- lift (slice b 0 (List.length b - 4)) ;;
      UnmarshalBinary body.

End Ethernet3.

(** ** The names of the EtherTypes (string.go)

    [EtherType.String] is the method that [stringer] generated.  A value
    that is none of the four constants is printed through
    [strconv.FormatInt(int64(i), 10)]: [int64] is the conversion to a signed
    64-bit integer, and [FormatInt], in base 10, the only base the package
    asks for, gives the decimal digits, after a minus sign for a negative
    number. *)

Definition int64 (z : Z) : Z := (z + 2 ^ 63) mod 2 ^ 64 - 2 ^ 63.

Module strconv.
Import Stdlib.Strings.String.

Definition FormatInt (i : Z) : string :=
  DecimalString.NilZero.string_of_int (Z.to_int i).

End strconv.

Module EtherType.
Import Stdlib.Strings.String.
Local Open Scope string_scope.
Local Open Scope Z_scope.

Definition _EtherType_name_0 : string := "EtherTypeIPv4".
Definition _EtherType_name_1 : string := "EtherTypeARP".
Definition _EtherType_name_2 : string := "EtherTypeVLAN".
Definition _EtherType_name_3 : string := "EtherTypeIPv6".

Definition String (i : Z) : string :=
  if i =? 2048 then _EtherType_name_0
  else if i =? 2054 then _EtherType_name_1
  else if i =? 33024 then _EtherType_name_2
  else if i =? 34525 then _EtherType_name_3
  else "EtherType(" ++ strconv.FormatInt (int64 i) ++ ")".

End EtherType.

(** * The vocabulary of the properties *)

(** The 16-bit word that two bytes spell, and the two bytes of a word. *)
Definition word16 (b0 b1 : byte) : Z :=
  Z.lor (byte_to_Z b1) (Z.shiftl (byte_to_Z b0) 8).

Definition be16 (v : Z) : list byte :=
  [Z_to_byte (Z.shiftr v 8); Z_to_byte v].

(** The 16-bit word that [VLAN.MarshalBinary] builds (vlan.go:56-66). *)
Definition vlan_word (v : VLAN.t) : Z :=
  Z.lor (Z.lor (uint16 (Z.shiftl (VLAN.Priority v) 13))
               (uint16 (Z.shiftl (if VLAN.DropEligible v then 1 else 0) 12)))
        (VLAN.ID v).

(** The tag that [VLAN.UnmarshalBinary] reads off a word (vlan.go:89-92). *)
Definition vlan_of_word (w : Z) : VLAN.t :=
  VLAN.mk (uint8 (Z.shiftr w 13)) (negb (Z.land w 0x1000 =? 0))
          (Z.land w 0x0fff).

(** A tag of the data model: a 3-bit priority and an identifier below 4095. *)
Definition good_tag (v : VLAN.t) : Prop :=
  0 <= VLAN.Priority v <= 7 /\ 0 <= VLAN.ID v <= 4094.

(** An address as the encoder stores it: cut or zero-padded to [n] bytes. *)
Definition fit (n : nat) (a : list byte) : list byte :=
  firstn n a ++ repeat x00 (n - length a).

(** One tag on the wire: the marker, then the packed word. *)
Definition tag_wire (v : VLAN.t) : list byte :=
  be16 EtherTypeVLAN ++ be16 (vlan_word v).

Definition tags_wire (vs : list VLAN.t) : list byte := flat_map tag_wire vs.

(** The zero bytes that follow a payload shorter than 46 bytes. *)
Definition padding (p : list byte) : list byte := repeat x00 (46 - length p).

(** The layout of section 6 of the specification. *)
Definition wire (f : Frame.t) : list byte :=
  fit 6 (Frame.Destination f) ++ fit 6 (Frame.Source f)
    ++ tags_wire (Frame.VLAN f)
    ++ be16 (uint16 (Frame.EtherType f))
    ++ Frame.Payload f ++ padding (Frame.Payload f).

(** Every tag has an identifier that the tag codec accepts. *)
Definition ids_ok (vs : list VLAN.t) : Prop :=
  Forall (fun v => VLAN.ID v < 4095) vs.

(** The receiver with the tags [ts] appended to its chain. *)
Definition add_tags (ts : list VLAN.t) (f : Frame.t) : Frame.t :=
  Frame.mk (Frame.Destination f) (Frame.Source f) (Frame.VLAN f ++ ts)
           (Frame.EtherType f) (Frame.Payload f).

(** How the loop may end when it asks for [need] bytes: at an offset inside
    the buffer with an EtherType that is not the marker, with one of the two
    errors of the decoder, or, only when it asks for fewer than four bytes,
    with a panic. *)
Definition loop_end (need : nat) (b : list byte) (n : nat) (ts : list VLAN.t)
           (r : result (nat * Z)) : Prop :=
  match r with
  | Ok (n', et') =>
      n' = (n + 4 * length ts)%nat /\ (n' <= length b)%nat
      /\ et' <> EtherTypeVLAN
  | Err e => e = ErrUnexpectedEOF \/ e = ErrInvalidVLAN
  | Panic => need <> 4%nat
  | OutOfFuel => False
  end.

(** The minimum-payload test of ethernet.go:170-188, for a chain of [vl]
    tags and [pl] bytes after the last EtherType: [true] when the decoder
    returns [io.ErrUnexpectedEOF]. *)
Definition too_short (vl pl : nat) : bool :=
  let l := minPayload - Z.of_nat pl in
  let vl := Z.of_nat vl in
  let vl := if 1 <? vl then 1 else vl in
  let vl := if (vl =? 0) && (l =? 4) then vl + 1 else vl in
  Z.of_nat pl <? minPayload - vl * 4.

(** The receiver once the addresses are stored. *)
Definition with_addresses (b : list byte) (f : Frame.t) : Frame.t :=
  Frame.set_Source (firstn 6 (skipn 6 b))
    (Frame.set_Destination (firstn 6 b) f).

(** The EtherType that follows the addresses. *)
Definition first_et (b : list byte) : Z :=
  match skipn 12 b with
  | e0 :: e1 :: _ => word16 e0 e1
  | _ => 0%Z
  end.

(** The EtherType in front of the chain [ts] that ends with the bytes
    [e0 e1]. *)
Definition head_et (ts : list VLAN.t) (e0 e1 : byte) : Z :=
  match ts with
  | [] => word16 e0 e1
  | _ :: _ => EtherTypeVLAN
  end.

(** A buffer laid out as section 6 of the specification says, with the
    terminal EtherType given by its two bytes. *)
Definition on_wire (dst src : list byte) (ts : list VLAN.t) (e0 e1 : byte)
           (payload : list byte) : list byte :=
  dst ++ src ++ tags_wire ts ++ [e0; e1] ++ payload.

(** The three revisions of ethernet.go among the sources, in the order in
    which they were written. *)
Inductive revision : Type :=
| Rev1   (* ethernet.go, lines 1-195 *)
| Rev2   (* part_000 *)
| Rev3.  (* ethernet.go, lines 196-401 *)

(** [Frame.MarshalBinary] and [Frame.UnmarshalBinary] of a revision. *)
Definition MarshalBinary (r : revision) : Frame.t -> option (list byte) * result unit :=
  match r with
  | Rev1 => Ethernet1.MarshalBinary
  | Rev2 => Ethernet2.MarshalBinary
  | Rev3 => Ethernet3.MarshalBinary
  end.

Definition UnmarshalBinary (r : revision) : list byte -> M Frame.t unit :=
  match r with
  | Rev1 => Ethernet1.UnmarshalBinary
  | Rev2 => Ethernet2.UnmarshalBinary
  | Rev3 => Ethernet3.UnmarshalBinary
  end.

(** What every call of a decoder does to the receiver's chain and payload,
    and how it can end. *)
Definition decoder_facts (r : revision) (b : list byte) (ts : list VLAN.t)
           (f : Frame.t) : Prop :=
  let out := UnmarshalBinary r b f in
  Frame.VLAN (fst out) = Frame.VLAN f ++ ts
  /\ snd out <> OutOfFuel
  /\ snd out <> Err ErrInvalidFCS
  /\ (r <> Rev1 -> snd out <> Panic)
  /\ (snd out <> Ok tt -> Frame.Payload (fst out) = Frame.Payload f)
  /\ (r = Rev3 -> snd out <> Ok tt -> fst out = add_tags ts f).

(** The frame that the decoders read off an untagged buffer. *)
Definition untagged (b : list byte) (f : Frame.t) : Frame.t :=
  Frame.mk (firstn 6 b) (firstn 6 (skipn 6 b)) (Frame.VLAN f)
           (first_et b) (skipn 14 b).

(** The 32-bit word that four bytes spell, and the four bytes of a word. *)
Definition word32 (b0 b1 b2 b3 : byte) : Z :=
  Z.lor (Z.lor (Z.lor (byte_to_Z b3) (Z.shiftl (byte_to_Z b2) 8))
               (Z.shiftl (byte_to_Z b1) 16))
        (Z.shiftl (byte_to_Z b0) 24).

Definition be32 (v : Z) : list byte :=
  [Z_to_byte (Z.shiftr v 24); Z_to_byte (Z.shiftr v 16);
   Z_to_byte (Z.shiftr v 8); Z_to_byte v].

(** The test that the first revision of the decoder makes and the later
    ones do not (ethernet.go:170-188), for a frame left with [vl] tags and
    [pl] bytes of payload: 42 bytes or more with a tag, and 42 bytes or 46
    or more without. *)
Definition payload_allowed (vl pl : nat) : Prop :=
  (vl = 0 /\ (pl = 42 \/ 46 <= pl))%nat \/ (1 <= vl /\ 42 <= pl)%nat.

(** The tags that stand in a buffer, read from its first EtherType on: [c]
    is the buffer from offset 12.  As long as the two bytes at the front are
    the marker 0x8100 and at least four bytes follow them, the two bytes of
    a tag whose identifier is not 4095 and the next EtherType, the tag is
    one of the chain; the chain goes on at that EtherType. *)
Fixpoint chain_tags (c : list byte) : list VLAN.t :=
  match c with
  | m0 :: m1 :: w0 :: w1 :: ((_ :: _ :: _) as c') =>
      if (word16 m0 m1 =? EtherTypeVLAN)
         && (Z.land (word16 w0 w1) 0x0fff <? 4095)
      then vlan_of_word (word16 w0 w1) :: chain_tags c'
      else []
  | _ => []
  end.

(** * Properties *)

(** ** Bytes and big-endian words *)

Lemma byte_to_Z_range (b : byte) : 0 <= byte_to_Z b < 256.
Proof.
  unfold byte_to_Z. pose proof (Byte.to_N_bounded b). lia.
Qed.

Lemma byte_to_Z_to_byte (z : Z) : byte_to_Z (Z_to_byte z) = z mod 256.
Proof.
  unfold byte_to_Z, Z_to_byte.
  pose proof (Z.mod_pos_bound z 256 ltac:(lia)) as Hr.
  destruct (Byte.of_N (Z.to_N (z mod 256))) as [b|] eqn:E.
  - apply Byte.to_of_N in E. rewrite E. lia.
  - apply Byte.of_N_None_iff in E. lia.
Qed.

Lemma Z_to_byte_to_Z (b : byte) : Z_to_byte (byte_to_Z b) = b.
Proof.
  unfold Z_to_byte, byte_to_Z.
  pose proof (Byte.to_N_bounded b).
  rewrite Z.mod_small by lia.
  rewrite N2Z.id, Byte.of_to_N. reflexivity.
Qed.

Lemma testbit_above (a k i : Z) :
  0 <= k -> 0 <= a < 2 ^ k -> k <= i -> Z.testbit a i = false.
Proof.
  intros Hk Ha Hi.
  rewrite <- (Z.mod_small a (2 ^ k)) by lia.
  rewrite Z.testbit_mod_pow2 by lia.
  destruct (Z.ltb_spec i k); [lia | reflexivity].
Qed.

Lemma byte_testbit_high (b : byte) (i : Z) :
  8 <= i -> Z.testbit (byte_to_Z b) i = false.
Proof.
  intros. apply (testbit_above _ 8); try lia.
  pose proof (byte_to_Z_range b). change (2 ^ 8) with 256. lia.
Qed.

Lemma word16_range (b0 b1 : byte) : 0 <= word16 b0 b1 < 65536.
Proof.
  unfold word16.
  pose proof (byte_to_Z_range b0). pose proof (byte_to_Z_range b1).
  assert (Hn : 0 <= Z.lor (byte_to_Z b1) (Z.shiftl (byte_to_Z b0) 8)).
  { apply Z.lor_nonneg. split; [lia | apply Z.shiftl_nonneg; lia]. }
  split; [exact Hn |].
  destruct (Z.eq_dec (Z.lor (byte_to_Z b1) (Z.shiftl (byte_to_Z b0) 8)) 0)
    as [E | E]; [lia |].
  change 65536 with (2 ^ 16). apply Z.log2_lt_pow2; [lia |].
  rewrite Z.log2_lor by (try apply Z.shiftl_nonneg; lia).
  apply Z.max_lub_lt.
  - destruct (Z.eq_dec (byte_to_Z b1) 0) as [E1 | E1];
      [rewrite E1; simpl; lia |].
    apply Z.log2_lt_pow2; [lia |]. change (2 ^ 16) with 65536. lia.
  - destruct (Z.eq_dec (byte_to_Z b0) 0) as [E0 | E0].
    + rewrite E0, Z.shiftl_0_l. simpl. lia.
    + rewrite Z.log2_shiftl by lia.
      assert (Z.log2 (byte_to_Z b0) < 8)
        by (apply Z.log2_lt_pow2; [lia |]; change (2 ^ 8) with 256; lia).
      lia.
Qed.

(** Reading back the two bytes of a 16-bit word. *)
Lemma word16_be16 (v : Z) :
  0 <= v < 65536 ->
  word16 (Z_to_byte (Z.shiftr v 8)) (Z_to_byte v) = v.
Proof.
  intros Hv. unfold word16. rewrite !byte_to_Z_to_byte.
  change 256 with (2 ^ 8).
  apply Z.bits_inj'. intros i Hi.
  rewrite Z.lor_spec, Z.testbit_mod_pow2 by lia.
  rewrite Z.shiftl_spec by lia.
  destruct (Z.ltb_spec i 8) as [Hlt | Hge].
  - rewrite (Z.testbit_neg_r _ (i - 8)) by lia.
    rewrite orb_false_r. reflexivity.
  - rewrite Z.testbit_mod_pow2 by lia.
    rewrite Z.shiftr_spec by lia.
    replace (i - 8 + 8) with i by lia. simpl.
    destruct (Z.ltb_spec (i - 8) 8) as [Hlt' | Hge']; [reflexivity |].
    simpl. symmetry. apply (testbit_above v 16); try lia.
Qed.

(** ** The VLAN tag codec *)

Lemma VLAN_MarshalBinary_ok (v : VLAN.t) :
  VLAN.ID v < 4095 ->
  VLAN.MarshalBinary v = (Some (be16 (vlan_word v)), Ok tt).
Proof.
  intros H. unfold VLAN.MarshalBinary, VLAN.VLANMax.
  destruct (Z.leb_spec 4095 (VLAN.ID v)); [lia | reflexivity].
Qed.

Lemma VLAN_MarshalBinary_err (v : VLAN.t) :
  4095 <= VLAN.ID v ->
  VLAN.MarshalBinary v = (None, Err ErrInvalidVLAN).
Proof.
  intros H. unfold VLAN.MarshalBinary, VLAN.VLANMax.
  destruct (Z.leb_spec 4095 (VLAN.ID v)); [reflexivity | lia].
Qed.

Lemma VLAN_UnmarshalBinary_two (b0 b1 : byte) (v : VLAN.t) :
  VLAN.UnmarshalBinary [b0; b1] v =
  (vlan_of_word (word16 b0 b1),
   if 4095 <=? Z.land (word16 b0 b1) 0x0fff
   then Err ErrInvalidVLAN else Ok tt).
Proof.
  cbv [VLAN.UnmarshalBinary bind lift modify get throw ret slice length
       Nat.eqb negb Nat.leb andb Nat.sub skipn firstn Uint16
       VLAN.set_Priority VLAN.set_DropEligible VLAN.set_ID
       VLAN.Priority VLAN.DropEligible VLAN.ID VLAN.VLANMax].
  fold (word16 b0 b1).
  destruct (4095 <=? Z.land (word16 b0 b1) 4095); reflexivity.
Qed.

Lemma VLAN_UnmarshalBinary_length (b : list byte) (v : VLAN.t) :
  length b <> 2%nat ->
  VLAN.UnmarshalBinary b v = (v, Err ErrUnexpectedEOF).
Proof.
  intros H. unfold VLAN.UnmarshalBinary.
  destruct (Nat.eqb_spec (length b) 2); [contradiction | reflexivity].
Qed.

(** The bits of the packed word. *)
Lemma vlan_word_bits (v : VLAN.t) (i : Z) :
  0 <= VLAN.Priority v -> 0 <= VLAN.ID v < 4096 -> 0 <= i ->
  Z.testbit (vlan_word v) i =
  if i <? 12 then Z.testbit (VLAN.ID v) i
  else if i =? 12 then VLAN.DropEligible v
  else if i <? 16 then Z.testbit (VLAN.Priority v) (i - 13)
  else false.
Proof.
  intros HP HI Hi. unfold vlan_word, uint16.
  change 65536 with (2 ^ 16).
  rewrite !Z.lor_spec, !Z.testbit_mod_pow2, !Z.shiftl_spec by lia.
  assert (Hd : forall j, Z.testbit (if VLAN.DropEligible v then 1 else 0) j
                         = (j =? 0) && VLAN.DropEligible v).
  { intros j. destruct (VLAN.DropEligible v).
    - change 1 with (2 ^ 0). rewrite Z.pow2_bits_eqb by lia.
      rewrite Z.eqb_sym, andb_true_r. reflexivity.
    - rewrite Z.bits_0, andb_false_r. reflexivity. }
  rewrite Hd.
  destruct (Z.ltb_spec i 12) as [H12 | H12].
  - rewrite (Z.testbit_neg_r _ (i - 13)) by lia.
    destruct (Z.eqb_spec (i - 12) 0); [lia |].
    rewrite !andb_false_r. reflexivity.
  - rewrite (testbit_above (VLAN.ID v) 12 i) by (change (2 ^ 12) with 4096; lia).
    rewrite orb_false_r.
    destruct (Z.eqb_spec i 12) as [E | E].
    + subst i.
      replace (Z.testbit (VLAN.Priority v) (12 - 13)) with false
        by (symmetry; apply Z.testbit_neg_r; lia).
      reflexivity.
    + destruct (Z.eqb_spec (i - 12) 0); [lia |].
      destruct (Z.ltb_spec i 16); simpl; rewrite ?orb_false_r; reflexivity.
Qed.

Lemma vlan_word_range (v : VLAN.t) :
  0 <= VLAN.Priority v -> 0 <= VLAN.ID v < 4096 ->
  0 <= vlan_word v < 65536.
Proof.
  intros HP HI.
  assert (Hn : 0 <= vlan_word v).
  { unfold vlan_word, uint16.
    apply Z.lor_nonneg. split; [| lia].
    apply Z.lor_nonneg. split; apply Z.mod_pos_bound; lia. }
  split; [exact Hn |].
  assert (E : vlan_word v mod 2 ^ 16 = vlan_word v).
  { apply Z.bits_inj'. intros i Hi.
    rewrite Z.testbit_mod_pow2 by lia.
    destruct (Z.ltb_spec i 16); [reflexivity |].
    rewrite vlan_word_bits by lia.
    destruct (Z.ltb_spec i 12); [lia |].
    destruct (Z.eqb_spec i 12); [lia |].
    destruct (Z.ltb_spec i 16); [lia | reflexivity]. }
  rewrite <- E. change 65536 with (2 ^ 16). apply Z.mod_pos_bound. lia.
Qed.

(** Bits 15-13 hold the priority modulo 8. *)
Lemma vlan_word_priority (v : VLAN.t) :
  0 <= VLAN.Priority v -> 0 <= VLAN.ID v < 4096 ->
  Z.shiftr (vlan_word v) 13 = VLAN.Priority v mod 8.
Proof.
  intros HP HI. change 8 with (2 ^ 3).
  apply Z.bits_inj'. intros i Hi.
  rewrite Z.shiftr_spec, Z.testbit_mod_pow2, vlan_word_bits by lia.
  destruct (Z.ltb_spec (i + 13) 12); [lia |].
  destruct (Z.eqb_spec (i + 13) 12); [lia |].
  replace (i + 13 - 13) with i by lia.
  destruct (Z.ltb_spec (i + 13) 16), (Z.ltb_spec i 3);
    try lia; reflexivity.
Qed.

(** Bit 12 is the drop-eligible flag. *)
Lemma vlan_word_drop (v : VLAN.t) :
  0 <= VLAN.Priority v -> 0 <= VLAN.ID v < 4096 ->
  Z.testbit (vlan_word v) 12 = VLAN.DropEligible v.
Proof.
  intros HP HI. rewrite vlan_word_bits by lia. reflexivity.
Qed.

(** Bits 11-0 are the identifier. *)
Lemma vlan_word_id (v : VLAN.t) :
  0 <= VLAN.Priority v -> 0 <= VLAN.ID v < 4096 ->
  Z.land (vlan_word v) 0x0fff = VLAN.ID v.
Proof.
  intros HP HI. change 0x0fff with (Z.ones 12).
  rewrite Z.land_ones by lia.
  apply Z.bits_inj'. intros i Hi.
  rewrite Z.testbit_mod_pow2, vlan_word_bits by lia.
  destruct (Z.ltb_spec i 12); [reflexivity |].
  symmetry. apply (testbit_above _ 12); lia.
Qed.

(** The test [ub&0x1000 != 0] reads bit 12. *)
Lemma land_bit12 (w : Z) : negb (Z.land w 0x1000 =? 0) = Z.testbit w 12.
Proof.
  assert (E : Z.land w 0x1000 = if Z.testbit w 12 then 0x1000 else 0).
  { apply Z.bits_inj'. intros i Hi.
    rewrite Z.land_spec. change 0x1000 with (2 ^ 12).
    rewrite Z.pow2_bits_eqb by lia.
    destruct (Z.eqb_spec 12 i) as [E | E].
    - subst i. rewrite andb_true_r.
      destruct (Z.testbit w 12); [| rewrite Z.bits_0; reflexivity].
      rewrite Z.pow2_bits_eqb by lia. reflexivity.
    - rewrite andb_false_r.
      destruct (Z.testbit w 12); [| rewrite Z.bits_0; reflexivity].
      rewrite Z.pow2_bits_eqb by lia.
      destruct (Z.eqb_spec 12 i); [contradiction | reflexivity]. }
  rewrite E. destruct (Z.testbit w 12); reflexivity.
Qed.

Lemma vlan_of_word_vlan_word (v : VLAN.t) :
  good_tag v -> vlan_of_word (vlan_word v) = v.
Proof.
  intros [HP HI]. unfold vlan_of_word.
  rewrite land_bit12, vlan_word_drop, vlan_word_id, vlan_word_priority by lia.
  unfold uint8. rewrite (Z.mod_small (VLAN.Priority v) 8) by lia.
  rewrite Z.mod_small by lia. destruct v; reflexivity.
Qed.

Lemma VLAN_roundtrip (v v0 : VLAN.t) :
  good_tag v ->
  VLAN.UnmarshalBinary (be16 (vlan_word v)) v0 = (v, Ok tt).
Proof.
  intros Hg. pose proof Hg as [HP HI]. unfold be16.
  rewrite VLAN_UnmarshalBinary_two.
  rewrite word16_be16 by (apply vlan_word_range; lia).
  rewrite vlan_of_word_vlan_word by assumption.
  rewrite vlan_word_id by lia.
  destruct (Z.leb_spec 4095 (VLAN.ID v)); [lia | reflexivity].
Qed.

(** ** Slices of a buffer that is given as a concatenation *)

Section Slices.

Local Open Scope nat_scope.

Lemma slice_app_r (pre x : list byte) (lo hi : nat) :
  slice (pre ++ x) (length pre + lo) (length pre + hi) = slice x lo hi.
Proof.
  unfold slice. rewrite length_app.
  replace (length pre + hi - (length pre + lo)) with (hi - lo) by lia.
  rewrite skipn_app, skipn_all2 by lia.
  replace (length pre + lo - length pre) with lo by lia. simpl.
  destruct (Nat.leb_spec lo hi), (Nat.leb_spec (length pre + lo) (length pre + hi));
    try lia; simpl; try reflexivity.
  destruct (Nat.leb_spec hi (length x)),
           (Nat.leb_spec (length pre + hi) (length pre + length x));
    try lia; reflexivity.
Qed.

Lemma slice_from_app_r (pre x : list byte) (lo : nat) :
  slice_from (pre ++ x) (length pre + lo) = slice_from x lo.
Proof.
  unfold slice_from. rewrite length_app. apply slice_app_r.
Qed.

Lemma slice_prefix (mid post : list byte) :
  slice (mid ++ post) 0 (length mid) = Some mid.
Proof.
  unfold slice. rewrite length_app. simpl.
  destruct (Nat.leb_spec (length mid) (length mid + length post)); [| lia].
  rewrite Nat.sub_0_r, firstn_app, Nat.sub_diag, firstn_all. simpl.
  rewrite app_nil_r. reflexivity.
Qed.

Lemma slice_middle (pre mid post : list byte) :
  slice (pre ++ mid ++ post) (length pre) (length pre + length mid) = Some mid.
Proof.
  rewrite <- (Nat.add_0_r (length pre)) at 1.
  rewrite slice_app_r. apply slice_prefix.
Qed.

Lemma slice_from_suffix (pre x : list byte) :
  slice_from (pre ++ x) (length pre) = Some x.
Proof.
  rewrite <- (Nat.add_0_r (length pre)).
  rewrite slice_from_app_r. unfold slice_from.
  rewrite <- (app_nil_r x) at 1. apply slice_prefix.
Qed.

Lemma slice_from_in_range (b : list byte) (n : nat) :
  n <= length b -> slice_from b n = Some (skipn n b).
Proof.
  intros H. unfold slice_from, slice.
  destruct (Nat.leb_spec n (length b)); [| lia]. simpl.
  rewrite Nat.leb_refl.
  rewrite firstn_all2 by (rewrite length_skipn; lia). reflexivity.
Qed.

Lemma slice_in_range (b : list byte) (lo hi : nat) :
  lo <= hi -> hi <= length b ->
  slice b lo hi = Some (firstn (hi - lo) (skipn lo b)).
Proof.
  intros H1 H2. unfold slice.
  destruct (Nat.leb_spec lo hi), (Nat.leb_spec hi (length b)); try lia.
  reflexivity.
Qed.

(** Storing through a sub-slice that a program leaves with its length. *)
Lemma focus_app {A} (m : M (list byte) A) (pre mid post s' : list byte)
      (r : result A) :
  m mid = (s', r) -> length s' = length mid ->
  focus (length pre) (length pre + length mid) m (pre ++ mid ++ post)
  = (pre ++ s' ++ post, r).
Proof.
  intros Hm Hl. unfold focus. rewrite slice_middle, Hm. unfold splice.
  rewrite firstn_app, Nat.sub_diag, firstn_all. simpl. rewrite app_nil_r.
  rewrite skipn_app, skipn_all2 by lia.
  replace (length pre + length s' - length pre) with (length mid) by lia.
  rewrite skipn_app, skipn_all, Nat.sub_diag. reflexivity.
Qed.

Lemma focus_from_app {A} (m : M (list byte) A) (pre mid s' : list byte)
      (r : result A) :
  m mid = (s', r) -> length s' = length mid ->
  focus_from (length pre) m (pre ++ mid) = (pre ++ s', r).
Proof.
  intros Hm Hl. unfold focus_from.
  rewrite <- (app_nil_r mid) at 1 2.
  rewrite length_app, length_app. simpl. rewrite Nat.add_0_r.
  rewrite (focus_app m pre mid [] s' r Hm Hl), app_nil_r. reflexivity.
Qed.

Lemma firstn_exact (a x : list byte) (n : nat) :
  length a = n -> firstn n (a ++ x) = a.
Proof.
  intros <-. rewrite firstn_app, Nat.sub_diag, firstn_all. simpl.
  apply app_nil_r.
Qed.

Lemma skipn_exact (a x : list byte) (n : nat) :
  length a = n -> skipn n (a ++ x) = x.
Proof.
  intros <-. rewrite skipn_app, Nat.sub_diag, skipn_all. reflexivity.
Qed.

Lemma focus_at {A} (m : M (list byte) A) (pre mid post s' : list byte)
      (r : result A) (lo hi : nat) :
  lo = length pre -> hi = lo + length mid ->
  m mid = (s', r) -> length s' = length mid ->
  focus lo hi m (pre ++ mid ++ post) = (pre ++ s' ++ post, r).
Proof. intros -> ->. apply focus_app. Qed.

Lemma focus_from_at {A} (m : M (list byte) A) (pre mid s' : list byte)
      (r : result A) (lo : nat) :
  lo = length pre ->
  m mid = (s', r) -> length s' = length mid ->
  focus_from lo m (pre ++ mid) = (pre ++ s', r).
Proof. intros ->. apply focus_from_app. Qed.

(** [copy] onto a fresh buffer of the length of the source. *)
Lemma copy_make (src : list byte) :
  copy src (make (length src)) = (src, Ok (length src)).
Proof.
  unfold copy, make. rewrite repeat_length, firstn_all.
  rewrite skipn_all2 by (rewrite repeat_length; lia).
  rewrite app_nil_r, Nat.min_id. reflexivity.
Qed.

(** [copy] onto a buffer of zeros: the source cut or padded to its length. *)
Lemma copy_zeros (src : list byte) (n : nat) :
  fst (copy src (make n)) = firstn n src ++ repeat x00 (n - length src).
Proof.
  unfold copy, make. simpl. rewrite repeat_length. f_equal.
  destruct (Nat.le_gt_cases n (length src)) as [H | H].
  - rewrite skipn_all2 by (rewrite repeat_length; lia).
    replace (n - length src) with 0 by lia. reflexivity.
  - replace n with (length src + (n - length src)) at 1 by lia.
    rewrite repeat_app, skipn_app, repeat_length, Nat.sub_diag.
    rewrite skipn_all2 by (rewrite repeat_length; lia). reflexivity.
Qed.

End Slices.

(** ** The wire format *)

Section Encoder.

Local Open Scope nat_scope.

Lemma bind_ok {S A B} (m : M S A) (k : A -> M S B) (s s' : S) (a : A) :
  m s = (s', Ok a) -> bind m k s = k a s'.
Proof. intros H. unfold bind. rewrite H. reflexivity. Qed.

Lemma bind_err {S A B} (m : M S A) (k : A -> M S B) (s s' : S) (e : error) :
  m s = (s', Err e) -> bind m k s = (s', Err e).
Proof. intros H. unfold bind. rewrite H. reflexivity. Qed.

Lemma length_fit (n : nat) (a : list byte) : length (fit n a) = n.
Proof.
  unfold fit. rewrite length_app, length_firstn, repeat_length. lia.
Qed.

Lemma fit_exact (n : nat) (a : list byte) : length a = n -> fit n a = a.
Proof.
  intros H. unfold fit. rewrite <- H, firstn_all, Nat.sub_diag.
  apply app_nil_r.
Qed.

Lemma copy_zeros_eq (src : list byte) (n : nat) :
  copy src (make n) = (fit n src, Ok (Nat.min n (length src))).
Proof.
  rewrite (surjective_pairing (copy src (make n))), copy_zeros.
  unfold copy, make. simpl. rewrite repeat_length. reflexivity.
Qed.

Lemma length_be16 (v : Z) : length (be16 v) = 2.
Proof. reflexivity. Qed.

Lemma length_tag_wire (v : VLAN.t) : length (tag_wire v) = 4.
Proof. reflexivity. Qed.

Lemma length_tags_wire (vs : list VLAN.t) :
  length (tags_wire vs) = 4 * length vs.
Proof.
  induction vs as [| v vs IH]; [reflexivity |].
  unfold tags_wire in *.
  change (flat_map tag_wire (v :: vs)) with (tag_wire v ++ flat_map tag_wire vs).
  rewrite length_app, IH, length_tag_wire. simpl length. lia.
Qed.

Lemma VLAN_read_ok (v : VLAN.t) :
  (VLAN.ID v < 4095)%Z ->
  VLAN.read v (make 2) = (be16 (vlan_word v), Ok 2).
Proof.
  intros H. unfold VLAN.read. rewrite VLAN_MarshalBinary_ok by assumption.
  reflexivity.
Qed.

Lemma VLAN_read_err (v : VLAN.t) (s : list byte) :
  (4095 <= VLAN.ID v)%Z ->
  VLAN.read v s = (s, Err ErrInvalidVLAN).
Proof.
  intros H. unfold VLAN.read. rewrite VLAN_MarshalBinary_err by assumption.
  reflexivity.
Qed.

(** One turn of the encoder's loop on zeroed bytes. *)
Lemma put_vlans_step (v : VLAN.t) (vs : list VLAN.t) (pre post : list byte) :
  (VLAN.ID v < 4095)%Z ->
  put_vlans (v :: vs) (length pre) (pre ++ make 4 ++ post)
  = put_vlans vs (length (pre ++ tag_wire v)) ((pre ++ tag_wire v) ++ post).
Proof.
  intros Hv. simpl put_vlans.
  change (make 4 ++ post) with (make 2 ++ (make 2 ++ post)).
  rewrite (bind_ok _ _ _ (pre ++ be16 EtherTypeVLAN ++ (make 2 ++ post)) tt).
  2:{ apply (focus_app (PutUint16 (uint16 EtherTypeVLAN)) pre (make 2));
      reflexivity. }
  replace (pre ++ be16 EtherTypeVLAN ++ make 2 ++ post)
    with ((pre ++ be16 EtherTypeVLAN) ++ make 2 ++ post)
    by (rewrite <- app_assoc; reflexivity).
  replace (length pre + 2) with (length (pre ++ be16 EtherTypeVLAN))
    by (rewrite length_app; reflexivity).
  replace (length pre + 4) with (length (pre ++ be16 EtherTypeVLAN) + length (make 2))
    by (rewrite length_app; simpl; lia).
  rewrite (bind_ok _ _ _ ((pre ++ be16 EtherTypeVLAN) ++ be16 (vlan_word v) ++ post) 2).
  2:{ apply focus_app; [apply VLAN_read_ok; assumption | reflexivity]. }
  unfold tag_wire. rewrite !length_app, <- !app_assoc. simpl length.
  replace (length pre + 2 + 2) with (length pre + (2 + 2)) by lia.
  reflexivity.
Qed.

Lemma put_vlans_ok (vs : list VLAN.t) :
  forall pre post : list byte,
    ids_ok vs ->
    put_vlans vs (length pre) (pre ++ make (4 * length vs) ++ post)
    = (pre ++ tags_wire vs ++ post, Ok (length pre + 4 * length vs)).
Proof.
  induction vs as [| v vs IH]; intros pre post Hok.
  - simpl. rewrite Nat.add_0_r. reflexivity.
  - inversion Hok as [| ? ? Hv Hvs]; subst.
    replace (4 * length (v :: vs)) with (4 + 4 * length vs) by (simpl; lia).
    unfold make at 1. rewrite repeat_app, <- app_assoc.
    fold (make 4). fold (make (4 * length vs)).
    rewrite put_vlans_step by assumption.
    rewrite (IH (pre ++ tag_wire v) post) by assumption.
    rewrite length_app, length_tag_wire.
    change (tags_wire (v :: vs)) with (tag_wire v ++ tags_wire vs).
    rewrite <- !app_assoc. f_equal. f_equal. simpl length. lia.
Qed.

Lemma put_vlans_err (vs : list VLAN.t) :
  forall pre post : list byte,
    ~ ids_ok vs ->
    exists b' : list byte,
      put_vlans vs (length pre) (pre ++ make (4 * length vs) ++ post)
      = (b', Err ErrInvalidVLAN).
Proof.
  induction vs as [| v vs IH]; intros pre post Hbad.
  - exfalso. apply Hbad. constructor.
  - replace (4 * length (v :: vs)) with (4 + 4 * length vs) by (simpl; lia).
    unfold make at 1. rewrite repeat_app, <- app_assoc.
    fold (make 4). fold (make (4 * length vs)).
    destruct (Z_lt_le_dec (VLAN.ID v) 4095) as [Hv | Hv].
    + rewrite put_vlans_step by assumption.
      apply IH. intros Hvs. apply Hbad. constructor; assumption.
    + simpl put_vlans.
      change (make 4 ++ make (4 * length vs) ++ post)
        with (make 2 ++ (make 2 ++ make (4 * length vs) ++ post)).
      rewrite (bind_ok _ _ _
                 (pre ++ be16 EtherTypeVLAN ++ (make 2 ++ make (4 * length vs) ++ post)) tt).
      2:{ apply (focus_app (PutUint16 (uint16 EtherTypeVLAN)) pre (make 2));
          reflexivity. }
      rewrite (app_assoc pre (be16 EtherTypeVLAN)).
      replace (length pre + 2) with (length (pre ++ be16 EtherTypeVLAN))
        by (rewrite length_app; reflexivity).
      replace (length pre + 4)
        with (length (pre ++ be16 EtherTypeVLAN) + length (make 2))
        by (rewrite length_app; simpl; lia).
      eexists. apply bind_err. apply focus_app;
        [apply VLAN_read_err; assumption | reflexivity].
Qed.

Lemma put_vlans_at (vs : list VLAN.t) (pre post : list byte) (n : nat) :
  n = length pre -> ids_ok vs ->
  put_vlans vs n (pre ++ make (4 * length vs) ++ post)
  = (pre ++ tags_wire vs ++ post, Ok (n + 4 * length vs)).
Proof. intros ->. apply put_vlans_ok. Qed.

Lemma put_vlans_err_at (vs : list VLAN.t) (pre post : list byte) (n : nat) :
  n = length pre -> ~ ids_ok vs ->
  exists b' : list byte,
    put_vlans vs n (pre ++ make (4 * length vs) ++ post)
    = (b', Err ErrInvalidVLAN).
Proof. intros ->. apply put_vlans_err. Qed.

End Encoder.

(** ** The encoder writes the wire format *)

Section EncoderRuns.

Local Open Scope nat_scope.

Lemma length_split (f : Frame.t) :
  make (Ethernet3.length f)
  = [] ++ make 6 ++ make 6 ++ make (4 * length (Frame.VLAN f)) ++ make 2
       ++ make (Nat.max (length (Frame.Payload f)) 46).
Proof.
  unfold Ethernet3.length, make. rewrite app_nil_l.
  rewrite <- !repeat_app. f_equal.
  destruct (Nat.ltb_spec (length (Frame.Payload f)) 46); lia.
Qed.

Lemma fit_payload (p : list byte) :
  fit (Nat.max (length p) 46) p = p ++ padding p.
Proof.
  unfold fit, padding. rewrite firstn_all2 by lia. f_equal. f_equal. lia.
Qed.

(** The statements of the encoder from the first [copy] to the last, run
    on the zeroed buffer, then [k]. *)
Lemma encode_steps {X} (f : Frame.t) (k : nat -> M (list byte) X) :
  ids_ok (Frame.VLAN f) ->
  (focus 0 6 (copy (Frame.Destination f)) ;;
   focus 6 12 (copy (Frame.Source f)) ;;
   n <- put_vlans (Frame.VLAN f) 12 ;;
   focus n (n + 2) (PutUint16 (uint16 (Frame.EtherType f))) ;;
   x <- focus_from (n + 2) (copy (Frame.Payload f)) ;;
   k x) (make (Ethernet3.length f))
  = k (Nat.min (Nat.max (length (Frame.Payload f)) 46)
               (length (Frame.Payload f)))
      (wire f).
Proof.
  intros Hok. rewrite length_split.
  set (d := fit 6 (Frame.Destination f)).
  set (s := fit 6 (Frame.Source f)).
  assert (Hd : length d = 6) by apply length_fit.
  assert (Hs : length s = 6) by apply length_fit.
  erewrite bind_ok.
  2:{ apply (focus_at (copy (Frame.Destination f)) [] (make 6));
      [reflexivity | reflexivity | apply copy_zeros_eq | apply length_fit]. }
  fold d. rewrite app_nil_l.
  erewrite bind_ok.
  2:{ apply (focus_at (copy (Frame.Source f)) d (make 6));
      [ congruence | reflexivity | apply copy_zeros_eq | apply length_fit]. }
  fold s.
  erewrite bind_ok.
  2:{ rewrite (app_assoc d s).
      apply put_vlans_at;
        [rewrite length_app, Hd, Hs; reflexivity | assumption]. }
  rewrite (app_assoc (d ++ s)).
  assert (Hl : length ((d ++ s) ++ tags_wire (Frame.VLAN f))
               = 12 + 4 * length (Frame.VLAN f))
    by (rewrite (length_app (d ++ s)), length_tags_wire, length_app, Hd, Hs;
        reflexivity).
  erewrite bind_ok.
  2:{ apply (focus_at (PutUint16 (uint16 (Frame.EtherType f))) _ (make 2)
               _ (be16 (uint16 (Frame.EtherType f))));
      [symmetry; exact Hl | reflexivity | reflexivity | reflexivity]. }
  rewrite (app_assoc _ (be16 _)).
  erewrite bind_ok.
  2:{ apply focus_from_at;
        [ rewrite (length_app _ (be16 _)), Hl; reflexivity
        | apply copy_zeros_eq
        | rewrite length_fit; unfold make; rewrite repeat_length; reflexivity]. }
  unfold wire. fold d. fold s.
  rewrite fit_payload. rewrite <- !app_assoc. reflexivity.
Qed.

Lemma encode_steps_err {X} (f : Frame.t) (k : nat -> M (list byte) X) :
  ~ ids_ok (Frame.VLAN f) ->
  exists b' : list byte,
    (focus 0 6 (copy (Frame.Destination f)) ;;
     focus 6 12 (copy (Frame.Source f)) ;;
     n <- put_vlans (Frame.VLAN f) 12 ;;
     focus n (n + 2) (PutUint16 (uint16 (Frame.EtherType f))) ;;
     x <- focus_from (n + 2) (copy (Frame.Payload f)) ;;
     k x) (make (Ethernet3.length f))
    = (b', Err ErrInvalidVLAN).
Proof.
  intros Hbad. rewrite length_split.
  set (d := fit 6 (Frame.Destination f)).
  set (s := fit 6 (Frame.Source f)).
  assert (Hd : length d = 6) by apply length_fit.
  assert (Hs : length s = 6) by apply length_fit.
  erewrite bind_ok.
  2:{ apply (focus_at (copy (Frame.Destination f)) [] (make 6));
      [reflexivity | reflexivity | apply copy_zeros_eq | apply length_fit]. }
  fold d. rewrite app_nil_l.
  erewrite bind_ok.
  2:{ apply (focus_at (copy (Frame.Source f)) d (make 6));
      [ congruence | reflexivity | apply copy_zeros_eq | apply length_fit]. }
  fold s.
  destruct (put_vlans_err_at (Frame.VLAN f) (d ++ s)
              (make 2 ++ make (Nat.max (length (Frame.Payload f)) 46)) 12)
    as [b' Hb'];
    [rewrite length_app, Hd, Hs; reflexivity | assumption |].
  exists b'. apply bind_err.
  rewrite (app_assoc d s). exact Hb'.
Qed.

Lemma ids_ok_dec (vs : list VLAN.t) : {ids_ok vs} + {~ ids_ok vs}.
Proof.
  apply Forall_dec. intros v. apply Z_lt_dec.
Qed.

End EncoderRuns.

Section EncoderResults.

Local Open Scope nat_scope.

Lemma Ethernet1_MarshalBinary_ok (f : Frame.t) :
  ids_ok (Frame.VLAN f) ->
  Ethernet1.MarshalBinary f = (Some (wire f), Ok tt).
Proof.
  intros Hok. unfold Ethernet1.MarshalBinary.
  change (make _) with (make (Ethernet3.length f)).
  rewrite (encode_steps f (fun _ => ret tt) Hok). reflexivity.
Qed.

Lemma Ethernet1_MarshalBinary_err (f : Frame.t) :
  ~ ids_ok (Frame.VLAN f) ->
  Ethernet1.MarshalBinary f = (None, Err ErrInvalidVLAN).
Proof.
  intros Hbad. unfold Ethernet1.MarshalBinary.
  change (make _) with (make (Ethernet3.length f)).
  destruct (encode_steps_err f (fun _ => ret tt) Hbad) as [b' ->].
  reflexivity.
Qed.

Lemma Ethernet2_MarshalBinary_eq (f : Frame.t) :
  Ethernet2.MarshalBinary f = Ethernet1.MarshalBinary f.
Proof. reflexivity. Qed.

Lemma Ethernet3_read_ok (f : Frame.t) :
  ids_ok (Frame.VLAN f) ->
  Ethernet3.read f (make (Ethernet3.length f))
  = (wire f, Ok (length (wire f))).
Proof.
  intros Hok. unfold Ethernet3.read.
  rewrite (encode_steps f (fun _ => b <- get ;; ret (length b)) Hok).
  reflexivity.
Qed.

Lemma Ethernet3_MarshalBinary_ok (f : Frame.t) :
  ids_ok (Frame.VLAN f) ->
  Ethernet3.MarshalBinary f = (Some (wire f), Ok tt).
Proof.
  intros Hok. unfold Ethernet3.MarshalBinary.
  rewrite Ethernet3_read_ok by assumption. reflexivity.
Qed.

Lemma Ethernet3_MarshalBinary_err (f : Frame.t) :
  ~ ids_ok (Frame.VLAN f) ->
  exists b' : list byte,
    Ethernet3.MarshalBinary f = (Some b', Err ErrInvalidVLAN).
Proof.
  intros Hbad. unfold Ethernet3.MarshalBinary, Ethernet3.read.
  destruct (encode_steps_err f (fun _ => b <- get ;; ret (length b)) Hbad)
    as [b' ->].
  exists b'. reflexivity.
Qed.

Lemma length_wire (f : Frame.t) :
  length (wire f)
  = 12 + 4 * length (Frame.VLAN f) + 2
    + Nat.max (length (Frame.Payload f)) 46.
Proof.
  unfold wire, padding.
  rewrite !length_app, !length_fit, length_tags_wire, length_be16,
    repeat_length.
  lia.
Qed.

End EncoderResults.

(** ** The decoder's loop *)

Section DecoderLoop.

Local Open Scope nat_scope.

Lemma add_tags_nil (f : Frame.t) : add_tags [] f = f.
Proof. unfold add_tags. rewrite app_nil_r. destruct f; reflexivity. Qed.

Lemma add_tags_cons (t : VLAN.t) (ts : list VLAN.t) (f : Frame.t) :
  add_tags ts (Frame.append_VLAN t f) = add_tags (t :: ts) f.
Proof.
  unfold add_tags, Frame.append_VLAN. simpl.
  rewrite <- app_assoc. reflexivity.
Qed.

Lemma vlan_loop_stop (need fuel : nat) (b : list byte) (n : nat) (et : Z)
      (f : Frame.t) :
  et <> EtherTypeVLAN ->
  vlan_loop need fuel b n et f = (f, Ok (n, et)).
Proof.
  intros H. destruct fuel; simpl;
    destruct (Z.eqb_spec et EtherTypeVLAN); try contradiction; reflexivity.
Qed.

Lemma vlan_loop_turn (need fuel : nat) (b : list byte) (n : nat) :
  vlan_loop need (S fuel) b n EtherTypeVLAN
  = (rest <- lift (slice_from b n) ;;
     if length rest <? need then throw ErrUnexpectedEOF
     else
       s <- lift (slice b n (n + 2)) ;;
       '(vlan, _) <- call (VLAN.UnmarshalBinary s) VLAN.new ;;
       modify (Frame.append_VLAN vlan) ;;
       s' <- lift (slice b (n + 2) (n + 4)) ;;
       et' <- lift (Uint16 s') ;;
       vlan_loop need fuel b (n + 4) et').
Proof. reflexivity. Qed.

Lemma list_of_length_2 (s : list byte) :
  length s = 2 -> exists b0 b1, s = [b0; b1].
Proof.
  destruct s as [| b0 [| b1 [| ? ?]]]; simpl; intros H; try discriminate.
  eauto.
Qed.

(** The loop on any buffer, from an offset inside it: what it appends does
    not depend on the receiver, and it ends as [loop_end] says. *)
Lemma vlan_loop_any (need : nat) (b : list byte) :
  2 <= need <= 4 ->
  forall (fuel n : nat) (et : Z),
    n <= length b -> length b - n < 4 * fuel ->
    exists (ts : list VLAN.t) (r : result (nat * Z)),
      (forall f, vlan_loop need fuel b n et f = (add_tags ts f, r))
      /\ loop_end need b n ts r.
Proof.
  intros Hneed. induction fuel as [| fuel IH]; intros n et Hn Hfuel; [lia |].
  destruct (Z.eq_dec et EtherTypeVLAN) as [-> | Het].
  2:{ exists [], (Ok (n, et)). split.
      - intros f. rewrite add_tags_nil. apply vlan_loop_stop. assumption.
      - simpl. repeat split; [lia | assumption | assumption]. }
  rewrite vlan_loop_turn.
  destruct (Nat.ltb_spec (length b - n) need) as [Hshort | Hlong].
  { exists [], (Err ErrUnexpectedEOF). split; [| left; reflexivity].
    intros f. rewrite add_tags_nil.
    erewrite bind_ok
      by (unfold lift; rewrite slice_from_in_range by assumption; reflexivity).
    rewrite length_skipn.
    destruct (Nat.ltb_spec (length b - n) need); [reflexivity | lia]. }
  assert (Hs : exists b0 b1, slice b n (n + 2) = Some [b0; b1]).
  { rewrite slice_in_range by lia.
    destruct (list_of_length_2 (firstn (n + 2 - n) (skipn n b))) as (b0 & b1 & E).
    - rewrite length_firstn, length_skipn. lia.
    - exists b0, b1. rewrite E. reflexivity. }
  destruct Hs as (b0 & b1 & Hs).
  pose proof (VLAN_UnmarshalBinary_two b0 b1 VLAN.new) as Hv.
  destruct (4095 <=? Z.land (word16 b0 b1) 4095)%Z eqn:Hid.
  { exists [], (Err ErrInvalidVLAN). split; [| right; reflexivity].
    intros f. rewrite add_tags_nil.
    erewrite bind_ok
      by (unfold lift; rewrite slice_from_in_range by assumption; reflexivity).
    rewrite length_skipn.
    destruct (Nat.ltb_spec (length b - n) need); [lia |].
    erewrite bind_ok by (unfold lift; rewrite Hs; reflexivity).
    apply bind_err. unfold call. rewrite Hv. reflexivity. }
  set (v := vlan_of_word (word16 b0 b1)) in *.
  destruct (Nat.le_gt_cases (n + 4) (length b)) as [Hfour | Hfour].
  - assert (Hs' : exists y0 y1, slice b (n + 2) (n + 4) = Some [y0; y1]).
    { rewrite slice_in_range by lia.
      destruct (list_of_length_2 (firstn (n + 4 - (n + 2)) (skipn (n + 2) b)))
        as (y0 & y1 & E).
      - rewrite length_firstn, length_skipn. lia.
      - exists y0, y1. rewrite E. reflexivity. }
    destruct Hs' as (y0 & y1 & Hs').
    destruct (IH (n + 4) (word16 y0 y1)) as (ts & r & Hrun & Hend); [lia | lia |].
    exists (v :: ts), r. split.
    + intros f.
      erewrite bind_ok
        by (unfold lift; rewrite slice_from_in_range by assumption; reflexivity).
      rewrite length_skipn.
      destruct (Nat.ltb_spec (length b - n) need); [lia |].
      erewrite bind_ok by (unfold lift; rewrite Hs; reflexivity).
      erewrite bind_ok by (unfold call; rewrite Hv; reflexivity).
      cbv beta iota.
      erewrite bind_ok by reflexivity.
      erewrite bind_ok by (unfold lift; rewrite Hs'; reflexivity).
      erewrite bind_ok by reflexivity.
      rewrite Hrun. rewrite add_tags_cons. reflexivity.
    + unfold loop_end in *. destruct r as [[n' et'] | e | |]; try assumption.
      simpl length. destruct Hend as (E & Hle & Hne).
      repeat split; [lia | assumption | assumption].
  - exists [v], Panic. split.
    + intros f.
      erewrite bind_ok
        by (unfold lift; rewrite slice_from_in_range by assumption; reflexivity).
      rewrite length_skipn.
      destruct (Nat.ltb_spec (length b - n) need); [lia |].
      erewrite bind_ok by (unfold lift; rewrite Hs; reflexivity).
      erewrite bind_ok by (unfold call; rewrite Hv; reflexivity).
      cbv beta iota.
      erewrite bind_ok by reflexivity.
      unfold bind, lift, slice.
      destruct (Nat.leb_spec (n + 4) (length b)); [lia |].
      rewrite andb_false_r. reflexivity.
    + simpl. lia.
Qed.

(** The loop's test of the length (ethernet.go:340, part_000:142): at the
    marker with fewer than four bytes after the cursor, the decoder returns
    [io.ErrUnexpectedEOF] and has read nothing. *)
Lemma vlan_loop_short (fuel : nat) (b : list byte) (n : nat) (f : Frame.t) :
  n <= length b -> length b - n < 4 ->
  vlan_loop 4 (S fuel) b n EtherTypeVLAN f = (f, Err ErrUnexpectedEOF).
Proof.
  intros Hn Hshort. rewrite vlan_loop_turn.
  erewrite bind_ok
    by (unfold lift; rewrite slice_from_in_range by assumption; reflexivity).
  rewrite length_skipn.
  destruct (Nat.ltb_spec (length b - n) 4); [reflexivity | lia].
Qed.

End DecoderLoop.

(** ** The decoders in terms of the run of their loop *)

Section DecoderRuns.

Local Open Scope nat_scope.

Lemma slice_at (pre mid post : list byte) (lo hi : nat) :
  lo = length pre -> hi = lo + length mid ->
  slice (pre ++ mid ++ post) lo hi = Some mid.
Proof. intros -> ->. apply slice_middle. Qed.

Lemma slice_from_at (pre x : list byte) (lo : nat) :
  lo = length pre -> slice_from (pre ++ x) lo = Some x.
Proof. intros ->. apply slice_from_suffix. Qed.

Lemma copy_fresh (s : list byte) (n : nat) :
  length s = n -> copy s (make n) = (s, Ok n).
Proof. intros <-. apply copy_make. Qed.

Lemma header_slices (b : list byte) :
  14 <= length b ->
  slice b 0 6 = Some (firstn 6 b)
  /\ slice b 6 12 = Some (firstn 6 (skipn 6 b))
  /\ exists e0 e1, slice b (14 - 2) 14 = Some [e0; e1].
Proof.
  intros H. rewrite !slice_in_range by lia. repeat split.
  destruct (list_of_length_2 (firstn (14 - (14 - 2)) (skipn (14 - 2) b)))
    as (e0 & e1 & E).
  - rewrite length_firstn, length_skipn. lia.
  - exists e0, e1. rewrite E. reflexivity.
Qed.

Lemma first_et_slice (b : list byte) (e0 e1 : byte) :
  slice b (14 - 2) 14 = Some [e0; e1] -> first_et b = word16 e0 e1.
Proof.
  unfold slice, first_et. change (14 - 2) with 12. change (14 - 12) with 2.
  generalize (skipn 12 b). intros t.
  destruct ((12 <=? 14) && (14 <=? length b)); [| discriminate].
  intros Hs. injection Hs as Hs.
  destruct t as [| x [| y ?]]; simpl in Hs; try discriminate.
  injection Hs as -> ->. reflexivity.
Qed.

(** The statements of ethernet.go:122-139 (the same at part_000:122-139):
    the length test, the two addresses and the first EtherType. *)
Lemma decode_header {X} (b : list byte) (f : Frame.t)
      (k : Z -> M Frame.t X) :
  14 <= length b ->
  (s <- lift (slice b 0 6) ;;
   '(dst, _) <- call (copy s) (make 6) ;;
   modify (Frame.set_Destination dst) ;;
   s <- lift (slice b 6 12) ;;
   '(src, _) <- call (copy s) (make 6) ;;
   modify (Frame.set_Source src) ;;
   s <- lift (slice b (14 - 2) 14) ;;
   et <- lift (Uint16 s) ;;
   k et) f
  = k (first_et b) (with_addresses b f).
Proof.
  intros H. destruct (header_slices b H) as (H1 & H2 & e0 & e1 & H3).
  erewrite bind_ok by (unfold lift; rewrite H1; reflexivity).
  erewrite bind_ok.
  2:{ unfold call. rewrite copy_fresh; [reflexivity |].
      rewrite length_firstn. lia. }
  cbv beta iota.
  erewrite bind_ok by reflexivity.
  erewrite bind_ok by (unfold lift; rewrite H2; reflexivity).
  erewrite bind_ok.
  2:{ unfold call. rewrite copy_fresh; [reflexivity |].
      rewrite length_firstn, length_skipn. lia. }
  cbv beta iota.
  erewrite bind_ok by reflexivity.
  erewrite bind_ok by (unfold lift; rewrite H3; reflexivity).
  erewrite bind_ok by reflexivity.
  rewrite (first_et_slice b e0 e1 H3). reflexivity.
Qed.

Lemma short_buffer_1 (b : list byte) (f : Frame.t) :
  length b < 14 -> Ethernet1.UnmarshalBinary b f = (f, Err ErrUnexpectedEOF).
Proof.
  intros H. unfold Ethernet1.UnmarshalBinary.
  destruct (Nat.ltb_spec (length b) 14); [reflexivity | lia].
Qed.

Lemma short_buffer_2 (b : list byte) (f : Frame.t) :
  length b < 14 -> Ethernet2.UnmarshalBinary b f = (f, Err ErrUnexpectedEOF).
Proof.
  intros H. unfold Ethernet2.UnmarshalBinary.
  destruct (Nat.ltb_spec (length b) 14); [reflexivity | lia].
Qed.

Lemma short_buffer_3 (b : list byte) (f : Frame.t) :
  length b < 14 -> Ethernet3.UnmarshalBinary b f = (f, Err ErrUnexpectedEOF).
Proof.
  intros H. unfold Ethernet3.UnmarshalBinary.
  destruct (Nat.ltb_spec (length b) 14); [reflexivity | lia].
Qed.

(** [Ethernet1.UnmarshalBinary] in terms of the run of its loop. *)
Lemma Ethernet1_run (b : list byte) (f : Frame.t) (ts : list VLAN.t)
      (r : result (nat * Z)) :
  14 <= length b ->
  vlan_loop 2 (length b) b 14 (first_et b) (with_addresses b f)
  = (add_tags ts (with_addresses b f), r) ->
  loop_end 2 b 14 ts r ->
  Ethernet1.UnmarshalBinary b f
  = match r with
    | Ok (n, et) =>
        if too_short (length (Frame.VLAN f ++ ts)) (length b - n)
        then (Frame.set_EtherType et (add_tags ts (with_addresses b f)),
              Err ErrUnexpectedEOF)
        else (Frame.mk (firstn 6 b) (firstn 6 (skipn 6 b))
                       (Frame.VLAN f ++ ts) et (skipn n b), Ok tt)
    | Err e => (add_tags ts (with_addresses b f), Err e)
    | Panic => (add_tags ts (with_addresses b f), Panic)
    | OutOfFuel => (add_tags ts (with_addresses b f), OutOfFuel)
    end.
Proof.
  intros H Hloop Hend. unfold Ethernet1.UnmarshalBinary.
  destruct (Nat.ltb_spec (length b) 14); [lia |].
  cbv zeta.
  rewrite (decode_header b f _ H).
  unfold bind at 1. rewrite Hloop.
  destruct r as [[n et] | e | |]; try reflexivity.
  destruct Hend as (En & Hle & Hne).
  erewrite bind_ok by reflexivity.
  erewrite bind_ok
    by (unfold lift; rewrite slice_from_in_range by assumption; reflexivity).
  erewrite bind_ok by reflexivity.
  rewrite length_skipn.
  change (Frame.VLAN (Frame.set_EtherType et (add_tags ts (with_addresses b f))))
    with (Frame.VLAN f ++ ts).
  fold (too_short (length (Frame.VLAN f ++ ts)) (length b - n)).
  destruct (too_short (length (Frame.VLAN f ++ ts)) (length b - n));
    [reflexivity |].
  erewrite bind_ok.
  2:{ unfold call. rewrite copy_fresh; [reflexivity |].
      rewrite length_skipn. reflexivity. }
  reflexivity.
Qed.

(** [Ethernet2.UnmarshalBinary] in terms of the run of its loop. *)
Lemma Ethernet2_run (b : list byte) (f : Frame.t) (ts : list VLAN.t)
      (r : result (nat * Z)) :
  14 <= length b ->
  vlan_loop 4 (length b) b 14 (first_et b) (with_addresses b f)
  = (add_tags ts (with_addresses b f), r) ->
  loop_end 4 b 14 ts r ->
  Ethernet2.UnmarshalBinary b f
  = match r with
    | Ok (n, et) =>
        (Frame.mk (firstn 6 b) (firstn 6 (skipn 6 b))
                  (Frame.VLAN f ++ ts) et (skipn n b), Ok tt)
    | Err e => (add_tags ts (with_addresses b f), Err e)
    | Panic => (add_tags ts (with_addresses b f), Panic)
    | OutOfFuel => (add_tags ts (with_addresses b f), OutOfFuel)
    end.
Proof.
  intros H Hloop Hend. unfold Ethernet2.UnmarshalBinary.
  destruct (Nat.ltb_spec (length b) 14); [lia |].
  cbv zeta.
  rewrite (decode_header b f _ H).
  unfold bind at 1. rewrite Hloop.
  destruct r as [[n et] | e | |]; try reflexivity.
  destruct Hend as (En & Hle & Hne).
  erewrite bind_ok by reflexivity.
  erewrite bind_ok
    by (unfold lift; rewrite slice_from_in_range by assumption; reflexivity).
  erewrite bind_ok.
  2:{ unfold call. rewrite copy_fresh; [reflexivity |].
      rewrite length_skipn. reflexivity. }
  reflexivity.
Qed.

End DecoderRuns.

Section DecoderRuns3.

Local Open Scope nat_scope.

Lemma make_three (n : nat) :
  make (6 + 6 + n) = [] ++ make 6 ++ make 6 ++ make n.
Proof. unfold make. rewrite app_nil_l, <- !repeat_app. reflexivity. Qed.

(** [Ethernet3.UnmarshalBinary] in terms of the run of its loop. *)
Lemma Ethernet3_run (b : list byte) (f : Frame.t) (ts : list VLAN.t)
      (r : result (nat * Z)) :
  14 <= length b ->
  vlan_loop 4 (length b) b 14 (first_et b) f = (add_tags ts f, r) ->
  loop_end 4 b 14 ts r ->
  Ethernet3.UnmarshalBinary b f
  = match r with
    | Ok (n, et) =>
        (Frame.mk (firstn 6 b) (firstn 6 (skipn 6 b))
                  (Frame.VLAN f ++ ts) et (skipn n b), Ok tt)
    | Err e => (add_tags ts f, Err e)
    | Panic => (add_tags ts f, Panic)
    | OutOfFuel => (add_tags ts f, OutOfFuel)
    end.
Proof.
  intros H Hloop Hend. unfold Ethernet3.UnmarshalBinary.
  destruct (Nat.ltb_spec (length b) 14); [lia |].
  cbv zeta.
  destruct (header_slices b H) as (H1 & H2 & e0 & e1 & H3).
  erewrite bind_ok by (unfold lift; rewrite H3; reflexivity).
  erewrite bind_ok by reflexivity.
  pose proof (first_et_slice b e0 e1 H3) as Het.
  unfold word16 in Het. rewrite <- Het.
  unfold bind at 1. rewrite Hloop.
  destruct r as [[n et] | e | |]; try reflexivity.
  destruct Hend as (En & Hle & Hne).
  set (d := firstn 6 b) in *. set (s := firstn 6 (skipn 6 b)) in *.
  assert (Hd : length d = 6) by (unfold d; rewrite length_firstn; lia).
  assert (Hs : length s = 6)
    by (unfold s; rewrite length_firstn, length_skipn; lia).
  erewrite bind_ok by reflexivity.
  erewrite bind_ok
    by (unfold lift; rewrite slice_from_in_range by assumption; reflexivity).
  rewrite make_three.
  erewrite bind_ok by (unfold lift; rewrite H1; reflexivity).
  erewrite bind_ok.
  2:{ unfold call.
      rewrite (focus_at (copy d) [] (make 6) _ d (Ok 6) 0 6);
        [reflexivity | reflexivity | reflexivity
         | apply copy_fresh; assumption | assumption]. }
  cbv beta iota.
  erewrite bind_ok.
  2:{ unfold lift. rewrite (slice_at [] d _ 0 6);
        [reflexivity | reflexivity | rewrite Hd; reflexivity]. }
  erewrite bind_ok by reflexivity.
  erewrite bind_ok by (unfold lift; rewrite H2; reflexivity).
  rewrite app_nil_l.
  erewrite bind_ok.
  2:{ unfold call.
      rewrite (focus_at (copy s) d (make 6) _ s (Ok 6) 6 12);
        [reflexivity | congruence | reflexivity
         | apply copy_fresh; assumption | assumption]. }
  cbv beta iota.
  erewrite bind_ok.
  2:{ unfold lift. rewrite (slice_at d s _ 6 12);
        [reflexivity | congruence | rewrite Hs; reflexivity]. }
  erewrite bind_ok by reflexivity.
  rewrite (app_assoc d s).
  erewrite bind_ok.
  2:{ unfold call.
      rewrite (focus_from_at (copy (skipn n b)) (d ++ s)
                 (make (length (skipn n b))) (skipn n b)
                 (Ok (length (skipn n b))) 12);
        [reflexivity | rewrite length_app, Hd, Hs; reflexivity
         | apply copy_make
         | unfold make; rewrite repeat_length; reflexivity]. }
  cbv beta iota.
  erewrite bind_ok.
  2:{ unfold lift. rewrite (slice_from_at (d ++ s) _ 12);
        [reflexivity | rewrite length_app, Hd, Hs; reflexivity]. }
  reflexivity.
Qed.

End DecoderRuns3.

(** ** The decoder on the wire format *)

Section DecoderOnWire.

Local Open Scope nat_scope.

Variables (e0 e1 : byte) (payload : list byte).
Hypothesis terminal : word16 e0 e1 <> EtherTypeVLAN.

Lemma chain_head (ts : list VLAN.t) :
  exists (y0 y1 : byte) (Y : list byte),
    tags_wire ts ++ [e0; e1] ++ payload = [y0; y1] ++ Y
    /\ word16 y0 y1 = head_et ts e0 e1.
Proof.
  destruct ts as [| t ts].
  - exists e0, e1, payload. split; reflexivity.
  - change (tags_wire (t :: ts)) with (tag_wire t ++ tags_wire ts).
    unfold tag_wire. rewrite <- !app_assoc.
    exists (Z_to_byte (Z.shiftr EtherTypeVLAN 8)), (Z_to_byte EtherTypeVLAN).
    eexists. split; [reflexivity |].
    apply (word16_be16 EtherTypeVLAN). unfold EtherTypeVLAN. lia.
Qed.

Lemma vlan_loop_wire (need : nat) :
  need <= 4 ->
  forall (ts : list VLAN.t) (pre : list byte) (fuel n : nat) (f : Frame.t),
    Forall good_tag ts -> length ts <= fuel -> n = length pre + 2 ->
    vlan_loop need fuel (pre ++ tags_wire ts ++ [e0; e1] ++ payload) n
              (head_et ts e0 e1) f
    = (add_tags ts f, Ok (n + 4 * length ts, word16 e0 e1)).
Proof.
  intros Hneed. induction ts as [| t ts IH]; intros pre fuel n f Hg Hfuel Hn.
  - simpl head_et. rewrite vlan_loop_stop by assumption.
    rewrite add_tags_nil. simpl. rewrite Nat.add_0_r. reflexivity.
  - destruct fuel as [| fuel]; [simpl in Hfuel; lia |].
    assert (Ht : good_tag t) by (inversion Hg; assumption).
    assert (Hts : Forall good_tag ts) by (inversion Hg; assumption).
    simpl head_et. rewrite vlan_loop_turn.
    change (tags_wire (t :: ts)) with (tag_wire t ++ tags_wire ts).
    unfold tag_wire. rewrite <- !app_assoc.
    destruct (chain_head ts) as (y0 & y1 & Y & HY & Hw).
    rewrite HY.
    set (M := be16 EtherTypeVLAN). set (W := be16 (vlan_word t)).
    assert (HpM : length (pre ++ M) = n) by (rewrite length_app; simpl; lia).
    erewrite bind_ok.
    2:{ unfold lift. rewrite (app_assoc pre M).
        rewrite (slice_from_at (pre ++ M) _ n) by (symmetry; assumption).
        reflexivity. }
    destruct (Nat.ltb_spec (length (W ++ [y0; y1] ++ Y)) need) as [Hc | Hc].
    { unfold W in Hc. rewrite length_app in Hc. simpl in Hc. lia. }
    erewrite bind_ok.
    2:{ unfold lift. rewrite (app_assoc pre M).
        rewrite (slice_at (pre ++ M) W _ n (n + 2));
          [reflexivity | symmetry; assumption | reflexivity]. }
    erewrite bind_ok.
    2:{ unfold call, W. rewrite VLAN_roundtrip by assumption. reflexivity. }
    cbv beta iota.
    erewrite bind_ok by reflexivity.
    erewrite bind_ok.
    2:{ unfold lift.
        rewrite (app_assoc pre M), (app_assoc (pre ++ M) W).
        rewrite (slice_at ((pre ++ M) ++ W) [y0; y1] Y (n + 2) (n + 4));
          [reflexivity
          | rewrite length_app, HpM; reflexivity
          | simpl; lia]. }
    erewrite bind_ok by reflexivity.
    fold (word16 y0 y1). rewrite Hw.
    rewrite <- HY.
    replace (pre ++ M ++ W ++ tags_wire ts ++ [e0; e1] ++ payload)
      with ((pre ++ M ++ W) ++ tags_wire ts ++ [e0; e1] ++ payload)
      by (rewrite <- !app_assoc; reflexivity).
    rewrite (IH (pre ++ M ++ W) fuel (n + 4));
      [ | assumption | simpl in Hfuel; lia
        | rewrite !length_app; simpl; lia ].
    rewrite add_tags_cons. simpl length. f_equal. f_equal. f_equal. lia.
Qed.

End DecoderOnWire.

Section DecodeWire.

Local Open Scope nat_scope.

Variables (dst src : list byte) (ts : list VLAN.t) (e0 e1 : byte)
          (payload : list byte).
Hypothesis dst_length : length dst = 6.
Hypothesis src_length : length src = 6.
Hypothesis tags_good : Forall good_tag ts.
Hypothesis terminal : word16 e0 e1 <> EtherTypeVLAN.

Local Abbreviation B := (on_wire dst src ts e0 e1 payload).

Lemma on_wire_length :
  length B = 14 + 4 * length ts + length payload.
Proof.
  unfold on_wire. rewrite !length_app, length_tags_wire. simpl. lia.
Qed.

Lemma on_wire_dst : firstn 6 B = dst.
Proof. apply firstn_exact. assumption. Qed.

Lemma on_wire_src : firstn 6 (skipn 6 B) = src.
Proof.
  unfold on_wire. rewrite (skipn_exact dst) by assumption.
  apply firstn_exact. assumption.
Qed.

Lemma on_wire_first_et : first_et B = head_et ts e0 e1.
Proof.
  unfold first_et, on_wire.
  rewrite (app_assoc dst src).
  rewrite (skipn_exact (dst ++ src))
    by (rewrite length_app, dst_length, src_length; reflexivity).
  destruct (chain_head e0 e1 payload ts) as (y0 & y1 & Y & -> & Hw).
  exact Hw.
Qed.

Lemma on_wire_payload : skipn (14 + 4 * length ts) B = payload.
Proof.
  unfold on_wire.
  rewrite (app_assoc dst src), (app_assoc (dst ++ src)).
  rewrite (app_assoc _ [e0; e1]).
  apply skipn_exact.
  rewrite !length_app, length_tags_wire, dst_length, src_length.
  simpl length. lia.
Qed.

Lemma on_wire_loop (need : nat) (f : Frame.t) :
  need <= 4 ->
  vlan_loop need (length B) B 14 (first_et B) f
  = (add_tags ts f, Ok (14 + 4 * length ts, word16 e0 e1)).
Proof.
  intros Hneed. rewrite on_wire_first_et.
  pose proof on_wire_length as HL.
  unfold on_wire in *. rewrite (app_assoc dst src).
  apply vlan_loop_wire; try assumption.
  - rewrite (app_assoc dst src) in HL. rewrite HL. lia.
  - rewrite length_app, dst_length, src_length. reflexivity.
Qed.

Lemma on_wire_loop_end (need : nat) :
  loop_end need B 14 ts (Ok (14 + 4 * length ts, word16 e0 e1)).
Proof.
  simpl. repeat split; [rewrite on_wire_length; lia | assumption].
Qed.

(** The three decoders on a buffer of the wire format. *)
Lemma Ethernet1_on_wire (f : Frame.t) :
  Ethernet1.UnmarshalBinary B f
  = if too_short (length (Frame.VLAN f ++ ts)) (length payload)
    then (Frame.set_EtherType (word16 e0 e1)
            (add_tags ts (with_addresses B f)), Err ErrUnexpectedEOF)
    else (Frame.mk dst src (Frame.VLAN f ++ ts) (word16 e0 e1) payload,
          Ok tt).
Proof.
  rewrite (Ethernet1_run B f ts (Ok (14 + 4 * length ts, word16 e0 e1))).
  - rewrite on_wire_payload, on_wire_dst, on_wire_src.
    replace (length B - (14 + 4 * length ts)) with (length payload)
      by (rewrite on_wire_length; lia).
    reflexivity.
  - rewrite on_wire_length. lia.
  - apply on_wire_loop. lia.
  - apply on_wire_loop_end.
Qed.

Lemma Ethernet2_on_wire (f : Frame.t) :
  Ethernet2.UnmarshalBinary B f
  = (Frame.mk dst src (Frame.VLAN f ++ ts) (word16 e0 e1) payload, Ok tt).
Proof.
  rewrite (Ethernet2_run B f ts (Ok (14 + 4 * length ts, word16 e0 e1))).
  - rewrite on_wire_payload, on_wire_dst, on_wire_src. reflexivity.
  - rewrite on_wire_length. lia.
  - apply on_wire_loop. lia.
  - apply on_wire_loop_end.
Qed.

Lemma Ethernet3_on_wire (f : Frame.t) :
  Ethernet3.UnmarshalBinary B f
  = (Frame.mk dst src (Frame.VLAN f ++ ts) (word16 e0 e1) payload, Ok tt).
Proof.
  rewrite (Ethernet3_run B f ts (Ok (14 + 4 * length ts, word16 e0 e1))).
  - rewrite on_wire_payload, on_wire_dst, on_wire_src. reflexivity.
  - rewrite on_wire_length. lia.
  - apply on_wire_loop. lia.
  - apply on_wire_loop_end.
Qed.

End DecodeWire.

(** ** The decoders on any buffer, revision by revision *)

Section DecoderAny.

Local Open Scope nat_scope.

Lemma fuel_enough (b : list byte) :
  14 <= length b -> length b - 14 < 4 * length b.
Proof. lia. Qed.

Lemma Ethernet1_any (b : list byte) :
  14 <= length b ->
  exists (ts : list VLAN.t) (r : result (nat * Z)),
    loop_end 2 b 14 ts r
    /\ forall f,
        Ethernet1.UnmarshalBinary b f
        = match r with
          | Ok (n, et) =>
              if too_short (length (Frame.VLAN f ++ ts)) (length b - n)
              then (Frame.set_EtherType et (add_tags ts (with_addresses b f)),
                    Err ErrUnexpectedEOF)
              else (Frame.mk (firstn 6 b) (firstn 6 (skipn 6 b))
                             (Frame.VLAN f ++ ts) et (skipn n b), Ok tt)
          | Err e => (add_tags ts (with_addresses b f), Err e)
          | Panic => (add_tags ts (with_addresses b f), Panic)
          | OutOfFuel => (add_tags ts (with_addresses b f), OutOfFuel)
          end.
Proof.
  intros H.
  destruct (vlan_loop_any 2 b ltac:(lia) (length b) 14 (first_et b) H
              (fuel_enough b H)) as (ts & r & Hrun & Hend).
  exists ts, r. split; [assumption |].
  intros f. apply Ethernet1_run; [assumption | apply Hrun | assumption].
Qed.

Lemma Ethernet2_any (b : list byte) :
  14 <= length b ->
  exists (ts : list VLAN.t) (r : result (nat * Z)),
    loop_end 4 b 14 ts r
    /\ forall f,
        Ethernet2.UnmarshalBinary b f
        = match r with
          | Ok (n, et) =>
              (Frame.mk (firstn 6 b) (firstn 6 (skipn 6 b))
                        (Frame.VLAN f ++ ts) et (skipn n b), Ok tt)
          | Err e => (add_tags ts (with_addresses b f), Err e)
          | Panic => (add_tags ts (with_addresses b f), Panic)
          | OutOfFuel => (add_tags ts (with_addresses b f), OutOfFuel)
          end.
Proof.
  intros H.
  destruct (vlan_loop_any 4 b ltac:(lia) (length b) 14 (first_et b) H
              (fuel_enough b H)) as (ts & r & Hrun & Hend).
  exists ts, r. split; [assumption |].
  intros f. apply Ethernet2_run; [assumption | apply Hrun | assumption].
Qed.

Lemma Ethernet3_any (b : list byte) :
  14 <= length b ->
  exists (ts : list VLAN.t) (r : result (nat * Z)),
    loop_end 4 b 14 ts r
    /\ forall f,
        Ethernet3.UnmarshalBinary b f
        = match r with
          | Ok (n, et) =>
              (Frame.mk (firstn 6 b) (firstn 6 (skipn 6 b))
                        (Frame.VLAN f ++ ts) et (skipn n b), Ok tt)
          | Err e => (add_tags ts f, Err e)
          | Panic => (add_tags ts f, Panic)
          | OutOfFuel => (add_tags ts f, OutOfFuel)
          end.
Proof.
  intros H.
  destruct (vlan_loop_any 4 b ltac:(lia) (length b) 14 (first_et b) H
              (fuel_enough b H)) as (ts & r & Hrun & Hend).
  exists ts, r. split; [assumption |].
  intros f. apply Ethernet3_run; [assumption | apply Hrun | assumption].
Qed.

Lemma decoder_any (r : revision) (b : list byte) :
  exists ts : list VLAN.t, forall f : Frame.t, decoder_facts r b ts f.
Proof.
  destruct (Nat.lt_ge_cases (length b) 14) as [Hs | Hl].
  - exists []. intros f. unfold decoder_facts.
    assert (E : UnmarshalBinary r b f = (f, Err ErrUnexpectedEOF)).
    { destruct r; simpl;
        [apply short_buffer_1 | apply short_buffer_2 | apply short_buffer_3];
        assumption. }
    rewrite E. simpl. rewrite app_nil_r, add_tags_nil.
    repeat split; intros; congruence.
  - destruct r.
    + destruct (Ethernet1_any b Hl) as (ts & res & Hend & Hrun).
      exists ts. intros f. unfold decoder_facts. simpl UnmarshalBinary.
      rewrite Hrun.
      destruct res as [[n et] | e | |]; simpl in Hend.
      * destruct (too_short _ _); simpl; repeat split; intros; congruence.
      * simpl. repeat split; intros; try congruence.
        destruct Hend; congruence.
      * simpl. repeat split; intros; congruence.
      * contradiction.
    + destruct (Ethernet2_any b Hl) as (ts & res & Hend & Hrun).
      exists ts. intros f. unfold decoder_facts. simpl UnmarshalBinary.
      rewrite Hrun.
      destruct res as [[n et] | e | |]; simpl in Hend.
      * simpl. repeat split; intros; congruence.
      * simpl. repeat split; intros; try congruence.
        destruct Hend; congruence.
      * congruence.
      * contradiction.
    + destruct (Ethernet3_any b Hl) as (ts & res & Hend & Hrun).
      exists ts. intros f. unfold decoder_facts. simpl UnmarshalBinary.
      rewrite Hrun.
      destruct res as [[n et] | e | |]; simpl in Hend.
      * simpl. repeat split; intros; congruence.
      * simpl. repeat split; intros; try congruence.
        destruct Hend; congruence.
      * congruence.
      * contradiction.
Qed.

(** A buffer whose first EtherType is not the marker: no tag is read. *)
Lemma untagged_loop (need : nat) (b : list byte) (f : Frame.t) :
  first_et b <> EtherTypeVLAN ->
  vlan_loop need (length b) b 14 (first_et b) f
  = (add_tags [] f, Ok (14, first_et b)).
Proof.
  intros H. rewrite add_tags_nil. apply vlan_loop_stop. assumption.
Qed.

Lemma untagged_loop_end (need : nat) (b : list byte) :
  14 <= length b -> first_et b <> EtherTypeVLAN ->
  loop_end need b 14 [] (Ok (14, first_et b)).
Proof. intros H1 H2. simpl. repeat split; [assumption | assumption]. Qed.

Lemma Ethernet1_untagged (b : list byte) (f : Frame.t) :
  14 <= length b -> first_et b <> EtherTypeVLAN ->
  Ethernet1.UnmarshalBinary b f
  = if too_short (length (Frame.VLAN f)) (length b - 14)
    then (Frame.set_EtherType (first_et b) (with_addresses b f),
          Err ErrUnexpectedEOF)
    else (untagged b f, Ok tt).
Proof.
  intros H1 H2.
  rewrite (Ethernet1_run b f [] (Ok (14, first_et b)) H1
             (untagged_loop 2 b _ H2) (untagged_loop_end 2 b H1 H2)).
  rewrite app_nil_r, add_tags_nil. reflexivity.
Qed.

Lemma Ethernet2_untagged (b : list byte) (f : Frame.t) :
  14 <= length b -> first_et b <> EtherTypeVLAN ->
  Ethernet2.UnmarshalBinary b f = (untagged b f, Ok tt).
Proof.
  intros H1 H2.
  rewrite (Ethernet2_run b f [] (Ok (14, first_et b)) H1
             (untagged_loop 4 b _ H2) (untagged_loop_end 4 b H1 H2)).
  rewrite app_nil_r. reflexivity.
Qed.

Lemma Ethernet3_untagged (b : list byte) (f : Frame.t) :
  14 <= length b -> first_et b <> EtherTypeVLAN ->
  Ethernet3.UnmarshalBinary b f = (untagged b f, Ok tt).
Proof.
  intros H1 H2.
  rewrite (Ethernet3_run b f [] (Ok (14, first_et b)) H1
             (untagged_loop 4 b _ H2) (untagged_loop_end 4 b H1 H2)).
  rewrite app_nil_r. reflexivity.
Qed.

Lemma too_short_long (vl pl : nat) : 46 <= pl -> too_short vl pl = false.
Proof.
  intros H. unfold too_short, minPayload.
  destruct (1 <? Z.of_nat vl)%Z eqn:E1;
    destruct ((_ =? 0) && (_ =? 4))%Z eqn:E2;
    apply Z.ltb_ge; lia.
Qed.

Lemma too_short_42 (vl : nat) : too_short vl 42 = false.
Proof.
  unfold too_short, minPayload.
  destruct vl as [| [| vl]]; try reflexivity.
  replace (1 <? Z.of_nat (S (S vl)))%Z with true
    by (symmetry; apply Z.ltb_lt; lia).
  reflexivity.
Qed.

Lemma too_short_41 (vl : nat) : too_short vl 41 = true.
Proof.
  unfold too_short, minPayload.
  destruct vl as [| [| vl]]; try reflexivity.
  replace (1 <? Z.of_nat (S (S vl)))%Z with true
    by (symmetry; apply Z.ltb_lt; lia).
  reflexivity.
Qed.

Lemma too_short_0 (vl : nat) : too_short vl 0 = true.
Proof.
  unfold too_short, minPayload.
  destruct vl as [| [| vl]]; try reflexivity.
  replace (1 <? Z.of_nat (S (S vl)))%Z with true
    by (symmetry; apply Z.ltb_lt; lia).
  reflexivity.
Qed.

End DecoderAny.

(** ** Words and tags, both ways *)

Lemma Z_to_byte_congr (z z' : Z) :
  z mod 256 = z' mod 256 -> Z_to_byte z = Z_to_byte z'.
Proof. intros E. unfold Z_to_byte. rewrite E. reflexivity. Qed.

(** The two bytes of the word that two bytes spell. *)
Lemma be16_word16 (b0 b1 : byte) : be16 (word16 b0 b1) = [b0; b1].
Proof.
  unfold be16.
  assert (H1 : Z_to_byte (word16 b0 b1) = b1).
  { rewrite <- (Z_to_byte_to_Z b1) at 2. apply Z_to_byte_congr.
    change 256 with (2 ^ 8). apply Z.bits_inj'. intros i Hi.
    rewrite !Z.testbit_mod_pow2 by lia. unfold word16.
    rewrite Z.lor_spec, Z.shiftl_spec by lia.
    destruct (Z.ltb_spec i 8); [| reflexivity].
    rewrite (Z.testbit_neg_r _ (i - 8)) by lia.
    rewrite orb_false_r. reflexivity. }
  assert (H0 : Z_to_byte (Z.shiftr (word16 b0 b1) 8) = b0).
  { rewrite <- (Z_to_byte_to_Z b0) at 2. apply Z_to_byte_congr.
    change 256 with (2 ^ 8). apply Z.bits_inj'. intros i Hi.
    rewrite !Z.testbit_mod_pow2 by lia. unfold word16.
    rewrite Z.shiftr_spec, Z.lor_spec, Z.shiftl_spec by lia.
    replace (i + 8 - 8) with i by lia.
    rewrite (byte_testbit_high b1) by lia. reflexivity. }
  rewrite H0, H1. reflexivity.
Qed.

Lemma shiftr13_range (w : Z) : 0 <= w < 65536 -> 0 <= Z.shiftr w 13 <= 7.
Proof.
  intros H. rewrite Z.shiftr_div_pow2 by lia. change (2 ^ 13) with 8192.
  split; [apply Z.div_pos; lia |].
  assert (w / 8192 < 8) by (apply Z.div_lt_upper_bound; lia). lia.
Qed.

Lemma land_fff_range (w : Z) : 0 <= Z.land w 0x0fff < 4096.
Proof.
  change 0x0fff with (Z.ones 12). rewrite Z.land_ones by lia.
  apply Z.mod_pos_bound. lia.
Qed.

(** What [VLAN.UnmarshalBinary] stores is a tag of the data model as soon as
    the identifier passes the test. *)
Lemma vlan_of_word_good (w : Z) :
  0 <= w < 65536 -> Z.land w 0x0fff < 4095 -> good_tag (vlan_of_word w).
Proof.
  intros Hw Hid. unfold good_tag, vlan_of_word, uint8. simpl.
  pose proof (shiftr13_range w Hw). pose proof (land_fff_range w).
  rewrite Z.mod_small by lia. lia.
Qed.

(** Packing what was unpacked gives the word back. *)
Lemma vlan_word_vlan_of_word (w : Z) :
  0 <= w < 65536 -> vlan_word (vlan_of_word w) = w.
Proof.
  intros Hw. pose proof (shiftr13_range w Hw) as HP.
  pose proof (land_fff_range w) as HI.
  apply Z.bits_inj'. intros i Hi.
  rewrite vlan_word_bits;
    [| unfold vlan_of_word, uint8; simpl; rewrite Z.mod_small by lia; lia
     | exact HI | exact Hi].
  unfold vlan_of_word, uint8. simpl.
  rewrite (Z.mod_small (Z.shiftr w 13)) by lia.
  destruct (Z.ltb_spec i 12).
  - change 4095 with (Z.ones 12). rewrite Z.land_ones by lia.
    rewrite Z.testbit_mod_pow2 by lia.
    destruct (Z.ltb_spec i 12); [reflexivity | lia].
  - destruct (Z.eqb_spec i 12) as [-> | Hne].
    + apply land_bit12.
    + destruct (Z.ltb_spec i 16).
      * rewrite Z.shiftr_spec by lia. f_equal. lia.
      * symmetry. apply (testbit_above w 16); lia.
Qed.

(** ** The decoder: what an accepted buffer looks like *)

Section DecoderShape.

Local Open Scope nat_scope.

Lemma slice_firstn (b s : list byte) (lo hi : nat) :
  slice b lo hi = Some s -> firstn hi b = firstn lo b ++ s.
Proof.
  unfold slice. intros H.
  destruct (Nat.leb_spec lo hi), (Nat.leb_spec hi (length b));
    simpl in H; try discriminate.
  injection H as <-.
  rewrite <- (firstn_skipn lo b) at 1.
  rewrite firstn_app, length_firstn.
  replace (Nat.min lo (length b)) with lo by lia.
  rewrite firstn_firstn. replace (Nat.min hi lo) with lo by lia.
  reflexivity.
Qed.

(** A turn of the loop that does not end the call: the four bytes at the
    cursor are a tag that the tag codec accepts and the next EtherType. *)
Lemma vlan_loop_turn_ok (need fuel : nat) (b : list byte) (n : nat)
      (f f' : Frame.t) (res : nat * Z) :
  2 <= need <= 4 -> n <= length b ->
  vlan_loop need (S fuel) b n EtherTypeVLAN f = (f', Ok res) ->
  exists w0 w1 y0 y1,
    slice b n (n + 2) = Some [w0; w1]
    /\ slice b (n + 2) (n + 4) = Some [y0; y1]
    /\ (Z.land (word16 w0 w1) 0x0fff < 4095)%Z
    /\ vlan_loop need fuel b (n + 4) (word16 y0 y1)
         (Frame.append_VLAN (vlan_of_word (word16 w0 w1)) f)
       = (f', Ok res).
Proof.
  intros Hneed Hn H. rewrite vlan_loop_turn in H.
  erewrite bind_ok in H
    by (unfold lift; rewrite slice_from_in_range by assumption; reflexivity).
  rewrite length_skipn in H.
  destruct (Nat.ltb_spec (length b - n) need) as [Hshort | Hlong];
    [discriminate |].
  assert (Hs : exists w0 w1, slice b n (n + 2) = Some [w0; w1]).
  { rewrite slice_in_range by lia.
    destruct (list_of_length_2 (firstn (n + 2 - n) (skipn n b))) as (w0 & w1 & E).
    - rewrite length_firstn, length_skipn. lia.
    - exists w0, w1. rewrite E. reflexivity. }
  destruct Hs as (w0 & w1 & Hs).
  erewrite bind_ok in H by (unfold lift; rewrite Hs; reflexivity).
  pose proof (VLAN_UnmarshalBinary_two w0 w1 VLAN.new) as Hv.
  destruct (Z.leb_spec 4095 (Z.land (word16 w0 w1) 4095)) as [Hbad | Hgood].
  { erewrite bind_err in H by (unfold call; rewrite Hv; reflexivity).
    discriminate. }
  erewrite bind_ok in H by (unfold call; rewrite Hv; reflexivity).
  cbv beta iota in H.
  erewrite bind_ok in H by reflexivity.
  destruct (Nat.le_gt_cases (n + 4) (length b)) as [Hfour | Hfour].
  - assert (Hs' : exists y0 y1, slice b (n + 2) (n + 4) = Some [y0; y1]).
    { rewrite slice_in_range by lia.
      destruct (list_of_length_2 (firstn (n + 4 - (n + 2)) (skipn (n + 2) b)))
        as (y0 & y1 & E).
      - rewrite length_firstn, length_skipn. lia.
      - exists y0, y1. rewrite E. reflexivity. }
    destruct Hs' as (y0 & y1 & Hs').
    erewrite bind_ok in H by (unfold lift; rewrite Hs'; reflexivity).
    erewrite bind_ok in H by reflexivity.
    exists w0, w1, y0, y1. repeat split; assumption.
  - exfalso. revert H. unfold bind, lift, slice.
    destruct (Nat.leb_spec (n + 4) (length b)); [lia |].
    rewrite andb_false_r. discriminate.
Qed.

(** A loop that ends well has read, from two bytes before its cursor on,
    the encoding of the tags it appended and of the EtherType it returns. *)
Lemma vlan_loop_shape (need : nat) (b : list byte) :
  2 <= need <= 4 ->
  forall (fuel n : nat) (c0 c1 : byte) (f f' : Frame.t) (n' : nat) (et' : Z),
    n <= length b -> slice b (n - 2) n = Some [c0; c1] ->
    vlan_loop need fuel b n (word16 c0 c1) f = (f', Ok (n', et')) ->
    exists (ts : list VLAN.t) (e0 e1 : byte),
      f' = add_tags ts f /\ Forall good_tag ts
      /\ n' = n + 4 * length ts /\ n' <= length b
      /\ firstn n' b = firstn (n - 2) b ++ tags_wire ts ++ [e0; e1]
      /\ word16 e0 e1 = et' /\ et' <> EtherTypeVLAN.
Proof.
  intros Hneed.
  assert (Hstop : forall fuel n c0 c1 f f' n' et',
             n <= length b -> slice b (n - 2) n = Some [c0; c1] ->
             word16 c0 c1 <> EtherTypeVLAN ->
             vlan_loop need fuel b n (word16 c0 c1) f = (f', Ok (n', et')) ->
             exists (ts : list VLAN.t) (e0 e1 : byte),
               f' = add_tags ts f /\ Forall good_tag ts
               /\ n' = n + 4 * length ts /\ n' <= length b
               /\ firstn n' b = firstn (n - 2) b ++ tags_wire ts ++ [e0; e1]
               /\ word16 e0 e1 = et' /\ et' <> EtherTypeVLAN).
  { intros fuel n c0 c1 f f' n' et' Hn Hc Hne H.
    rewrite vlan_loop_stop in H by assumption.
    injection H as <- <- <-.
    exists [], c0, c1. rewrite add_tags_nil. simpl.
    repeat split; try assumption; try lia; try constructor.
    apply slice_firstn. assumption. }
  induction fuel as [| fuel IH]; intros n c0 c1 f f' n' et' Hn Hc H.
  - destruct (Z.eq_dec (word16 c0 c1) EtherTypeVLAN) as [E | E].
    + rewrite E in H. simpl in H. discriminate.
    + apply (Hstop 0 n c0 c1); assumption.
  - destruct (Z.eq_dec (word16 c0 c1) EtherTypeVLAN) as [E | E].
    2:{ apply (Hstop (S fuel) n c0 c1); assumption. }
    rewrite E in H.
    destruct (vlan_loop_turn_ok need fuel b n f f' (n', et') Hneed Hn H)
      as (w0 & w1 & y0 & y1 & Hw & Hy & Hid & Hrest).
    assert (Hn4 : n + 4 <= length b).
    { unfold slice in Hy.
      destruct (Nat.leb_spec (n + 4) (length b)); [assumption |].
      rewrite andb_false_r in Hy. discriminate. }
    replace (n + 2) with (n + 4 - 2) in Hy at 1 by lia.
    destruct (IH (n + 4) y0 y1 _ f' n' et' Hn4 Hy Hrest)
      as (ts & e0 & e1 & Ef & Hg & En & Hle & Hfirst & Het & Hne).
    exists (vlan_of_word (word16 w0 w1) :: ts), e0, e1.
    split; [rewrite Ef; apply add_tags_cons |].
    split; [constructor;
            [apply vlan_of_word_good; [apply word16_range | assumption]
            | assumption] |].
    split; [simpl length; lia |].
    split; [assumption |].
    split; [| split; assumption].
    rewrite Hfirst.
    replace (n + 4 - 2) with (n + 2) by lia.
    rewrite (slice_firstn b [w0; w1] n (n + 2) Hw).
    rewrite (slice_firstn b [c0; c1] (n - 2) n Hc).
    change (tags_wire (vlan_of_word (word16 w0 w1) :: ts))
      with (tag_wire (vlan_of_word (word16 w0 w1)) ++ tags_wire ts).
    unfold tag_wire.
    rewrite vlan_word_vlan_of_word by apply word16_range.
    rewrite <- E, !be16_word16. rewrite <- !app_assoc. reflexivity.
Qed.

(** A buffer that a decoder accepts is laid out as the wire format. *)
Lemma accepted_on_wire (r : revision) (b : list byte) (f f' : Frame.t) :
  UnmarshalBinary r b f = (f', Ok tt) ->
  exists (ts : list VLAN.t) (e0 e1 : byte),
    Forall good_tag ts /\ word16 e0 e1 <> EtherTypeVLAN
    /\ length (firstn 6 b) = 6 /\ length (firstn 6 (skipn 6 b)) = 6
    /\ b = on_wire (firstn 6 b) (firstn 6 (skipn 6 b)) ts e0 e1
                   (skipn (14 + 4 * length ts) b)
    /\ 14 + 4 * length ts <= length b.
Proof.
  intros H.
  assert (HL : 14 <= length b).
  { destruct (Nat.lt_ge_cases (length b) 14) as [Hs | Hl]; [| assumption].
    exfalso. destruct r; simpl in H;
      [rewrite short_buffer_1 in H | rewrite short_buffer_2 in H
       | rewrite short_buffer_3 in H]; (assumption || discriminate). }
  destruct (header_slices b HL) as (_ & _ & c0 & c1 & Hc).
  pose proof (first_et_slice b c0 c1 Hc) as Het.
  assert (Hloop : exists need g g' n' et',
             2 <= need <= 4
             /\ vlan_loop need (length b) b 14 (word16 c0 c1) g
                = (g', Ok (n', et'))).
  { destruct r; simpl in H.
    - destruct (vlan_loop_any 2 b ltac:(lia) (length b) 14 (first_et b) HL
                  (fuel_enough b HL)) as (ts & res & Hrun & Hend).
      rewrite (Ethernet1_run b f ts res HL (Hrun _) Hend) in H.
      destruct res as [[n' et'] | | |]; try discriminate.
      exists 2, (with_addresses b f), (add_tags ts (with_addresses b f)), n', et'.
      split; [lia |]. rewrite <- Het. apply Hrun.
    - destruct (vlan_loop_any 4 b ltac:(lia) (length b) 14 (first_et b) HL
                  (fuel_enough b HL)) as (ts & res & Hrun & Hend).
      rewrite (Ethernet2_run b f ts res HL (Hrun _) Hend) in H.
      destruct res as [[n' et'] | | |]; try discriminate.
      exists 4, (with_addresses b f), (add_tags ts (with_addresses b f)), n', et'.
      split; [lia |]. rewrite <- Het. apply Hrun.
    - destruct (vlan_loop_any 4 b ltac:(lia) (length b) 14 (first_et b) HL
                  (fuel_enough b HL)) as (ts & res & Hrun & Hend).
      rewrite (Ethernet3_run b f ts res HL (Hrun _) Hend) in H.
      destruct res as [[n' et'] | | |]; try discriminate.
      exists 4, f, (add_tags ts f), n', et'.
      split; [lia |]. rewrite <- Het. apply Hrun. }
  destruct Hloop as (need & g & g' & n' & et' & Hneed & Hrun).
  destruct (vlan_loop_shape need b Hneed (length b) 14 c0 c1 g g' n' et'
              HL Hc Hrun)
    as (ts & e0 & e1 & _ & Hg & En & Hle & Hfirst & Hw & Hne).
  exists ts, e0, e1.
  split; [assumption |].
  split; [rewrite Hw; assumption |].
  split; [rewrite length_firstn; lia |].
  split; [rewrite length_firstn, length_skipn; lia |].
  split; [| lia].
  rewrite <- (firstn_skipn n' b) at 1. rewrite Hfirst, En.
  unfold on_wire. rewrite <- !app_assoc.
  change (14 - 2) with 12.
  rewrite <- (firstn_skipn 6 (firstn 12 b)).
  rewrite firstn_firstn. change (Nat.min 6 12) with 6.
  assert (E12 : skipn 6 (firstn 12 b) = firstn 6 (skipn 6 b)).
  { rewrite skipn_firstn_comm. reflexivity. }
  rewrite E12, <- !app_assoc. reflexivity.
Qed.

(** The frame that a decoder returns with [nil], and the buffer, in terms of
    the tags read. *)
Lemma accepted_frame (r : revision) (b : list byte) (f f' : Frame.t) :
  UnmarshalBinary r b f = (f', Ok tt) ->
  exists (ts : list VLAN.t) (e0 e1 : byte),
    Forall good_tag ts /\ word16 e0 e1 <> EtherTypeVLAN
    /\ b = on_wire (firstn 6 b) (firstn 6 (skipn 6 b)) ts e0 e1
                   (skipn (14 + 4 * length ts) b)
    /\ 14 + 4 * length ts <= length b
    /\ f' = Frame.mk (firstn 6 b) (firstn 6 (skipn 6 b)) (Frame.VLAN f ++ ts)
                     (word16 e0 e1) (skipn (14 + 4 * length ts) b).
Proof.
  intros H.
  destruct (accepted_on_wire r b f f' H)
    as (ts & e0 & e1 & Hg & Hne & Hd & Hs & E & Hle).
  exists ts, e0, e1. repeat split; try assumption.
  destruct r; simpl in H.
  - pose proof (Ethernet1_on_wire _ _ ts e0 e1
                  (skipn (14 + 4 * length ts) b) Hd Hs Hg Hne f) as R.
    rewrite <- E in R. rewrite R in H.
    destruct (too_short _ _); [discriminate |]. congruence.
  - pose proof (Ethernet2_on_wire _ _ ts e0 e1
                  (skipn (14 + 4 * length ts) b) Hd Hs Hg Hne f) as R.
    rewrite <- E in R. congruence.
  - pose proof (Ethernet3_on_wire _ _ ts e0 e1
                  (skipn (14 + 4 * length ts) b) Hd Hs Hg Hne f) as R.
    rewrite <- E in R. congruence.
Qed.

End DecoderShape.

(** ** The tags that a decoder reads, in terms of the buffer *)

Section DecoderTags.

Local Open Scope nat_scope.

Lemma chain_tags_eq (m0 m1 w0 w1 e0 e1 : byte) (c : list byte) :
  chain_tags (m0 :: m1 :: w0 :: w1 :: e0 :: e1 :: c)
  = if ((word16 m0 m1 =? EtherTypeVLAN)
        && (Z.land (word16 w0 w1) 0x0fff <? 4095))%Z
    then vlan_of_word (word16 w0 w1) :: chain_tags (e0 :: e1 :: c)
    else [].
Proof. reflexivity. Qed.

Lemma chain_tags_few (c : list byte) : length c < 6 -> chain_tags c = [].
Proof.
  destruct c as [| a0 [| a1 [| a2 [| a3 [| a4 [| a5 c]]]]]];
    intros H; try reflexivity.
  simpl in H. lia.
Qed.

Lemma chain_tags_stop (m0 m1 : byte) (c : list byte) :
  word16 m0 m1 <> EtherTypeVLAN -> chain_tags (m0 :: m1 :: c) = [].
Proof.
  intros H. destruct c as [| a2 [| a3 [| a4 [| a5 c]]]]; try reflexivity.
  rewrite chain_tags_eq.
  destruct (Z.eqb_spec (word16 m0 m1) EtherTypeVLAN);
    [contradiction | reflexivity].
Qed.

Lemma chain_tags_bad (m0 m1 w0 w1 : byte) (c : list byte) :
  (4095 <= Z.land (word16 w0 w1) 0x0fff)%Z ->
  chain_tags (m0 :: m1 :: w0 :: w1 :: c) = [].
Proof.
  intros H. destruct c as [| a4 [| a5 c]]; try reflexivity.
  rewrite chain_tags_eq.
  destruct (Z.ltb_spec (Z.land (word16 w0 w1) 0x0fff) 4095); [lia |].
  rewrite andb_false_r. reflexivity.
Qed.

Lemma chain_tags_tag (m0 m1 w0 w1 e0 e1 : byte) (c : list byte) :
  word16 m0 m1 = EtherTypeVLAN ->
  (Z.land (word16 w0 w1) 0x0fff < 4095)%Z ->
  chain_tags (m0 :: m1 :: w0 :: w1 :: e0 :: e1 :: c)
  = vlan_of_word (word16 w0 w1) :: chain_tags (e0 :: e1 :: c).
Proof.
  intros E H. rewrite chain_tags_eq, E, Z.eqb_refl.
  destruct (Z.ltb_spec (Z.land (word16 w0 w1) 0x0fff) 4095);
    [reflexivity | lia].
Qed.

(** The chain of a buffer laid out as the wire format is the chain that was
    laid out. *)
Lemma chain_tags_wire (ts : list VLAN.t) (e0 e1 : byte) (p : list byte) :
  Forall good_tag ts -> word16 e0 e1 <> EtherTypeVLAN ->
  chain_tags (tags_wire ts ++ e0 :: e1 :: p) = ts.
Proof.
  intros Hg Hne. induction Hg as [| v ts Hv Hg IH].
  - apply chain_tags_stop. assumption.
  - assert (Hw : (0 <= vlan_word v < 65536)%Z)
      by (destruct Hv; apply vlan_word_range; lia).
    assert (Hi : (Z.land (vlan_word v) 0x0fff < 4095)%Z)
      by (destruct Hv; rewrite vlan_word_id by lia; lia).
    assert (Hnext : exists y0 y1 c,
               tags_wire ts ++ e0 :: e1 :: p = y0 :: y1 :: c).
    { destruct ts as [| v' ts']; [exists e0, e1, p; reflexivity |].
      eexists _, _, _.
      change (tags_wire (v' :: ts')) with (tag_wire v' ++ tags_wire ts').
      unfold tag_wire. rewrite <- !app_assoc. unfold be16 at 1.
      reflexivity. }
    destruct Hnext as (y0 & y1 & c & Ec).
    change (tags_wire (v :: ts)) with (tag_wire v ++ tags_wire ts).
    rewrite <- app_assoc, Ec.
    change (tag_wire v ++ y0 :: y1 :: c)
      with (Z_to_byte (Z.shiftr EtherTypeVLAN 8) :: Z_to_byte EtherTypeVLAN
              :: Z_to_byte (Z.shiftr (vlan_word v) 8)
              :: Z_to_byte (vlan_word v) :: y0 :: y1 :: c).
    rewrite chain_tags_tag.
    + rewrite word16_be16 by assumption.
      rewrite vlan_of_word_vlan_word by assumption.
      rewrite <- Ec, IH. reflexivity.
    + apply (word16_be16 EtherTypeVLAN). unfold EtherTypeVLAN. lia.
    + rewrite word16_be16 by assumption. assumption.
Qed.

Lemma slice_skipn (b s : list byte) (lo hi : nat) :
  slice b lo hi = Some s -> skipn lo b = s ++ skipn hi b.
Proof.
  unfold slice. intros H.
  destruct (Nat.leb_spec lo hi), (Nat.leb_spec hi (length b));
    simpl in H; try discriminate.
  injection H as <-.
  rewrite <- (firstn_skipn (hi - lo) (skipn lo b)) at 1.
  rewrite skipn_skipn. replace (hi - lo + lo) with hi by lia. reflexivity.
Qed.

(** One turn of the loop at the marker, when it does not panic: it stops at
    the test of the length, or at a tag that the tag codec refuses, or it
    appends the tag and goes on at the next EtherType. *)
Lemma vlan_loop_turn_cases (need fuel : nat) (b : list byte) (n : nat)
      (f f' : Frame.t) (res : result (nat * Z)) :
  2 <= need <= 4 -> n <= length b ->
  vlan_loop need (S fuel) b n EtherTypeVLAN f = (f', res) ->
  res <> Panic ->
  (length b - n < need /\ f' = f /\ res = Err ErrUnexpectedEOF)
  \/ (exists w0 w1,
        slice b n (n + 2) = Some [w0; w1]
        /\ (4095 <= Z.land (word16 w0 w1) 0x0fff)%Z
        /\ f' = f /\ res = Err ErrInvalidVLAN)
  \/ (exists w0 w1 y0 y1,
        slice b n (n + 2) = Some [w0; w1]
        /\ slice b (n + 2) (n + 4) = Some [y0; y1]
        /\ (Z.land (word16 w0 w1) 0x0fff < 4095)%Z
        /\ vlan_loop need fuel b (n + 4) (word16 y0 y1)
             (Frame.append_VLAN (vlan_of_word (word16 w0 w1)) f)
           = (f', res)).
Proof.
  intros Hneed Hn H HP. rewrite vlan_loop_turn in H.
  erewrite bind_ok in H
    by (unfold lift; rewrite slice_from_in_range by assumption; reflexivity).
  rewrite length_skipn in H.
  destruct (Nat.ltb_spec (length b - n) need) as [Hshort | Hlong].
  { left. unfold throw in H. injection H as <- <-. repeat split. assumption. }
  right.
  assert (Hs : exists w0 w1, slice b n (n + 2) = Some [w0; w1]).
  { rewrite slice_in_range by lia.
    destruct (list_of_length_2 (firstn (n + 2 - n) (skipn n b))) as (w0 & w1 & E).
    - rewrite length_firstn, length_skipn. lia.
    - exists w0, w1. rewrite E. reflexivity. }
  destruct Hs as (w0 & w1 & Hs).
  erewrite bind_ok in H by (unfold lift; rewrite Hs; reflexivity).
  pose proof (VLAN_UnmarshalBinary_two w0 w1 VLAN.new) as Hv.
  destruct (Z.leb_spec 4095 (Z.land (word16 w0 w1) 4095)) as [Hbad | Hgood].
  { left. erewrite bind_err in H by (unfold call; rewrite Hv; reflexivity).
    injection H as <- <-. exists w0, w1. repeat split; assumption. }
  right.
  erewrite bind_ok in H by (unfold call; rewrite Hv; reflexivity).
  cbv beta iota in H.
  erewrite bind_ok in H by reflexivity.
  destruct (Nat.le_gt_cases (n + 4) (length b)) as [Hfour | Hfour].
  - assert (Hs' : exists y0 y1, slice b (n + 2) (n + 4) = Some [y0; y1]).
    { rewrite slice_in_range by lia.
      destruct (list_of_length_2 (firstn (n + 4 - (n + 2)) (skipn (n + 2) b)))
        as (y0 & y1 & E).
      - rewrite length_firstn, length_skipn. lia.
      - exists y0, y1. rewrite E. reflexivity. }
    destruct Hs' as (y0 & y1 & Hs').
    erewrite bind_ok in H by (unfold lift; rewrite Hs'; reflexivity).
    erewrite bind_ok in H by reflexivity.
    exists w0, w1, y0, y1. repeat split; assumption.
  - exfalso. revert H. unfold bind, lift, slice.
    destruct (Nat.leb_spec (n + 4) (length b)); [lia |].
    rewrite andb_false_r. intros Hp. injection Hp as _ <-.
    apply HP. reflexivity.
Qed.

(** The tags that a run of the loop appends are the chain of the buffer,
    read from the EtherType before the cursor, whether the run ends well or
    with an error. *)
Lemma vlan_loop_tags (need : nat) (b : list byte) :
  2 <= need <= 4 ->
  forall (fuel n : nat) (c0 c1 : byte) (f f' : Frame.t)
         (res : result (nat * Z)),
    2 <= n -> n <= length b -> slice b (n - 2) n = Some [c0; c1] ->
    vlan_loop need fuel b n (word16 c0 c1) f = (f', res) ->
    res <> Panic -> res <> OutOfFuel ->
    Frame.VLAN f' = Frame.VLAN f ++ chain_tags (skipn (n - 2) b).
Proof.
  intros Hneed.
  induction fuel as [| fuel IH]; intros n c0 c1 f f' res H2 Hn Hc H HP HF;
    pose proof (slice_skipn b _ _ _ Hc) as Hsk;
    change ([c0; c1] ++ skipn n b) with (c0 :: c1 :: skipn n b) in Hsk;
    destruct (Z.eq_dec (word16 c0 c1) EtherTypeVLAN) as [E | E].
  - rewrite E in H. simpl in H. injection H as _ <-.
    contradiction HF. reflexivity.
  - rewrite vlan_loop_stop in H by assumption. injection H as <- _.
    rewrite Hsk, chain_tags_stop by assumption. rewrite app_nil_r.
    reflexivity.
  - rewrite E in H.
    destruct (vlan_loop_turn_cases need fuel b n f f' res Hneed Hn H HP)
      as [(Hs & -> & _)
         | [(w0 & w1 & Hw & Hid & -> & _)
           | (w0 & w1 & y0 & y1 & Hw & Hy & Hid & Hrest)]].
    + rewrite Hsk, chain_tags_few; [rewrite app_nil_r; reflexivity |].
      cbn [length]. rewrite length_skipn. lia.
    + rewrite Hsk, (slice_skipn b _ _ _ Hw).
      change ([w0; w1] ++ skipn (n + 2) b)
        with (w0 :: w1 :: skipn (n + 2) b).
      rewrite chain_tags_bad by assumption. rewrite app_nil_r. reflexivity.
    + assert (Hn4 : n + 4 <= length b).
      { unfold slice in Hy.
        destruct (Nat.leb_spec (n + 4) (length b)); [assumption |].
        rewrite andb_false_r in Hy. discriminate. }
      pose proof (slice_skipn b _ _ _ Hy) as Hsk2.
      change ([y0; y1] ++ skipn (n + 4) b)
        with (y0 :: y1 :: skipn (n + 4) b) in Hsk2.
      replace (n + 2) with (n + 4 - 2) in Hy at 1 by lia.
      rewrite (IH (n + 4) y0 y1 _ f' res ltac:(lia) Hn4 Hy Hrest HP HF).
      replace (n + 4 - 2) with (n + 2) by lia.
      rewrite Hsk, (slice_skipn b _ _ _ Hw), Hsk2.
      change ([w0; w1] ++ y0 :: y1 :: skipn (n + 4) b)
        with (w0 :: w1 :: y0 :: y1 :: skipn (n + 4) b).
      rewrite chain_tags_tag by assumption.
      unfold Frame.append_VLAN. cbn [Frame.VLAN].
      rewrite <- app_assoc. reflexivity.
  - rewrite vlan_loop_stop in H by assumption. injection H as <- _.
    rewrite Hsk, chain_tags_stop by assumption. rewrite app_nil_r.
    reflexivity.
Qed.

Lemma loop_tags (need : nat) (b : list byte) (g : Frame.t)
      (ts : list VLAN.t) (lres : result (nat * Z)) :
  2 <= need <= 4 -> 14 <= length b ->
  vlan_loop need (length b) b 14 (first_et b) g = (add_tags ts g, lres) ->
  lres <> Panic -> lres <> OutOfFuel ->
  ts = chain_tags (skipn 12 b).
Proof.
  intros Hneed HL Hrun HP HF.
  destruct (header_slices b HL) as (_ & _ & c0 & c1 & Hc).
  rewrite (first_et_slice b c0 c1 Hc) in Hrun.
  pose proof (vlan_loop_tags need b Hneed (length b) 14 c0 c1 g _ lres
                ltac:(lia) HL Hc Hrun HP HF) as E.
  change (14 - 2) with 12 in E. unfold add_tags in E. cbn [Frame.VLAN] in E.
  apply app_inv_head in E. exact E.
Qed.

(** How a call of a decoder on a buffer of 14 bytes or more ends, when it
    does not panic: with [nil], or with an error and the receiver as it was
    then: the chain of the buffer appended to the receiver's tags, the two
    addresses stored in the revisions that store them before the loop, and,
    when the first revision refuses the payload, the EtherType stored. *)
Lemma decoder_outcome (r : revision) (b : list byte) (f f' : Frame.t)
      (res : result unit) :
  14 <= length b ->
  UnmarshalBinary r b f = (f', res) -> res <> Panic ->
  (res = Ok tt /\ Frame.VLAN f' = Frame.VLAN f ++ chain_tags (skipn 12 b))
  \/ (exists e,
        res = Err e
        /\ (f' = add_tags (chain_tags (skipn 12 b))
                   (match r with Rev3 => f | _ => with_addresses b f end)
            \/ (r = Rev1 /\ e = ErrUnexpectedEOF
                /\ exists et,
                    f' = Frame.set_EtherType et
                           (add_tags (chain_tags (skipn 12 b))
                              (with_addresses b f))))).
Proof.
  intros HL H HP. destruct r; cbv [UnmarshalBinary] in H.
  - destruct (vlan_loop_any 2 b ltac:(lia) (length b) 14 (first_et b) HL
                (fuel_enough b HL)) as (ts & lres & Hrun & Hend).
    rewrite (Ethernet1_run b f ts lres HL (Hrun _) Hend) in H.
    destruct lres as [[n et] | e | |].
    + assert (Ets : ts = chain_tags (skipn 12 b))
        by (apply (loop_tags 2 b (with_addresses b f) ts (Ok (n, et))
                     ltac:(lia) HL (Hrun _)); discriminate).
      rewrite <- Ets. destruct (too_short _ _).
      * right. injection H as <- <-. exists ErrUnexpectedEOF.
        split; [reflexivity |]. right. repeat split. exists et. reflexivity.
      * left. injection H as <- <-. split; reflexivity.
    + assert (Ets : ts = chain_tags (skipn 12 b))
        by (apply (loop_tags 2 b (with_addresses b f) ts (Err e)
                     ltac:(lia) HL (Hrun _)); discriminate).
      rewrite <- Ets. right. injection H as <- <-. exists e.
      split; [reflexivity | left; reflexivity].
    + injection H as _ <-. contradiction HP. reflexivity.
    + contradiction Hend.
  - destruct (vlan_loop_any 4 b ltac:(lia) (length b) 14 (first_et b) HL
                (fuel_enough b HL)) as (ts & lres & Hrun & Hend).
    rewrite (Ethernet2_run b f ts lres HL (Hrun _) Hend) in H.
    destruct lres as [[n et] | e | |].
    + assert (Ets : ts = chain_tags (skipn 12 b))
        by (apply (loop_tags 4 b (with_addresses b f) ts (Ok (n, et))
                     ltac:(lia) HL (Hrun _)); discriminate).
      rewrite <- Ets. left. injection H as <- <-. split; reflexivity.
    + assert (Ets : ts = chain_tags (skipn 12 b))
        by (apply (loop_tags 4 b (with_addresses b f) ts (Err e)
                     ltac:(lia) HL (Hrun _)); discriminate).
      rewrite <- Ets. right. injection H as <- <-. exists e.
      split; [reflexivity | left; reflexivity].
    + injection H as _ <-. contradiction HP. reflexivity.
    + contradiction Hend.
  - destruct (vlan_loop_any 4 b ltac:(lia) (length b) 14 (first_et b) HL
                (fuel_enough b HL)) as (ts & lres & Hrun & Hend).
    rewrite (Ethernet3_run b f ts lres HL (Hrun _) Hend) in H.
    destruct lres as [[n et] | e | |].
    + assert (Ets : ts = chain_tags (skipn 12 b))
        by (apply (loop_tags 4 b f ts (Ok (n, et))
                     ltac:(lia) HL (Hrun _)); discriminate).
      rewrite <- Ets. left. injection H as <- <-. split; reflexivity.
    + assert (Ets : ts = chain_tags (skipn 12 b))
        by (apply (loop_tags 4 b f ts (Err e)
                     ltac:(lia) HL (Hrun _)); discriminate).
      rewrite <- Ets. right. injection H as <- <-. exists e.
      split; [reflexivity | left; reflexivity].
    + injection H as _ <-. contradiction HP. reflexivity.
    + contradiction Hend.
Qed.

End DecoderTags.

(** * The claims *)

(** ** C5: the identifier 4095 is refused, every identifier up to 4094 is
    accepted *)

(** C5.  [VLAN.MarshalBinary] returns [ErrInvalidVLAN] and no slice for a tag
    whose identifier is 4095, and two bytes for a tag whose identifier is in
    [0, 4094]; [VLAN.UnmarshalBinary], given two bytes, returns
    [ErrInvalidVLAN] when their low twelve bits spell 4095 and returns [nil],
    with that identifier stored, when they spell a number up to 4094. *)
Theorem vlan_id_range (v v0 : VLAN.t) (b0 b1 : byte) :
  (VLAN.ID v = 4095 -> VLAN.MarshalBinary v = (None, Err ErrInvalidVLAN))
  /\ (0 <= VLAN.ID v <= 4094 ->
      exists bs, VLAN.MarshalBinary v = (Some bs, Ok tt) /\ length bs = 2%nat)
  /\ (Z.land (word16 b0 b1) 0x0fff = 4095 ->
      snd (VLAN.UnmarshalBinary [b0; b1] v0) = Err ErrInvalidVLAN)
  /\ (Z.land (word16 b0 b1) 0x0fff <= 4094 ->
      exists v', VLAN.UnmarshalBinary [b0; b1] v0 = (v', Ok tt)
                 /\ VLAN.ID v' = Z.land (word16 b0 b1) 0x0fff).
Proof.
  repeat split.
  - intros H. apply VLAN_MarshalBinary_err. lia.
  - intros H. exists (be16 (vlan_word v)). split; [| reflexivity].
    apply VLAN_MarshalBinary_ok. lia.
  - intros H. rewrite VLAN_UnmarshalBinary_two, H. reflexivity.
  - intros H. rewrite VLAN_UnmarshalBinary_two.
    destruct (Z.leb_spec 4095 (Z.land (word16 b0 b1) 4095)); [lia |].
    eexists. split; reflexivity.
Qed.

Lemma vlan_id_range_witness :
  VLAN.MarshalBinary (VLAN.mk 0 false 4095) = (None, Err ErrInvalidVLAN)
  /\ (exists bs, VLAN.MarshalBinary (VLAN.mk 0 false 4094) = (Some bs, Ok tt)
                 /\ length bs = 2%nat)
  /\ snd (VLAN.UnmarshalBinary [x0f; xff] VLAN.new) = Err ErrInvalidVLAN
  /\ (exists v', VLAN.UnmarshalBinary [x0f; xfe] VLAN.new = (v', Ok tt)
                 /\ VLAN.ID v' = Z.land (word16 x0f xfe) 0x0fff).
Proof.
  split; [| split; [| split]].
  - apply (vlan_id_range (VLAN.mk 0 false 4095) VLAN.new x00 x00). reflexivity.
  - apply (vlan_id_range (VLAN.mk 0 false 4094) VLAN.new x00 x00).
    simpl. lia.
  - apply (vlan_id_range VLAN.new VLAN.new x0f xff). reflexivity.
  - apply (vlan_id_range VLAN.new VLAN.new x0f xfe). vm_compute. discriminate.
Defined.

(** ** C6: the packed word *)

(** C6.  For a tag of the data model, with a priority in [0, 7] and an
    identifier in [0, 4094], [VLAN.MarshalBinary] returns exactly two bytes;
    in the big-endian word they spell, bits 15-13 are the priority, bit 12
    is the drop-eligible flag and bits 11-0 are the identifier.
    [VLAN.UnmarshalBinary] stores bits 15-13 of the word of its two bytes as
    the priority, bit 12 as the flag and bits 11-0 as the identifier. *)
Theorem vlan_layout (v v0 : VLAN.t) (b0 b1 : byte) :
  (0 <= VLAN.Priority v <= 7 -> 0 <= VLAN.ID v <= 4094 ->
   exists m0 m1,
     VLAN.MarshalBinary v = (Some [m0; m1], Ok tt)
     /\ Z.shiftr (word16 m0 m1) 13 = VLAN.Priority v
     /\ Z.testbit (word16 m0 m1) 12 = VLAN.DropEligible v
     /\ Z.land (word16 m0 m1) 0x0fff = VLAN.ID v)
  /\ fst (VLAN.UnmarshalBinary [b0; b1] v0)
     = VLAN.mk (Z.shiftr (word16 b0 b1) 13) (Z.testbit (word16 b0 b1) 12)
               (Z.land (word16 b0 b1) 0x0fff).
Proof.
  split.
  - intros HP HI.
    exists (Z_to_byte (Z.shiftr (vlan_word v) 8)), (Z_to_byte (vlan_word v)).
    rewrite word16_be16 by (apply vlan_word_range; lia).
    split; [apply VLAN_MarshalBinary_ok; lia |].
    rewrite vlan_word_priority, vlan_word_drop, vlan_word_id by lia.
    repeat split. apply Z.mod_small. lia.
  - rewrite VLAN_UnmarshalBinary_two. simpl fst. unfold vlan_of_word.
    rewrite land_bit12. f_equal.
    unfold uint8. apply Z.mod_small.
    pose proof (word16_range b0 b1) as Hw.
    rewrite Z.shiftr_div_pow2 by lia. change (2 ^ 13) with 8192.
    split; [apply Z.div_pos; lia |].
    apply Z.div_lt_upper_bound; lia.
Qed.

Lemma vlan_layout_witness :
  exists m0 m1,
    VLAN.MarshalBinary (VLAN.mk 7 true 100) = (Some [m0; m1], Ok tt)
    /\ Z.shiftr (word16 m0 m1) 13 = 7
    /\ Z.testbit (word16 m0 m1) 12 = true
    /\ Z.land (word16 m0 m1) 0x0fff = 100.
Proof.
  apply (vlan_layout (VLAN.mk 7 true 100) VLAN.new x00 x00); simpl; lia.
Defined.

(** ** C7: the length and the tail of the encoded frame *)

Lemma MarshalBinary_ok (r : revision) (f : Frame.t) :
  ids_ok (Frame.VLAN f) -> MarshalBinary r f = (Some (wire f), Ok tt).
Proof.
  intros H. destruct r; simpl.
  - apply Ethernet1_MarshalBinary_ok. assumption.
  - rewrite Ethernet2_MarshalBinary_eq.
    apply Ethernet1_MarshalBinary_ok. assumption.
  - apply Ethernet3_MarshalBinary_ok. assumption.
Qed.

Lemma MarshalBinary_success (r : revision) (f : Frame.t) (b : list byte) :
  MarshalBinary r f = (Some b, Ok tt) ->
  ids_ok (Frame.VLAN f) /\ b = wire f.
Proof.
  intros H. destruct (ids_ok_dec (Frame.VLAN f)) as [Hok | Hbad].
  - rewrite MarshalBinary_ok in H by assumption.
    split; [assumption | congruence].
  - exfalso. destruct r; simpl in H.
    + rewrite Ethernet1_MarshalBinary_err in H by assumption. discriminate.
    + rewrite Ethernet2_MarshalBinary_eq, Ethernet1_MarshalBinary_err in H
        by assumption.
      discriminate.
    + destruct (Ethernet3_MarshalBinary_err f Hbad) as [b' E].
      rewrite E in H. discriminate.
Qed.

Lemma MarshalBinary_nil (r : revision) (f : Frame.t) :
  snd (MarshalBinary r f) = Ok tt ->
  ids_ok (Frame.VLAN f) /\ MarshalBinary r f = (Some (wire f), Ok tt).
Proof.
  intros H. destruct (ids_ok_dec (Frame.VLAN f)) as [Hok | Hbad].
  - split; [assumption | apply MarshalBinary_ok; assumption].
  - exfalso. destruct r; cbv [MarshalBinary] in H.
    + rewrite Ethernet1_MarshalBinary_err in H by assumption. discriminate.
    + rewrite Ethernet2_MarshalBinary_eq, Ethernet1_MarshalBinary_err in H
        by assumption.
      discriminate.
    + destruct (Ethernet3_MarshalBinary_err f Hbad) as [b' E].
      rewrite E in H. discriminate.
Qed.

Lemma wire_split (f : Frame.t) :
  exists pre : list byte,
    length pre = (14 + 4 * length (Frame.VLAN f))%nat
    /\ wire f = pre ++ Frame.Payload f ++ padding (Frame.Payload f).
Proof.
  exists (fit 6 (Frame.Destination f) ++ fit 6 (Frame.Source f)
            ++ tags_wire (Frame.VLAN f) ++ be16 (uint16 (Frame.EtherType f))).
  split.
  - rewrite !length_app, !length_fit, length_tags_wire, length_be16. lia.
  - unfold wire. rewrite <- !app_assoc. reflexivity.
Qed.

(** C7.  When [Frame.MarshalBinary] returns [nil] as its error, it returns
    a buffer of [12 + 4 * len(f.VLAN) + 2 + max(len(f.Payload), 46)] bytes;
    the payload stands in it right after the terminal EtherType, at offset
    [14 + 4 * len(f.VLAN)], and every byte after the payload is zero: there
    are [46 - len(f.Payload)] of them for a payload shorter than 46 bytes.
    In each revision. *)
Theorem marshal_layout (r : revision) (f : Frame.t) :
  snd (MarshalBinary r f) = Ok tt ->
  exists b,
    MarshalBinary r f = (Some b, Ok tt)
    /\ length b
       = (12 + 4 * length (Frame.VLAN f) + 2
          + Nat.max (length (Frame.Payload f)) 46)%nat
    /\ firstn (length (Frame.Payload f))
              (skipn (14 + 4 * length (Frame.VLAN f)) b)
       = Frame.Payload f
    /\ skipn (14 + 4 * length (Frame.VLAN f) + length (Frame.Payload f)) b
       = repeat x00 (46 - length (Frame.Payload f)).
Proof.
  intros H. apply MarshalBinary_nil in H. destruct H as [_ E].
  exists (wire f). split; [exact E |].
  split; [apply length_wire |].
  destruct (wire_split f) as (pre & Hpre & ->).
  split.
  - rewrite (skipn_exact pre) by assumption.
    apply firstn_exact. reflexivity.
  - rewrite app_assoc. apply skipn_exact.
    rewrite length_app. lia.
Qed.

Lemma marshal_layout_witness :
  let f := Frame.mk Broadcast Broadcast [VLAN.mk 3 true 100] EtherTypeIPv4
                    [x61; x62; x63] in
  (exists b,
      MarshalBinary Rev1 f = (Some b, Ok tt)
      /\ length b = 64%nat
      /\ firstn 3 (skipn 18 b) = [x61; x62; x63]
      /\ skipn 21 b = repeat x00 43)
  /\ (exists b,
        MarshalBinary Rev2 f = (Some b, Ok tt)
        /\ length b = 64%nat
        /\ firstn 3 (skipn 18 b) = [x61; x62; x63]
        /\ skipn 21 b = repeat x00 43)
  /\ (exists b,
        MarshalBinary Rev3 f = (Some b, Ok tt)
        /\ length b = 64%nat
        /\ firstn 3 (skipn 18 b) = [x61; x62; x63]
        /\ skipn 21 b = repeat x00 43).
Proof.
  intros f. split; [| split].
  - exact (marshal_layout Rev1 f eq_refl).
  - exact (marshal_layout Rev2 f eq_refl).
  - exact (marshal_layout Rev3 f eq_refl).
Defined.

(** ** C1: decoding what the encoder wrote *)

Lemma wire_on_wire (f : Frame.t) :
  length (Frame.Destination f) = 6%nat ->
  length (Frame.Source f) = 6%nat ->
  wire f
  = on_wire (Frame.Destination f) (Frame.Source f) (Frame.VLAN f)
            (Z_to_byte (Z.shiftr (uint16 (Frame.EtherType f)) 8))
            (Z_to_byte (uint16 (Frame.EtherType f)))
            (Frame.Payload f ++ padding (Frame.Payload f)).
Proof.
  intros Hd Hs. unfold wire, on_wire.
  rewrite !fit_exact by assumption. reflexivity.
Qed.

Lemma good_tags_ids_ok (ts : list VLAN.t) : Forall good_tag ts -> ids_ok ts.
Proof.
  unfold ids_ok. apply Forall_impl. intros v [_ H]. lia.
Qed.

Lemma length_padded (p : list byte) :
  length (p ++ padding p) = Nat.max (length p) 46.
Proof.
  unfold padding. rewrite length_app, repeat_length. lia.
Qed.

Lemma UnmarshalBinary_on_wire (r : revision) (dst src : list byte)
      (ts : list VLAN.t) (e0 e1 : byte) (payload : list byte) (f : Frame.t) :
  length dst = 6%nat -> length src = 6%nat -> Forall good_tag ts ->
  word16 e0 e1 <> EtherTypeVLAN -> (46 <= length payload)%nat ->
  UnmarshalBinary r (on_wire dst src ts e0 e1 payload) f
  = (Frame.mk dst src (Frame.VLAN f ++ ts) (word16 e0 e1) payload, Ok tt).
Proof.
  intros Hd Hs Hg Ht Hp. destruct r; simpl.
  - rewrite Ethernet1_on_wire by assumption.
    rewrite too_short_long by assumption. reflexivity.
  - apply Ethernet2_on_wire; assumption.
  - apply Ethernet3_on_wire; assumption.
Qed.

(** C1, as the claim has it, fails for a frame whose EtherType is the VLAN
    marker: the decoder takes the first four bytes of its payload for a tag.
    The frame below has no tag and 46 zero bytes of payload; what comes back
    has one tag, EtherType 0 and 42 bytes of payload.  In each revision. *)
Lemma roundtrip_marker_counterexample :
  let f := Frame.mk Broadcast Broadcast [] EtherTypeVLAN (repeat x00 46) in
  let g := Frame.mk Broadcast Broadcast [VLAN.mk 0 false 0] 0 (repeat x00 42) in
  g <> f
  /\ (exists b, Ethernet1.MarshalBinary f = (Some b, Ok tt)
                /\ Ethernet1.UnmarshalBinary b Frame.new = (g, Ok tt))
  /\ (exists b, Ethernet2.MarshalBinary f = (Some b, Ok tt)
                /\ Ethernet2.UnmarshalBinary b Frame.new = (g, Ok tt))
  /\ (exists b, Ethernet3.MarshalBinary f = (Some b, Ok tt)
                /\ Ethernet3.UnmarshalBinary b Frame.new = (g, Ok tt)).
Proof.
  intros f g. split; [discriminate |].
  split; [| split]; eexists; (split; [reflexivity | vm_compute; reflexivity]).
Qed.

(** C1, amended.  For a frame with two 6-byte addresses, tags whose
    identifiers are in [0, 4094] and whose priorities are in [0, 7], and an
    EtherType that is not the VLAN marker 0x8100, [Frame.MarshalBinary]
    returns a buffer and [Frame.UnmarshalBinary] of that buffer into a frame
    with no tags returns [nil] and leaves the original frame with its
    payload followed by zeros up to 46 bytes: the original frame itself when
    its payload has 46 bytes or more.  For the encoder and the decoder of any
    two revisions. *)
Theorem frame_roundtrip (r r' : revision) (f f0 : Frame.t) :
  length (Frame.Destination f) = 6%nat ->
  length (Frame.Source f) = 6%nat ->
  Forall good_tag (Frame.VLAN f) ->
  0 <= Frame.EtherType f < 65536 ->
  Frame.EtherType f <> EtherTypeVLAN ->
  Frame.VLAN f0 = [] ->
  exists b,
    MarshalBinary r f = (Some b, Ok tt)
    /\ UnmarshalBinary r' b f0
       = (Frame.set_Payload
            (Frame.Payload f ++ repeat x00 (46 - length (Frame.Payload f))) f,
          Ok tt)
    /\ ((46 <= length (Frame.Payload f))%nat ->
        UnmarshalBinary r' b f0 = (f, Ok tt)).
Proof.
  intros Hd Hs Hg Hr Hne H0.
  assert (Hw : word16 (Z_to_byte (Z.shiftr (uint16 (Frame.EtherType f)) 8))
                      (Z_to_byte (uint16 (Frame.EtherType f)))
               = Frame.EtherType f).
  { unfold uint16. rewrite Z.mod_small by lia. apply word16_be16. lia. }
  assert (E : UnmarshalBinary r' (wire f) f0
              = (Frame.set_Payload
                   (Frame.Payload f ++ repeat x00 (46 - length (Frame.Payload f))) f,
                 Ok tt)).
  { rewrite wire_on_wire by assumption.
    rewrite UnmarshalBinary_on_wire; try assumption.
    - rewrite Hw, H0. reflexivity.
    - rewrite Hw. assumption.
    - rewrite length_padded. lia. }
  exists (wire f). split; [| split].
  - apply MarshalBinary_ok, good_tags_ids_ok. assumption.
  - exact E.
  - intros Hlong. rewrite E.
    replace (46 - length (Frame.Payload f))%nat with 0%nat by lia.
    simpl repeat. rewrite app_nil_r. destruct f; reflexivity.
Qed.

Lemma frame_roundtrip_witness :
  let f := Frame.mk Broadcast [x02; x00; x00; x00; x00; x01]
                    [VLAN.mk 3 true 100; VLAN.mk 0 false 4094]
                    EtherTypeIPv4 [x61; x62; x63] in
  exists b,
    MarshalBinary Rev1 f = (Some b, Ok tt)
    /\ UnmarshalBinary Rev3 b Frame.new
       = (Frame.set_Payload ([x61; x62; x63] ++ repeat x00 43) f, Ok tt)
    /\ ((46 <= 3)%nat -> UnmarshalBinary Rev3 b Frame.new = (f, Ok tt)).
Proof.
  intros f.
  apply (frame_roundtrip Rev1 Rev3 f Frame.new).
  - reflexivity.
  - reflexivity.
  - apply Forall_cons; [split; simpl; lia |].
    apply Forall_cons; [split; simpl; lia | apply Forall_nil].
  - vm_compute. split; [discriminate | reflexivity].
  - vm_compute. discriminate.
  - reflexivity.
Defined.

(** ** C2: 42 and 41 bytes of payload without a tag *)

(** C2, as the claim has it, fails in the two revisions that dropped the
    minimum payload ("We will follow the robustness principle"): a buffer
    with no tag and 41 bytes after the EtherType is decoded. *)
Lemma short_payload_counterexample :
  let b := repeat x00 (14 + 41) in
  first_et b <> EtherTypeVLAN
  /\ Ethernet2.UnmarshalBinary b Frame.new = (untagged b Frame.new, Ok tt)
  /\ Ethernet3.UnmarshalBinary b Frame.new = (untagged b Frame.new, Ok tt)
  /\ length (Frame.Payload (untagged b Frame.new)) = 41%nat.
Proof.
  intros b. split; [vm_compute; discriminate |].
  split; [| split]; vm_compute; reflexivity.
Qed.

(** C2, amended.  Let the EtherType at bytes 12-13 of the buffer not be the
    VLAN marker.  With exactly 42 bytes after it, [Frame.UnmarshalBinary]
    returns [nil] in every revision.  With exactly 41, the revision with the
    minimum payload (ethernet.go:120-195) returns [io.ErrUnexpectedEOF], and
    the two later revisions, which have no minimum, return [nil].  A decoded
    frame has the receiver's chain as it was: no tag is added for the one the
    length test allows for. *)
Theorem stripped_tag_lengths (b : list byte) (f : Frame.t) :
  first_et b <> EtherTypeVLAN ->
  (length b = (14 + 42)%nat ->
   forall r, UnmarshalBinary r b f = (untagged b f, Ok tt))
  /\ (length b = (14 + 41)%nat ->
      snd (UnmarshalBinary Rev1 b f) = Err ErrUnexpectedEOF
      /\ UnmarshalBinary Rev2 b f = (untagged b f, Ok tt)
      /\ UnmarshalBinary Rev3 b f = (untagged b f, Ok tt))
  /\ Frame.VLAN (untagged b f) = Frame.VLAN f.
Proof.
  intros Het. split; [| split; [| reflexivity]].
  - intros HL r. destruct r; simpl.
    + rewrite Ethernet1_untagged by (assumption || lia).
      replace (length b - 14)%nat with 42%nat by lia.
      rewrite too_short_42. reflexivity.
    + apply Ethernet2_untagged; [lia | assumption].
    + apply Ethernet3_untagged; [lia | assumption].
  - intros HL. simpl. split; [| split].
    + rewrite Ethernet1_untagged by (assumption || lia).
      replace (length b - 14)%nat with 41%nat by lia.
      rewrite too_short_41. reflexivity.
    + apply Ethernet2_untagged; [lia | assumption].
    + apply Ethernet3_untagged; [lia | assumption].
Qed.

Lemma stripped_tag_lengths_witness :
  (forall r, UnmarshalBinary r (repeat x00 56) Frame.new
             = (untagged (repeat x00 56) Frame.new, Ok tt))
  /\ snd (UnmarshalBinary Rev1 (repeat x00 55) Frame.new)
     = Err ErrUnexpectedEOF.
Proof.
  split.
  - apply (stripped_tag_lengths (repeat x00 56) Frame.new);
      [vm_compute; discriminate | reflexivity].
  - apply (stripped_tag_lengths (repeat x00 55) Frame.new);
      [vm_compute; discriminate | reflexivity].
Defined.

(** ** C3: buffers of fewer than 14 bytes, and of 14 *)

(** C3, as the claim has it, fails in the revision with the minimum payload:
    fourteen bytes with an EtherType that is not the marker are refused,
    for want of a payload. *)
Lemma header_only_counterexample :
  let b := repeat x00 14 in
  length b = 14%nat
  /\ first_et b <> EtherTypeVLAN
  /\ Ethernet1.UnmarshalBinary b Frame.new
     = (Frame.mk (repeat x00 6) (repeat x00 6) [] 0 [], Err ErrUnexpectedEOF).
Proof.
  intros b. split; [reflexivity |].
  split; [vm_compute; discriminate | vm_compute; reflexivity].
Qed.

(** C3, amended.  In every revision [Frame.UnmarshalBinary] returns
    [io.ErrUnexpectedEOF], the receiver untouched, for a buffer of fewer
    than 14 bytes.  For a buffer of exactly 14 bytes whose EtherType is not
    the VLAN marker, the two revisions without a minimum payload
    (part_000:120-169, ethernet.go:326-374) return [nil] with an empty
    payload, and the revision with the minimum payload (ethernet.go:120-195)
    returns [io.ErrUnexpectedEOF]. *)
Theorem truncation (r : revision) (b : list byte) (f : Frame.t) :
  ((length b < 14)%nat -> UnmarshalBinary r b f = (f, Err ErrUnexpectedEOF))
  /\ (length b = 14%nat -> first_et b <> EtherTypeVLAN ->
      UnmarshalBinary Rev2 b f = (untagged b f, Ok tt)
      /\ UnmarshalBinary Rev3 b f = (untagged b f, Ok tt)
      /\ Frame.Payload (untagged b f) = []
      /\ snd (UnmarshalBinary Rev1 b f) = Err ErrUnexpectedEOF).
Proof.
  split.
  - intros H. destruct r; simpl;
      [apply short_buffer_1 | apply short_buffer_2 | apply short_buffer_3];
      assumption.
  - intros HL Het. unfold UnmarshalBinary. split; [| split; [| split]].
    + apply Ethernet2_untagged; [lia | assumption].
    + apply Ethernet3_untagged; [lia | assumption].
    + unfold untagged, Frame.Payload. apply skipn_all2. lia.
    + rewrite Ethernet1_untagged by (assumption || lia).
      replace (length b - 14)%nat with 0%nat by lia.
      rewrite too_short_0. reflexivity.
Qed.

Lemma truncation_witness :
  UnmarshalBinary Rev1 (repeat x00 13) Frame.new
  = (Frame.new, Err ErrUnexpectedEOF)
  /\ UnmarshalBinary Rev3 (repeat x00 14) Frame.new
     = (untagged (repeat x00 14) Frame.new, Ok tt).
Proof.
  split.
  - apply (truncation Rev1 (repeat x00 13) Frame.new). simpl. lia.
  - apply (truncation Rev1 (repeat x00 14) Frame.new);
      [reflexivity | vm_compute; discriminate].
Defined.

(** ** C4: the length test of the loop *)

(** The decoders whose loop asks for four bytes never slice out of range,
    and never leave the loop for want of fuel. *)
Lemma four_byte_test_is_safe (r : revision) (b : list byte) (f : Frame.t) :
  r <> Rev1 ->
  snd (UnmarshalBinary r b f) <> Panic
  /\ snd (UnmarshalBinary r b f) <> OutOfFuel.
Proof.
  intros Hr. destruct (decoder_any r b) as [ts H].
  destruct (H f) as (_ & Hfuel & _ & Hpanic & _).
  split; [apply Hpanic; assumption | assumption].
Qed.

(** The decoder of the first revision always leaves its loop. *)
Lemma first_revision_terminates (b : list byte) (f : Frame.t) :
  snd (UnmarshalBinary Rev1 b f) <> OutOfFuel.
Proof.
  destruct (decoder_any Rev1 b) as [ts H].
  destruct (H f) as (_ & Hfuel & _). assumption.
Qed.

(** C4.  The buffer below has the marker at bytes 12-13 and two bytes after
    it, a tag with identifier 1.  The first revision tests for two bytes
    (ethernet.go:142), reads the tag and slices [b[16:18]] out of range: it
    panics.  The two later revisions test for four bytes (part_000:142,
    ethernet.go:340) and return [io.ErrUnexpectedEOF], as the claim has
    it. *)
Theorem vlan_loop_out_of_range :
  let b := repeat x00 12 ++ [x81; x00; x00; x01] in
  snd (Ethernet1.UnmarshalBinary b Frame.new) = Panic
  /\ snd (Ethernet2.UnmarshalBinary b Frame.new) = Err ErrUnexpectedEOF
  /\ Ethernet3.UnmarshalBinary b Frame.new = (Frame.new, Err ErrUnexpectedEOF).
Proof.
  intros b. split; [| split]; vm_compute; reflexivity.
Qed.

(** ** C8: the frame check sequence *)

(** The check value of CRC-32/IEEE: the checksum of the ASCII digits
    "123456789" is [0xcbf43926]. *)
Example crc32_check_value :
  ChecksumIEEE [x31; x32; x33; x34; x35; x36; x37; x38; x39] = 0xcbf43926.
Proof. vm_compute. reflexivity. Qed.

(** A frame through [MarshalFCS] and back through [UnmarshalFCS]. *)
Example fcs_roundtrip_example :
  let f := Frame.mk Broadcast Broadcast [VLAN.mk 2 false 10] EtherTypeARP
                    (repeat x01 50) in
  exists b, Ethernet3.MarshalFCS f = (Some b, Ok tt)
            /\ length b = 72%nat
            /\ Ethernet3.UnmarshalFCS b Frame.new = (f, Ok tt).
Proof.
  intros f. eexists. split; [vm_compute; reflexivity |].
  split; vm_compute; reflexivity.
Qed.

Lemma list_of_length_4 (s : list byte) :
  length s = 4%nat -> exists want, Uint32 s = Some want.
Proof.
  destruct s as [| b0 [| b1 [| b2 [| b3 [| ? ?]]]]]; simpl; intros H;
    try discriminate.
  eexists. reflexivity.
Qed.

(** C8.  [Frame.UnmarshalFCS] returns [io.ErrUnexpectedEOF] for fewer than
    four bytes.  For four bytes or more, with [want] the big-endian word of
    the last four and [body] the bytes before them: when [want] is not the
    IEEE CRC32 of [body] it returns [ErrInvalidFCS] and the receiver is
    untouched; when it is, the call is the call of [Frame.UnmarshalBinary]
    on [body], receiver and result; and [ErrInvalidFCS] is returned in the
    first case only. *)
Theorem unmarshal_fcs (b : list byte) (f : Frame.t) :
  ((length b < 4)%nat ->
   Ethernet3.UnmarshalFCS b f = (f, Err ErrUnexpectedEOF))
  /\ ((4 <= length b)%nat ->
      exists want,
        Uint32 (skipn (length b - 4) b) = Some want
        /\ (want <> ChecksumIEEE (firstn (length b - 4) b) ->
            Ethernet3.UnmarshalFCS b f = (f, Err ErrInvalidFCS))
        /\ (want = ChecksumIEEE (firstn (length b - 4) b) ->
            Ethernet3.UnmarshalFCS b f
            = Ethernet3.UnmarshalBinary (firstn (length b - 4) b) f)
        /\ (snd (Ethernet3.UnmarshalFCS b f) = Err ErrInvalidFCS
            <-> want <> ChecksumIEEE (firstn (length b - 4) b))).
Proof.
  split.
  - intros H. unfold Ethernet3.UnmarshalFCS.
    destruct (Nat.ltb_spec (length b) 4); [reflexivity | lia].
  - intros H.
    destruct (list_of_length_4 (skipn (length b - 4) b)) as [want Hw].
    { rewrite length_skipn. lia. }
    exists want. split; [assumption |].
    assert (Hbad : want <> ChecksumIEEE (firstn (length b - 4) b) ->
                   Ethernet3.UnmarshalFCS b f = (f, Err ErrInvalidFCS)).
    { intros Hne. unfold Ethernet3.UnmarshalFCS.
      destruct (Nat.ltb_spec (length b) 4); [lia |].
      erewrite bind_ok
        by (unfold lift; rewrite slice_from_in_range by lia; reflexivity).
      erewrite bind_ok by (unfold lift; rewrite Hw; reflexivity).
      erewrite bind_ok
        by (unfold lift; rewrite slice_in_range by lia; reflexivity).
      rewrite Nat.sub_0_r. change (skipn 0 b) with b.
      destruct (Z.eqb_spec want (ChecksumIEEE (firstn (length b - 4) b)));
        [contradiction | reflexivity]. }
    assert (Hgood : want = ChecksumIEEE (firstn (length b - 4) b) ->
                    Ethernet3.UnmarshalFCS b f
                    = Ethernet3.UnmarshalBinary (firstn (length b - 4) b) f).
    { intros He. unfold Ethernet3.UnmarshalFCS.
      destruct (Nat.ltb_spec (length b) 4); [lia |].
      erewrite bind_ok
        by (unfold lift; rewrite slice_from_in_range by lia; reflexivity).
      erewrite bind_ok by (unfold lift; rewrite Hw; reflexivity).
      erewrite bind_ok
        by (unfold lift; rewrite slice_in_range by lia; reflexivity).
      rewrite Nat.sub_0_r. change (skipn 0 b) with b.
      destruct (Z.eqb_spec want (ChecksumIEEE (firstn (length b - 4) b)));
        [| contradiction].
      change (negb true) with false. cbv iota.
      erewrite bind_ok
        by (unfold lift; rewrite slice_in_range by lia; reflexivity).
      rewrite Nat.sub_0_r. reflexivity. }
    split; [assumption | split; [assumption |]].
    split.
    + intros Hfcs Heq. rewrite (Hgood Heq) in Hfcs.
      destruct (decoder_any Rev3 (firstn (length b - 4) b)) as [ts Hts].
      destruct (Hts f) as (_ & _ & Hno & _). apply Hno. exact Hfcs.
    + intros Hne. rewrite (Hbad Hne). reflexivity.
Qed.

Lemma unmarshal_fcs_witness :
  Ethernet3.UnmarshalFCS [x00; x00; x00] Frame.new
  = (Frame.new, Err ErrUnexpectedEOF)
  /\ exists want,
      Uint32 [x00; x00; x00; x01] = Some want
      /\ (want <> ChecksumIEEE [] ->
          Ethernet3.UnmarshalFCS [x00; x00; x00; x01] Frame.new
          = (Frame.new, Err ErrInvalidFCS)).
Proof.
  split.
  - apply (unmarshal_fcs [x00; x00; x00] Frame.new). simpl. lia.
  - destruct (proj2 (unmarshal_fcs [x00; x00; x00; x01] Frame.new))
      as (want & Hw & Hbad & _).
    + simpl. lia.
    + exists want. split; [exact Hw | exact Hbad].
Defined.

(** ** C10: the decoder appends to the receiver's chain *)

(** C10.  When [Frame.UnmarshalBinary] returns [nil], the buffer is laid out
    as two 6-byte addresses, the [m] tags of its chain, each as the marker
    0x81 0x00 and the two bytes of the tag, an EtherType that is not the
    marker, and the payload; and a receiver that held [k] tags is left with
    those [k] tags followed by the [m] tags of the buffer in their order:
    [k + m] tags.  In each revision. *)
Theorem decode_appends (r : revision) (b : list byte) (f f' : Frame.t) :
  UnmarshalBinary r b f = (f', Ok tt) ->
  exists (ts : list VLAN.t) (e0 e1 : byte),
    ts = chain_tags (skipn 12 b)
    /\ Forall good_tag ts
    /\ word16 e0 e1 <> EtherTypeVLAN
    /\ b = on_wire (firstn 6 b) (firstn 6 (skipn 6 b)) ts e0 e1
                   (Frame.Payload f')
    /\ Frame.VLAN f' = Frame.VLAN f ++ ts
    /\ length (Frame.VLAN f')
       = (length (Frame.VLAN f) + length ts)%nat.
Proof.
  intros H.
  destruct (accepted_frame r b f f' H)
    as (ts & e0 & e1 & Hg & Hne & E & Hle & Ef).
  assert (HL : (14 <= length b)%nat) by lia.
  assert (Ev : Frame.VLAN f' = Frame.VLAN f ++ ts) by (rewrite Ef; reflexivity).
  assert (Ep : Frame.Payload f' = skipn (14 + 4 * length ts) b)
    by (rewrite Ef; reflexivity).
  exists ts, e0, e1.
  split.
  - destruct (decoder_outcome r b f f' (Ok tt) HL H ltac:(discriminate))
      as [(_ & Hc) | (e & He & _)]; [| discriminate].
    rewrite Ev in Hc. apply app_inv_head in Hc. exact Hc.
  - split; [assumption |]. split; [assumption |].
    split; [rewrite Ep; exact E |].
    split; [exact Ev |].
    rewrite Ev. apply length_app.
Qed.

Lemma decode_appends_witness :
  let b := repeat x00 12
             ++ [x81; x00; x60; x64; x81; x00; x00; x05; x08; x00]
             ++ repeat x00 46 in
  let f := Frame.mk [] [] [VLAN.mk 1 false 7] 0 [] in
  Frame.VLAN (fst (UnmarshalBinary Rev1 b f))
  = [VLAN.mk 1 false 7; VLAN.mk 3 false 100; VLAN.mk 0 false 5]
  /\ Frame.VLAN (fst (UnmarshalBinary Rev2 b f))
     = [VLAN.mk 1 false 7; VLAN.mk 3 false 100; VLAN.mk 0 false 5]
  /\ Frame.VLAN (fst (UnmarshalBinary Rev3 b f))
     = [VLAN.mk 1 false 7; VLAN.mk 3 false 100; VLAN.mk 0 false 5].
Proof.
  intros b f. split; [| split].
  - destruct (decode_appends Rev1 b f (fst (UnmarshalBinary Rev1 b f)))
      as (ts & e0 & e1 & Ets & _ & _ & _ & Ev & _);
      [vm_compute; reflexivity |].
    rewrite Ev, Ets. vm_compute. reflexivity.
  - destruct (decode_appends Rev2 b f (fst (UnmarshalBinary Rev2 b f)))
      as (ts & e0 & e1 & Ets & _ & _ & _ & Ev & _);
      [vm_compute; reflexivity |].
    rewrite Ev, Ets. vm_compute. reflexivity.
  - destruct (decode_appends Rev3 b f (fst (UnmarshalBinary Rev3 b f)))
      as (ts & e0 & e1 & Ets & _ & _ & _ & Ev & _);
      [vm_compute; reflexivity |].
    rewrite Ev, Ets. vm_compute. reflexivity.
Defined.

(** ** C9: what a failed call leaves behind *)






(** * Further properties of the codec *)

(** ** The VLAN tag codec, both ways *)

(** X1.  A tag with a priority in [0, 7] and an identifier in [0, 4094]
    comes back from its two bytes: [VLAN.UnmarshalBinary] of what
    [VLAN.MarshalBinary] returned stores the tag, whatever the receiver
    held. *)
Theorem vlan_encode_decode (v v0 : VLAN.t) :
  good_tag v ->
  exists bs,
    VLAN.MarshalBinary v = (Some bs, Ok tt)
    /\ VLAN.UnmarshalBinary bs v0 = (v, Ok tt).
Proof.
  intros Hg. exists (be16 (vlan_word v)). split.
  - apply VLAN_MarshalBinary_ok. destruct Hg. lia.
  - apply VLAN_roundtrip. assumption.
Qed.

Lemma vlan_encode_decode_witness :
  exists bs,
    VLAN.MarshalBinary (VLAN.mk 7 true 4094) = (Some bs, Ok tt)
    /\ VLAN.UnmarshalBinary bs (VLAN.mk 1 false 2) = (VLAN.mk 7 true 4094, Ok tt).
Proof.
  apply (vlan_encode_decode (VLAN.mk 7 true 4094) (VLAN.mk 1 false 2)).
  split; simpl; lia.
Defined.

(** X2.  Two bytes that [VLAN.UnmarshalBinary] accepts are the two bytes
    that [VLAN.MarshalBinary] returns for the tag it stored: every accepted
    input is the encoding of its decoding. *)
Theorem vlan_decode_encode (b : list byte) (v0 v : VLAN.t) :
  VLAN.UnmarshalBinary b v0 = (v, Ok tt) ->
  VLAN.MarshalBinary v = (Some b, Ok tt).
Proof.
  intros H. destruct (Nat.eq_dec (length b) 2) as [E | E].
  - destruct (list_of_length_2 b E) as (b0 & b1 & ->).
    rewrite VLAN_UnmarshalBinary_two in H.
    destruct (Z.leb_spec 4095 (Z.land (word16 b0 b1) 4095)) as [Hle | Hlt];
      [discriminate |].
    injection H as <-.
    rewrite VLAN_MarshalBinary_ok by (simpl; lia).
    rewrite vlan_word_vlan_of_word by apply word16_range.
    rewrite be16_word16. reflexivity.
  - rewrite VLAN_UnmarshalBinary_length in H by assumption. discriminate.
Qed.

Lemma vlan_decode_encode_witness :
  VLAN.MarshalBinary (VLAN.mk 5 false 0x123) = (Some [xa1; x23], Ok tt).
Proof.
  apply (vlan_decode_encode [xa1; x23] VLAN.new). reflexivity.
Defined.

(** X3.  A tag that [VLAN.UnmarshalBinary] returns without error has a
    priority in [0, 7] and an identifier in [0, 4094], whatever the input
    and whatever the receiver held; and the input had two bytes. *)
Theorem vlan_decoded_in_range (b : list byte) (v0 v : VLAN.t) :
  VLAN.UnmarshalBinary b v0 = (v, Ok tt) ->
  length b = 2%nat
  /\ 0 <= VLAN.Priority v <= 7 /\ 0 <= VLAN.ID v <= 4094.
Proof.
  intros H. destruct (Nat.eq_dec (length b) 2) as [E | E].
  - split; [assumption |].
    destruct (list_of_length_2 b E) as (b0 & b1 & ->).
    rewrite VLAN_UnmarshalBinary_two in H.
    destruct (Z.leb_spec 4095 (Z.land (word16 b0 b1) 4095)) as [Hle | Hlt];
      [discriminate |].
    injection H as <-.
    apply vlan_of_word_good; [apply word16_range | assumption].
  - rewrite VLAN_UnmarshalBinary_length in H by assumption. discriminate.
Qed.

Lemma vlan_decoded_in_range_witness :
  length [xff; xfe] = 2%nat
  /\ 0 <= VLAN.Priority (VLAN.mk 7 true 4094) <= 7
  /\ 0 <= VLAN.ID (VLAN.mk 7 true 4094) <= 4094.
Proof.
  apply (vlan_decoded_in_range [xff; xfe] (VLAN.mk 200 false 60000)).
  reflexivity.
Defined.

(** ** The encoder: what it writes *)

(** X5.  When [Frame.MarshalBinary] returns [nil] as its error, what it
    returns is the wire format from its first byte to its last: the
    destination and the source, each cut or zero-padded to six bytes; for
    each tag in order the bytes 0x81 0x00 and the two bytes that
    [VLAN.MarshalBinary] returns for it; the EtherType, high byte first; the
    payload and its padding.  In each revision. *)
Theorem marshal_wire_format (r : revision) (f : Frame.t) :
  snd (MarshalBinary r f) = Ok tt ->
  MarshalBinary r f
  = (Some (firstn 6 (Frame.Destination f)
             ++ repeat x00 (6 - length (Frame.Destination f))
             ++ firstn 6 (Frame.Source f)
             ++ repeat x00 (6 - length (Frame.Source f))
             ++ flat_map (fun v => [x81; x00] ++ be16 (vlan_word v))
                         (Frame.VLAN f)
             ++ be16 (Frame.EtherType f mod 65536)
             ++ Frame.Payload f
             ++ repeat x00 (46 - length (Frame.Payload f))),
     Ok tt)
  /\ Forall (fun v => VLAN.MarshalBinary v = (Some (be16 (vlan_word v)), Ok tt))
            (Frame.VLAN f).
Proof.
  intros H. apply MarshalBinary_nil in H. destruct H as [Hok ->].
  split.
  - unfold wire, fit, padding, tags_wire. rewrite <- !app_assoc. reflexivity.
  - revert Hok. apply Forall_impl. intros v Hv.
    apply VLAN_MarshalBinary_ok. assumption.
Qed.

Lemma marshal_wire_format_witness :
  let f := Frame.mk [x01; x02] Broadcast [VLAN.mk 1 false 5] EtherTypeIPv6
                    [xaa] in
  let bytes := [x01; x02; x00; x00; x00; x00] ++ Broadcast
                 ++ [x81; x00; x20; x05] ++ [x86; xdd] ++ [xaa]
                 ++ repeat x00 45 in
  MarshalBinary Rev1 f = (Some bytes, Ok tt)
  /\ MarshalBinary Rev2 f = (Some bytes, Ok tt)
  /\ MarshalBinary Rev3 f = (Some bytes, Ok tt).
Proof.
  intros f bytes. split; [| split].
  - destruct (marshal_wire_format Rev1 f) as [E _]; [reflexivity | exact E].
  - destruct (marshal_wire_format Rev2 f) as [E _]; [reflexivity | exact E].
  - destruct (marshal_wire_format Rev3 f) as [E _]; [reflexivity | exact E].
Defined.

(** X6.  When [Frame.MarshalBinary] returns [nil] as its error, it returns a
    buffer of at least 60 bytes, the minimum Ethernet frame without its
    check sequence, and of exactly 60 when the frame has no tag and a
    payload of at most 46 bytes.  In each revision. *)
Theorem marshal_minimum_size (r : revision) (f : Frame.t) :
  snd (MarshalBinary r f) = Ok tt ->
  exists b,
    MarshalBinary r f = (Some b, Ok tt)
    /\ (60 <= length b)%nat
    /\ (Frame.VLAN f = [] -> (length (Frame.Payload f) <= 46)%nat ->
        length b = 60%nat).
Proof.
  intros H. apply MarshalBinary_nil in H. destruct H as [_ E].
  exists (wire f). split; [exact E |].
  rewrite length_wire. split; [lia |].
  intros -> Hp. simpl length. lia.
Qed.

Lemma marshal_minimum_size_witness :
  let f := Frame.mk Broadcast Broadcast [] EtherTypeARP [x01; x02] in
  (exists b, MarshalBinary Rev1 f = (Some b, Ok tt) /\ length b = 60%nat)
  /\ (exists b, MarshalBinary Rev2 f = (Some b, Ok tt) /\ length b = 60%nat)
  /\ (exists b, MarshalBinary Rev3 f = (Some b, Ok tt) /\ length b = 60%nat).
Proof.
  intros f. split; [| split].
  - destruct (marshal_minimum_size Rev1 f eq_refl) as (b & E & _ & Hx).
    exists b. split; [exact E | apply Hx; [reflexivity | simpl; lia]].
  - destruct (marshal_minimum_size Rev2 f eq_refl) as (b & E & _ & Hx).
    exists b. split; [exact E | apply Hx; [reflexivity | simpl; lia]].
  - destruct (marshal_minimum_size Rev3 f eq_refl) as (b & E & _ & Hx).
    exists b. split; [exact E | apply Hx; [reflexivity | simpl; lia]].
Defined.

(** X7.  The three revisions of [Frame.MarshalBinary] return the same error
    for the same frame, and the same buffer when the error is [nil]: moving
    the body into [read] and [length] did not change the encoding. *)
Theorem marshal_revisions_agree (r r' : revision) (f : Frame.t) :
  snd (MarshalBinary r f) = snd (MarshalBinary r' f)
  /\ (snd (MarshalBinary r f) = Ok tt ->
      MarshalBinary r f = MarshalBinary r' f).
Proof.
  destruct (ids_ok_dec (Frame.VLAN f)) as [Hok | Hbad].
  - rewrite !MarshalBinary_ok by assumption. split; reflexivity.
  - assert (E : forall q, snd (MarshalBinary q f) = Err ErrInvalidVLAN).
    { intros q. destruct q; simpl.
      - rewrite Ethernet1_MarshalBinary_err by assumption. reflexivity.
      - rewrite Ethernet2_MarshalBinary_eq, Ethernet1_MarshalBinary_err
          by assumption.
        reflexivity.
      - destruct (Ethernet3_MarshalBinary_err f Hbad) as [b' ->].
        reflexivity. }
    rewrite !E. split; [reflexivity | discriminate].
Qed.

Lemma marshal_revisions_agree_witness :
  let f := Frame.mk Broadcast Broadcast [VLAN.mk 0 false 9] EtherTypeIPv4
                    [x01] in
  MarshalBinary Rev1 f = MarshalBinary Rev3 f.
Proof.
  intros f. apply (marshal_revisions_agree Rev1 Rev3 f). reflexivity.
Defined.

(** X8.  Padding a short payload with zeros by hand does not change the
    encoding: a frame and the frame with its payload zero-filled to 46
    bytes are encoded alike. *)
Theorem marshal_padding_absorbed (r : revision) (f : Frame.t) :
  MarshalBinary r
    (Frame.set_Payload
       (Frame.Payload f ++ repeat x00 (46 - length (Frame.Payload f))) f)
  = MarshalBinary r f
  \/ snd (MarshalBinary r f) = Err ErrInvalidVLAN.
Proof.
  destruct (ids_ok_dec (Frame.VLAN f)) as [Hok | Hbad].
  - left. rewrite !MarshalBinary_ok by assumption.
    f_equal. f_equal. unfold wire, padding.
    destruct f as [d s vs et p].
    cbn [Frame.set_Payload Frame.Payload Frame.Destination Frame.Source
         Frame.VLAN Frame.EtherType].
    rewrite length_app, repeat_length.
    replace (46 - (length p + (46 - length p)))%nat with 0%nat by lia.
    change (repeat x00 0) with (@nil byte).
    rewrite (app_nil_r (p ++ _)). reflexivity.
  - right. destruct r; simpl.
    + rewrite Ethernet1_MarshalBinary_err by assumption. reflexivity.
    + rewrite Ethernet2_MarshalBinary_eq, Ethernet1_MarshalBinary_err
        by assumption.
      reflexivity.
    + destruct (Ethernet3_MarshalBinary_err f Hbad) as [b' ->].
      reflexivity.
Qed.

(** ** The decoder: what it accepts and what it stores *)

Section DecoderExtras.

Local Open Scope nat_scope.

(** X9.  A frame that [Frame.UnmarshalBinary] returns with [nil] has two
    6-byte addresses, the first twelve bytes of the buffer; an EtherType
    that is a 16-bit value and is not the VLAN marker; the receiver's tags
    followed by tags whose priorities are in [0, 7] and identifiers in
    [0, 4094]; and as its payload all that is left of the buffer after the
    14 bytes of the header and 4 bytes for each tag read.  In each
    revision. *)
Theorem unmarshal_accepts (r : revision) (b : list byte) (f f' : Frame.t) :
  UnmarshalBinary r b f = (f', Ok tt) ->
  Frame.Destination f' = firstn 6 b
  /\ Frame.Source f' = firstn 6 (skipn 6 b)
  /\ length (Frame.Destination f') = 6
  /\ length (Frame.Source f') = 6
  /\ (0 <= Frame.EtherType f' < 65536)%Z
  /\ Frame.EtherType f' <> EtherTypeVLAN
  /\ exists ts,
      Frame.VLAN f' = Frame.VLAN f ++ ts
      /\ Forall good_tag ts
      /\ Frame.Payload f' = skipn (14 + 4 * length ts) b
      /\ length b = 14 + 4 * length ts + length (Frame.Payload f').
Proof.
  intros H.
  destruct (accepted_frame r b f f' H)
    as (ts & e0 & e1 & Hg & Hne & E & Hle & ->).
  cbn [Frame.Destination Frame.Source Frame.VLAN Frame.EtherType
       Frame.Payload].
  split; [reflexivity |]. split; [reflexivity |].
  split; [rewrite length_firstn; lia |].
  split; [rewrite length_firstn, length_skipn; lia |].
  split; [apply word16_range |].
  split; [assumption |].
  exists ts. split; [reflexivity |]. split; [assumption |].
  split; [reflexivity |].
  rewrite length_skipn. lia.
Qed.

Lemma unmarshal_accepts_witness :
  let b := repeat x00 12 ++ [x81; x00; x60; x64; x08; x00] ++ repeat x07 3 in
  let f' := fst (UnmarshalBinary Rev3 b Frame.new) in
  length (Frame.Destination f') = 6
  /\ Frame.EtherType f' <> EtherTypeVLAN
  /\ exists ts,
      Frame.VLAN f' = Frame.VLAN Frame.new ++ ts
      /\ Forall good_tag ts
      /\ Frame.Payload f' = skipn (14 + 4 * length ts) b
      /\ length b = 14 + 4 * length ts + length (Frame.Payload f').
Proof.
  intros b f'.
  destruct (unmarshal_accepts Rev3 b Frame.new f')
    as (_ & _ & Hd & _ & _ & Hne & Hts); [vm_compute; reflexivity |].
  split; [exact Hd | split; [exact Hne | exact Hts]].
Defined.

(** X10.  Encoding what was decoded gives the buffer back: when
    [Frame.UnmarshalBinary] of a buffer into a frame without tags returns
    [nil], [Frame.MarshalBinary] of the frame returns the buffer, followed
    by zeros up to 46 bytes of payload when its payload is shorter.  For the
    decoder and the encoder of any two revisions. *)
Theorem decode_encode (r r' : revision) (b : list byte) (f f' : Frame.t) :
  Frame.VLAN f = [] ->
  UnmarshalBinary r b f = (f', Ok tt) ->
  MarshalBinary r' f'
  = (Some (b ++ repeat x00 (46 - length (Frame.Payload f'))), Ok tt).
Proof.
  intros Hnil H.
  destruct (accepted_frame r b f f' H)
    as (ts & e0 & e1 & Hg & Hne & E & Hle & ->).
  rewrite Hnil, app_nil_l.
  rewrite MarshalBinary_ok by (apply good_tags_ids_ok; assumption).
  f_equal. f_equal.
  unfold wire. cbn [Frame.Destination Frame.Source Frame.VLAN Frame.EtherType
                    Frame.Payload].
  rewrite !fit_exact
    by (rewrite ?length_firstn, ?length_skipn; lia).
  unfold uint16. rewrite Z.mod_small by apply word16_range.
  rewrite be16_word16.
  transitivity (on_wire (firstn 6 b) (firstn 6 (skipn 6 b)) ts e0 e1
                  (skipn (14 + 4 * length ts) b)
                  ++ repeat x00 (46 - length (skipn (14 + 4 * length ts) b))).
  - unfold on_wire, padding. rewrite <- !app_assoc. reflexivity.
  - rewrite <- E. reflexivity.
Qed.

Lemma decode_encode_witness :
  let b := repeat x00 12 ++ [x81; x00; x60; x64; x08; x00] ++ repeat x07 50 in
  MarshalBinary Rev1 (fst (UnmarshalBinary Rev2 b Frame.new))
  = (Some (b ++ repeat x00 (46 - 50)), Ok tt).
Proof.
  intros b.
  apply (decode_encode Rev2 Rev1 b Frame.new
           (fst (UnmarshalBinary Rev2 b Frame.new))).
  - reflexivity.
  - vm_compute. reflexivity.
Defined.

(** X11.  The revision that decodes into one buffer (ethernet.go:326-374)
    returns what the revision before it (part_000:120-169) returns: the
    same error for every buffer and receiver, and the same frame when the
    error is [nil]. *)
Theorem later_revisions_agree (b : list byte) (f : Frame.t) :
  snd (UnmarshalBinary Rev2 b f) = snd (UnmarshalBinary Rev3 b f)
  /\ (snd (UnmarshalBinary Rev2 b f) = Ok tt ->
      UnmarshalBinary Rev2 b f = UnmarshalBinary Rev3 b f).
Proof.
  simpl. destruct (Nat.lt_ge_cases (length b) 14) as [Hs | HL].
  - rewrite short_buffer_2, short_buffer_3 by assumption.
    split; [reflexivity | discriminate].
  - destruct (vlan_loop_any 4 b ltac:(lia) (length b) 14 (first_et b) HL
                (fuel_enough b HL)) as (ts & res & Hrun & Hend).
    rewrite (Ethernet2_run b f ts res HL (Hrun _) Hend).
    rewrite (Ethernet3_run b f ts res HL (Hrun _) Hend).
    destruct res as [[n et] | e | |]; simpl; split;
      try reflexivity; discriminate.
Qed.

(** X12.  What the first revision accepts, the later revisions accept, with
    the same frame: dropping the minimum payload and asking for four bytes
    in the loop refused no buffer that was decoded before. *)
Theorem first_revision_is_stricter (r : revision) (b : list byte)
        (f f' : Frame.t) :
  UnmarshalBinary Rev1 b f = (f', Ok tt) ->
  UnmarshalBinary r b f = (f', Ok tt).
Proof.
  intros H.
  destruct (accepted_on_wire Rev1 b f f' H)
    as (ts & e0 & e1 & Hg & Hne & Hd & Hs & E & Hle).
  destruct r; [assumption | |]; simpl.
  - pose proof (Ethernet2_on_wire _ _ ts e0 e1
                  (skipn (14 + 4 * length ts) b) Hd Hs Hg Hne f) as R.
    rewrite <- E in R. rewrite R.
    pose proof (Ethernet1_on_wire _ _ ts e0 e1
                  (skipn (14 + 4 * length ts) b) Hd Hs Hg Hne f) as R1.
    rewrite <- E in R1. simpl in H. rewrite R1 in H.
    destruct (too_short _ _); [discriminate | exact H].
  - pose proof (Ethernet3_on_wire _ _ ts e0 e1
                  (skipn (14 + 4 * length ts) b) Hd Hs Hg Hne f) as R.
    rewrite <- E in R. rewrite R.
    pose proof (Ethernet1_on_wire _ _ ts e0 e1
                  (skipn (14 + 4 * length ts) b) Hd Hs Hg Hne f) as R1.
    rewrite <- E in R1. simpl in H. rewrite R1 in H.
    destruct (too_short _ _); [discriminate | exact H].
Qed.

Lemma first_revision_is_stricter_witness :
  let b := repeat x00 12 ++ [x08; x06] ++ repeat x01 42 in
  UnmarshalBinary Rev3 b Frame.new
  = (fst (UnmarshalBinary Rev1 b Frame.new), Ok tt).
Proof.
  intros b.
  apply (first_revision_is_stricter Rev3 b Frame.new). vm_compute.
  reflexivity.
Defined.

(** X13.  [Frame.UnmarshalBinary] ends in one of four ways: [nil],
    [io.ErrUnexpectedEOF], [ErrInvalidVLAN], or, in the first revision
    only, a panic.  It never returns [ErrInvalidFCS], and its loop always
    ends. *)
Theorem unmarshal_outcome (r : revision) (b : list byte) (f : Frame.t) :
  snd (UnmarshalBinary r b f) = Ok tt
  \/ snd (UnmarshalBinary r b f) = Err ErrUnexpectedEOF
  \/ snd (UnmarshalBinary r b f) = Err ErrInvalidVLAN
  \/ (r = Rev1 /\ snd (UnmarshalBinary r b f) = Panic).
Proof.
  destruct (decoder_any r b) as [ts H].
  destruct (H f) as (_ & Hfuel & Hfcs & Hpanic & _).
  destruct (snd (UnmarshalBinary r b f)) as [[] | [| |] | |].
  - left. reflexivity.
  - right. left. reflexivity.
  - right. right. left. reflexivity.
  - contradiction.
  - right. right. right. split; [| reflexivity].
    destruct r; [reflexivity | |]; exfalso; apply Hpanic; congruence.
  - contradiction.
Qed.

(** X14.  What [Frame.UnmarshalBinary] stores in the addresses, the
    EtherType and the payload depends on the buffer only: two calls that
    return [nil] on the same buffer leave two frames that differ at most in
    their tags.  In the revisions without a minimum payload the error does
    not depend on the receiver either. *)
Theorem unmarshal_receiver_independent (r : revision) (b : list byte)
        (f g f' g' : Frame.t) :
  (UnmarshalBinary r b f = (f', Ok tt) ->
   UnmarshalBinary r b g = (g', Ok tt) ->
   Frame.Destination f' = Frame.Destination g'
   /\ Frame.Source f' = Frame.Source g'
   /\ Frame.EtherType f' = Frame.EtherType g'
   /\ Frame.Payload f' = Frame.Payload g')
  /\ (r <> Rev1 ->
      snd (UnmarshalBinary r b f) = snd (UnmarshalBinary r b g)).
Proof.
  destruct (Nat.lt_ge_cases (length b) 14) as [Hs | HL].
  { assert (E : forall h, UnmarshalBinary r b h = (h, Err ErrUnexpectedEOF)).
    { intros h. destruct r; simpl;
        [apply short_buffer_1 | apply short_buffer_2 | apply short_buffer_3];
        assumption. }
    rewrite !E. split; [discriminate | reflexivity]. }
  destruct r; simpl.
  - destruct (Ethernet1_any b HL) as (ts & res & Hend & Hrun).
    rewrite !Hrun. split; [| congruence].
    destruct res as [[n et] | e | |]; try discriminate.
    destruct (too_short _ _), (too_short _ _); try discriminate.
    intros Hf Hg. injection Hf as <-. injection Hg as <-.
    repeat split.
  - destruct (Ethernet2_any b HL) as (ts & res & Hend & Hrun).
    rewrite !Hrun.
    destruct res as [[n et] | e | |]; (split; [| reflexivity]);
      try discriminate.
    intros Hf Hg. injection Hf as <-. injection Hg as <-.
    repeat split.
  - destruct (Ethernet3_any b HL) as (ts & res & Hend & Hrun).
    rewrite !Hrun.
    destruct res as [[n et] | e | |]; (split; [| reflexivity]);
      try discriminate.
    intros Hf Hg. injection Hf as <-. injection Hg as <-.
    repeat split.
Qed.

Lemma unmarshal_receiver_independent_witness :
  let b := repeat x00 12 ++ [x08; x00] ++ repeat x01 46 in
  let g := Frame.mk Broadcast Broadcast [VLAN.mk 1 true 1] 7 [xff] in
  Frame.Payload (fst (UnmarshalBinary Rev1 b Frame.new))
  = Frame.Payload (fst (UnmarshalBinary Rev1 b g))
  /\ snd (UnmarshalBinary Rev2 b Frame.new) = snd (UnmarshalBinary Rev2 b g).
Proof.
  intros b g. split.
  - destruct (unmarshal_receiver_independent Rev1 b Frame.new g
                (fst (UnmarshalBinary Rev1 b Frame.new))
                (fst (UnmarshalBinary Rev1 b g))) as [H _].
    apply H; vm_compute; reflexivity.
  - destruct (unmarshal_receiver_independent Rev2 b Frame.new g
                Frame.new Frame.new) as [_ H].
    apply H. discriminate.
Defined.

End DecoderExtras.

Section MinimumPayload.

Local Open Scope nat_scope.

Lemma too_short_spec (vl pl : nat) :
  too_short vl pl = false <-> payload_allowed vl pl.
Proof.
  unfold too_short, payload_allowed, minPayload.
  destruct vl as [| [| vl]].
  - change (Z.of_nat 0) with 0%Z. change (1 <? 0)%Z with false.
    cbv iota. change (0 =? 0)%Z with true. rewrite andb_true_l.
    destruct (Z.eqb_spec (46 - Z.of_nat pl) 4) as [E | E];
      rewrite Z.ltb_ge; lia.
  - change (Z.of_nat 1) with 1%Z. change (1 <? 1)%Z with false.
    cbv iota. change (1 =? 0)%Z with false. rewrite andb_false_l.
    rewrite Z.ltb_ge. lia.
  - replace (1 <? Z.of_nat (S (S vl)))%Z with true
      by (symmetry; apply Z.ltb_lt; lia).
    cbv iota. change (1 =? 0)%Z with false. rewrite andb_false_l.
    rewrite Z.ltb_ge. lia.
Qed.

(** X15.  On a buffer that the second revision decodes, the first revision
    differs by its minimum payload only.  With the frame left with a tag
    (read or held before) it asks for 42 bytes of payload; with no tag for
    46, or for exactly 42, so that 43, 44 and 45 bytes are refused where 42
    are accepted.  It returns the same frame when the payload is allowed
    and [io.ErrUnexpectedEOF] when it is not. *)
Theorem minimum_payload_rule (b : list byte) (f f' : Frame.t) :
  UnmarshalBinary Rev2 b f = (f', Ok tt) ->
  (payload_allowed (length (Frame.VLAN f')) (length (Frame.Payload f')) ->
   UnmarshalBinary Rev1 b f = (f', Ok tt))
  /\ (~ payload_allowed (length (Frame.VLAN f')) (length (Frame.Payload f')) ->
      snd (UnmarshalBinary Rev1 b f) = Err ErrUnexpectedEOF).
Proof.
  intros H.
  destruct (accepted_on_wire Rev2 b f f' H)
    as (ts & e0 & e1 & Hg & Hne & Hd & Hs & E & Hle).
  pose proof (Ethernet2_on_wire _ _ ts e0 e1
                (skipn (14 + 4 * length ts) b) Hd Hs Hg Hne f) as R2.
  rewrite <- E in R2. unfold UnmarshalBinary in H.
  assert (Hf : f' = Frame.mk (firstn 6 b) (firstn 6 (skipn 6 b))
                             (Frame.VLAN f ++ ts) (word16 e0 e1)
                             (skipn (14 + 4 * length ts) b))
    by congruence.
  pose proof (Ethernet1_on_wire _ _ ts e0 e1
                (skipn (14 + 4 * length ts) b) Hd Hs Hg Hne f) as R1.
  rewrite <- E in R1.
  assert (EV : Frame.VLAN f' = Frame.VLAN f ++ ts)
    by (rewrite Hf; reflexivity).
  assert (EP : Frame.Payload f' = skipn (14 + 4 * length ts) b)
    by (rewrite Hf; reflexivity).
  rewrite EV, EP. unfold UnmarshalBinary. rewrite R1.
  destruct (too_short (length (Frame.VLAN f ++ ts))
              (length (skipn (14 + 4 * length ts) b))) eqn:Ets.
  - split.
    + intros Ha. apply too_short_spec in Ha. congruence.
    + reflexivity.
  - split.
    + rewrite Hf. reflexivity.
    + intros Hna. exfalso. apply Hna. apply too_short_spec. assumption.
Qed.

Lemma minimum_payload_rule_witness :
  let b := repeat x00 12 ++ [x08; x00] ++ repeat x01 43 in
  snd (UnmarshalBinary Rev1 b Frame.new) = Err ErrUnexpectedEOF.
Proof.
  intros b.
  destruct (minimum_payload_rule b Frame.new
              (fst (UnmarshalBinary Rev2 b Frame.new))) as [_ H];
    [vm_compute; reflexivity |].
  apply H. vm_compute. intros [[_ [E | E]] | [E _]];
    [discriminate | | ].
  - repeat (apply le_S_n in E). inversion E.
  - inversion E.
Defined.

(** X16.  A buffer made of two 6-byte addresses, any number of tags, each
    as the marker 0x81 0x00 and the two bytes of a tag of the data model,
    two bytes that are not the marker, and any payload, is decoded by the
    revisions without a minimum payload into those addresses, the
    receiver's tags followed by those tags in their order, that EtherType
    and that payload. *)
Theorem chain_decoded (r : revision) (dst src : list byte) (ts : list VLAN.t)
        (e0 e1 : byte) (payload : list byte) (f : Frame.t) :
  r <> Rev1 ->
  length dst = 6 -> length src = 6 ->
  Forall good_tag ts -> word16 e0 e1 <> EtherTypeVLAN ->
  UnmarshalBinary r
    (dst ++ src
       ++ flat_map (fun v => [x81; x00] ++ be16 (vlan_word v)) ts
       ++ [e0; e1] ++ payload) f
  = (Frame.mk dst src (Frame.VLAN f ++ ts) (word16 e0 e1) payload, Ok tt).
Proof.
  intros Hr Hd Hs Hg Hne.
  change (dst ++ src
            ++ flat_map (fun v => [x81; x00] ++ be16 (vlan_word v)) ts
            ++ [e0; e1] ++ payload)
    with (on_wire dst src ts e0 e1 payload).
  destruct r; [contradiction | |]; simpl.
  - apply Ethernet2_on_wire; assumption.
  - apply Ethernet3_on_wire; assumption.
Qed.

Lemma chain_decoded_witness :
  let ts := [VLAN.mk 1 false 10; VLAN.mk 2 true 20; VLAN.mk 3 false 30] in
  UnmarshalBinary Rev3
    (Broadcast ++ Broadcast
       ++ flat_map (fun v => [x81; x00] ++ be16 (vlan_word v)) ts
       ++ [x08; x00] ++ [x2a]) Frame.new
  = (Frame.mk Broadcast Broadcast ([] ++ ts) (word16 x08 x00) [x2a], Ok tt).
Proof.
  intros ts.
  apply (chain_decoded Rev3 Broadcast Broadcast ts x08 x00 [x2a] Frame.new).
  - discriminate.
  - reflexivity.
  - reflexivity.
  - repeat (apply Forall_cons; [split; simpl; lia |]). apply Forall_nil.
  - vm_compute. discriminate.
Defined.

End MinimumPayload.

(** ** The frame check sequence, both ways *)

Section CheckSequence.

Lemma lxor_range (a b n : Z) :
  0 <= n -> 0 <= a < 2 ^ n -> 0 <= b < 2 ^ n -> 0 <= Z.lxor a b < 2 ^ n.
Proof.
  intros Hn Ha Hb.
  assert (Hnn : 0 <= Z.lxor a b) by (apply Z.lxor_nonneg; lia).
  split; [exact Hnn |].
  assert (E : Z.lxor a b mod 2 ^ n = Z.lxor a b).
  { apply Z.bits_inj'. intros i Hi.
    rewrite Z.testbit_mod_pow2 by lia.
    destruct (Z.ltb_spec i n); [reflexivity |].
    rewrite Z.lxor_spec.
    rewrite (testbit_above a n i), (testbit_above b n i) by lia.
    reflexivity. }
  rewrite <- E. apply Z.mod_pos_bound. lia.
Qed.

Lemma crc_shift_range (k : nat) (c : Z) :
  0 <= c < 2 ^ 32 -> 0 <= crc_shift k c < 2 ^ 32.
Proof.
  revert c. induction k as [| k IH]; intros c Hc; [exact Hc |].
  change (crc_shift (S k) c)
    with (crc_shift k (if Z.testbit c 0
                       then Z.lxor (Z.shiftr c 1) 0xedb88320
                       else Z.shiftr c 1)).
  apply IH.
  assert (Hh : 0 <= Z.shiftr c 1 < 2 ^ 32).
  { rewrite Z.shiftr_div_pow2 by lia. change (2 ^ 1) with 2.
    split; [apply Z.div_pos; lia |].
    apply Z.div_lt_upper_bound; lia. }
  destruct (Z.testbit c 0); [| exact Hh].
  apply lxor_range; [lia | exact Hh | vm_compute; split; [discriminate | reflexivity]].
Qed.

Lemma crc_update_range (c : Z) (b : byte) :
  0 <= c < 2 ^ 32 -> 0 <= crc_update c b < 2 ^ 32.
Proof.
  intros Hc. unfold crc_update. apply crc_shift_range.
  apply lxor_range; [lia | exact Hc |].
  pose proof (byte_to_Z_range b). change (2 ^ 32) with 4294967296. lia.
Qed.

(** The checksum is a 32-bit value. *)
Lemma ChecksumIEEE_range (data : list byte) :
  0 <= ChecksumIEEE data < 2 ^ 32.
Proof.
  unfold ChecksumIEEE.
  assert (H : forall c, 0 <= c < 2 ^ 32 ->
                        0 <= fold_left crc_update data c < 2 ^ 32).
  { induction data as [| b data IH]; intros c Hc; [exact Hc |].
    simpl. apply IH, crc_update_range, Hc. }
  apply lxor_range; [lia | apply H | ];
    vm_compute; split; (discriminate || reflexivity).
Qed.

Lemma byte_shift_bits (b : byte) (k i : Z) :
  0 <= k -> 0 <= i ->
  Z.testbit (Z.shiftl (byte_to_Z b) k) i
  = (k <=? i) && (i <? k + 8) && Z.testbit (byte_to_Z b) (i - k).
Proof.
  intros Hk Hi. rewrite Z.shiftl_spec by lia.
  destruct (Z.leb_spec k i); simpl.
  - destruct (Z.ltb_spec i (k + 8)); simpl; [reflexivity |].
    apply byte_testbit_high. lia.
  - apply Z.testbit_neg_r. lia.
Qed.

Lemma word32_bits (b0 b1 b2 b3 : byte) (i : Z) :
  0 <= i ->
  Z.testbit (word32 b0 b1 b2 b3) i
  = if i <? 8 then Z.testbit (byte_to_Z b3) i
    else if i <? 16 then Z.testbit (byte_to_Z b2) (i - 8)
    else if i <? 24 then Z.testbit (byte_to_Z b1) (i - 16)
    else if i <? 32 then Z.testbit (byte_to_Z b0) (i - 24)
    else false.
Proof.
  intros Hi. unfold word32.
  rewrite !Z.lor_spec, !byte_shift_bits by lia.
  change (8 + 8) with 16. change (16 + 8) with 24. change (24 + 8) with 32.
  destruct (Z.ltb_spec i 8), (Z.ltb_spec i 16), (Z.ltb_spec i 24),
    (Z.ltb_spec i 32), (Z.leb_spec 8 i), (Z.leb_spec 16 i),
    (Z.leb_spec 24 i);
    try (exfalso; lia);
    cbn [andb orb];
    rewrite ?orb_false_r, ?(byte_testbit_high b3 i) by lia;
    reflexivity.
Qed.

Lemma byte_of_shift_bits (v k i : Z) :
  0 <= k -> 0 <= i ->
  Z.testbit (byte_to_Z (Z_to_byte (Z.shiftr v k))) i
  = (i <? 8) && Z.testbit v (i + k).
Proof.
  intros Hk Hi. rewrite byte_to_Z_to_byte. change 256 with (2 ^ 8).
  rewrite Z.testbit_mod_pow2, Z.shiftr_spec by lia. reflexivity.
Qed.

(** Reading back the four bytes of a 32-bit word. *)
Lemma word32_be32 (v : Z) :
  0 <= v < 2 ^ 32 ->
  word32 (Z_to_byte (Z.shiftr v 24)) (Z_to_byte (Z.shiftr v 16))
         (Z_to_byte (Z.shiftr v 8)) (Z_to_byte v) = v.
Proof.
  intros Hv. apply Z.bits_inj'. intros i Hi.
  rewrite word32_bits by lia.
  destruct (Z.ltb_spec i 8).
  - rewrite byte_to_Z_to_byte. change 256 with (2 ^ 8).
    rewrite Z.testbit_mod_pow2 by lia.
    destruct (Z.ltb_spec i 8); [reflexivity | lia].
  - destruct (Z.ltb_spec i 16).
    + rewrite byte_of_shift_bits by lia.
      destruct (Z.ltb_spec (i - 8) 8); [| lia]. simpl. f_equal. lia.
    + destruct (Z.ltb_spec i 24).
      * rewrite byte_of_shift_bits by lia.
        destruct (Z.ltb_spec (i - 16) 8); [| lia]. simpl. f_equal. lia.
      * destruct (Z.ltb_spec i 32).
        -- rewrite byte_of_shift_bits by lia.
           destruct (Z.ltb_spec (i - 24) 8); [| lia]. simpl. f_equal. lia.
        -- symmetry. apply (testbit_above v 32); lia.
Qed.

(** The four bytes of the word that four bytes spell. *)
Lemma be32_word32 (b0 b1 b2 b3 : byte) :
  be32 (word32 b0 b1 b2 b3) = [b0; b1; b2; b3].
Proof.
  assert (H : forall (b : byte) (k : Z),
             0 <= k ->
             (forall i, 0 <= i < 8 ->
                        Z.testbit (word32 b0 b1 b2 b3) (i + k)
                        = Z.testbit (byte_to_Z b) i) ->
             Z_to_byte (Z.shiftr (word32 b0 b1 b2 b3) k) = b).
  { intros b k Hk Hbits. rewrite <- (Z_to_byte_to_Z b).
    apply Z_to_byte_congr. change 256 with (2 ^ 8).
    apply Z.bits_inj'. intros i Hi.
    rewrite !Z.testbit_mod_pow2, Z.shiftr_spec by lia.
    destruct (Z.ltb_spec i 8); [| reflexivity]. simpl.
    apply Hbits. lia. }
  unfold be32.
  rewrite (H b0 24), (H b1 16), (H b2 8) by
    (try lia; intros i Hi; rewrite word32_bits by lia;
     repeat match goal with
            | |- context [?a <? ?c] => destruct (Z.ltb_spec a c); try lia
            end; f_equal; lia).
  rewrite <- (Z.shiftr_0_r (word32 b0 b1 b2 b3)) at 1.
  rewrite (H b3 0);
    [reflexivity | lia |].
  intros i Hi. rewrite word32_bits by lia.
  destruct (Z.ltb_spec (i + 0) 8); [f_equal; lia | lia].
Qed.

Lemma list_of_length_4_eq (s : list byte) :
  length s = 4%nat -> exists b0 b1 b2 b3, s = [b0; b1; b2; b3].
Proof.
  destruct s as [| b0 [| b1 [| b2 [| b3 [| ? ?]]]]]; simpl; intros H;
    try discriminate.
  eauto.
Qed.

End CheckSequence.

Section CheckedFrames.

Local Open Scope nat_scope.

Lemma length_split_extra (f : Frame.t) (extra : nat) :
  make (Ethernet3.length f + extra)
  = [] ++ make 6 ++ make 6 ++ make (4 * length (Frame.VLAN f)) ++ make 2
       ++ make (Nat.max (length (Frame.Payload f)) 46 + extra).
Proof.
  unfold Ethernet3.length, make. rewrite app_nil_l.
  rewrite <- !repeat_app. f_equal.
  destruct (Nat.ltb_spec (length (Frame.Payload f)) 46); lia.
Qed.

Lemma fit_payload_extra (p : list byte) (extra : nat) :
  fit (Nat.max (length p) 46 + extra) p = (p ++ padding p) ++ make extra.
Proof.
  unfold fit, padding, make. rewrite firstn_all2 by lia.
  rewrite <- app_assoc, <- repeat_app. f_equal. f_equal. lia.
Qed.

(** The statements of [read] on a zeroed buffer with [extra] bytes to
    spare, as [MarshalFCS] calls it. *)
Lemma read_with_room (f : Frame.t) (extra : nat) :
  ids_ok (Frame.VLAN f) ->
  Ethernet3.read f (make (Ethernet3.length f + extra))
  = (wire f ++ make extra, Ok (length (wire f ++ make extra))).
Proof.
  intros Hok. unfold Ethernet3.read. rewrite length_split_extra.
  set (d := fit 6 (Frame.Destination f)).
  set (s := fit 6 (Frame.Source f)).
  assert (Hd : length d = 6) by apply length_fit.
  assert (Hs : length s = 6) by apply length_fit.
  erewrite bind_ok.
  2:{ apply (focus_at (copy (Frame.Destination f)) [] (make 6));
      [reflexivity | reflexivity | apply copy_zeros_eq | apply length_fit]. }
  fold d. rewrite app_nil_l.
  erewrite bind_ok.
  2:{ apply (focus_at (copy (Frame.Source f)) d (make 6));
      [ congruence | reflexivity | apply copy_zeros_eq | apply length_fit]. }
  fold s.
  erewrite bind_ok.
  2:{ rewrite (app_assoc d s).
      apply put_vlans_at;
        [rewrite length_app, Hd, Hs; reflexivity | assumption]. }
  rewrite (app_assoc (d ++ s)).
  assert (Hl : length ((d ++ s) ++ tags_wire (Frame.VLAN f))
               = 12 + 4 * length (Frame.VLAN f))
    by (rewrite (length_app (d ++ s)), length_tags_wire, length_app, Hd, Hs;
        reflexivity).
  erewrite bind_ok.
  2:{ apply (focus_at (PutUint16 (uint16 (Frame.EtherType f))) _ (make 2)
               _ (be16 (uint16 (Frame.EtherType f))));
      [symmetry; exact Hl | reflexivity | reflexivity | reflexivity]. }
  rewrite (app_assoc _ (be16 _)).
  erewrite bind_ok.
  2:{ apply focus_from_at;
        [ rewrite (length_app _ (be16 _)), Hl; reflexivity
        | apply copy_zeros_eq
        | rewrite length_fit; unfold make; rewrite repeat_length; reflexivity]. }
  rewrite fit_payload_extra.
  assert (E : ((d ++ s) ++ tags_wire (Frame.VLAN f))
                ++ be16 (uint16 (Frame.EtherType f))
                ++ (Frame.Payload f ++ padding (Frame.Payload f)) ++ make extra
              = wire f ++ make extra).
  { unfold wire. fold d. fold s. rewrite <- !app_assoc. reflexivity. }
  rewrite app_assoc in E. rewrite <- app_assoc in E.
  unfold bind, get, ret.
  rewrite <- app_assoc. rewrite E. reflexivity.
Qed.

Lemma read_with_room_err (f : Frame.t) (extra : nat) :
  ~ ids_ok (Frame.VLAN f) ->
  exists b',
    Ethernet3.read f (make (Ethernet3.length f + extra))
    = (b', Err ErrInvalidVLAN).
Proof.
  intros Hbad. unfold Ethernet3.read. rewrite length_split_extra.
  set (d := fit 6 (Frame.Destination f)).
  set (s := fit 6 (Frame.Source f)).
  assert (Hd : length d = 6) by apply length_fit.
  assert (Hs : length s = 6) by apply length_fit.
  erewrite bind_ok.
  2:{ apply (focus_at (copy (Frame.Destination f)) [] (make 6));
      [reflexivity | reflexivity | apply copy_zeros_eq | apply length_fit]. }
  fold d. rewrite app_nil_l.
  erewrite bind_ok.
  2:{ apply (focus_at (copy (Frame.Source f)) d (make 6));
      [ congruence | reflexivity | apply copy_zeros_eq | apply length_fit]. }
  fold s.
  destruct (put_vlans_err_at (Frame.VLAN f) (d ++ s)
              (make 2 ++ make (Nat.max (length (Frame.Payload f)) 46 + extra))
              12)
    as [b' Hb'];
    [rewrite length_app, Hd, Hs; reflexivity | assumption |].
  exists b'. apply bind_err.
  rewrite (app_assoc d s). exact Hb'.
Qed.

Lemma MarshalFCS_ok (f : Frame.t) :
  ids_ok (Frame.VLAN f) ->
  Ethernet3.MarshalFCS f
  = (Some (wire f ++ be32 (ChecksumIEEE (wire f))), Ok tt).
Proof.
  intros Hok. unfold Ethernet3.MarshalFCS.
  rewrite read_with_room by assumption.
  assert (HL : length (wire f ++ make 4) - 4 = length (wire f)).
  { rewrite length_app. simpl. lia. }
  rewrite HL.
  erewrite bind_ok.
  2:{ unfold lift. rewrite <- (app_nil_l (wire f ++ make 4)).
      rewrite (slice_at [] (wire f) (make 4) 0 (length (wire f)));
        [reflexivity | reflexivity | reflexivity]. }
  rewrite (focus_from_at (PutUint32 (ChecksumIEEE (wire f))) (wire f) (make 4)
             (be32 (ChecksumIEEE (wire f))) (Ok tt));
    reflexivity.
Qed.

Lemma MarshalFCS_err (f : Frame.t) :
  ~ ids_ok (Frame.VLAN f) ->
  Ethernet3.MarshalFCS f = (None, Err ErrInvalidVLAN).
Proof.
  intros Hbad. unfold Ethernet3.MarshalFCS.
  destruct (read_with_room_err f 4 Hbad) as [b' ->]. reflexivity.
Qed.

Lemma Uint32_four (b0 b1 b2 b3 : byte) :
  Uint32 [b0; b1; b2; b3] = Some (word32 b0 b1 b2 b3).
Proof. reflexivity. Qed.

(** [UnmarshalFCS] on a buffer given as its body and its last four bytes. *)
Lemma UnmarshalFCS_app (body t : list byte) (want : Z) (f : Frame.t) :
  length t = 4 -> Uint32 t = Some want ->
  Ethernet3.UnmarshalFCS (body ++ t) f
  = if (want =? ChecksumIEEE body)%Z
    then Ethernet3.UnmarshalBinary body f
    else (f, Err ErrInvalidFCS).
Proof.
  intros Ht Hw. unfold Ethernet3.UnmarshalFCS.
  assert (HL : length (body ++ t) - 4 = length body)
    by (rewrite length_app; lia).
  destruct (Nat.ltb_spec (length (body ++ t)) 4);
    [rewrite length_app in *; lia |].
  rewrite HL.
  erewrite bind_ok
    by (unfold lift; rewrite slice_from_at by reflexivity; reflexivity).
  erewrite bind_ok by (unfold lift; rewrite Hw; reflexivity).
  assert (Hb : slice (body ++ t) 0 (length body) = Some body).
  { rewrite <- (app_nil_l (body ++ t)).
    apply (slice_at [] body t); reflexivity. }
  erewrite bind_ok by (unfold lift; rewrite Hb; reflexivity).
  destruct (want =? ChecksumIEEE body)%Z; [| reflexivity].
  change (negb true) with false. cbv iota.
  erewrite bind_ok by (unfold lift; rewrite Hb; reflexivity).
  reflexivity.
Qed.

(** X17.  [Frame.MarshalFCS] returns the error of [Frame.MarshalBinary],
    and no buffer when the error is not [nil].  When the error is [nil] it
    returns the buffer of [Frame.MarshalBinary] followed by the four bytes,
    high byte first, of the IEEE CRC32 of that buffer: at least 64 bytes,
    the minimum Ethernet frame. *)
Theorem marshal_fcs_appends (f : Frame.t) :
  snd (Ethernet3.MarshalFCS f) = snd (Ethernet3.MarshalBinary f)
  /\ (snd (Ethernet3.MarshalFCS f) <> Ok tt ->
      fst (Ethernet3.MarshalFCS f) = None)
  /\ (snd (Ethernet3.MarshalFCS f) = Ok tt ->
      exists body,
        Ethernet3.MarshalBinary f = (Some body, Ok tt)
        /\ Ethernet3.MarshalFCS f
           = (Some (body ++ be32 (ChecksumIEEE body)), Ok tt)
        /\ Uint32 (skipn (length body) (body ++ be32 (ChecksumIEEE body)))
           = Some (ChecksumIEEE body)
        /\ 64 <= length (body ++ be32 (ChecksumIEEE body))).
Proof.
  destruct (ids_ok_dec (Frame.VLAN f)) as [Hok | Hbad].
  - rewrite MarshalFCS_ok, Ethernet3_MarshalBinary_ok by assumption.
    split; [reflexivity |]. split; [intros H; contradiction H; reflexivity |].
    intros _. exists (wire f).
    split; [reflexivity |]. split; [reflexivity |].
    split.
    + rewrite skipn_exact by reflexivity. unfold be32.
      rewrite Uint32_four. f_equal. apply word32_be32.
      apply ChecksumIEEE_range.
    + rewrite length_app, length_wire. simpl length. lia.
  - rewrite MarshalFCS_err by assumption.
    destruct (Ethernet3_MarshalBinary_err f Hbad) as [b' ->].
    split; [reflexivity |]. split; [reflexivity | discriminate].
Qed.

Lemma marshal_fcs_appends_witness :
  let f := Frame.mk Broadcast [x02; x00; x00; x00; x00; x01]
                    [VLAN.mk 2 false 9] EtherTypeARP [x01] in
  exists body,
    Ethernet3.MarshalBinary f = (Some body, Ok tt)
    /\ Ethernet3.MarshalFCS f
       = (Some (body ++ be32 (ChecksumIEEE body)), Ok tt)
    /\ Uint32 (skipn (length body) (body ++ be32 (ChecksumIEEE body)))
       = Some (ChecksumIEEE body)
    /\ 64 <= length (body ++ be32 (ChecksumIEEE body)).
Proof.
  intros f. destruct (marshal_fcs_appends f) as (_ & _ & H).
  apply H. vm_compute. reflexivity.
Defined.

(** X18.  A frame of the data model goes through [Frame.MarshalFCS] and
    back through [Frame.UnmarshalFCS]: for two 6-byte addresses, tags with
    priorities in [0, 7] and identifiers in [0, 4094] and an EtherType
    other than the VLAN marker, the checksum is accepted and the frame comes
    back, its payload followed by zeros up to 46 bytes. *)
Theorem fcs_roundtrip (f f0 : Frame.t) :
  length (Frame.Destination f) = 6 ->
  length (Frame.Source f) = 6 ->
  Forall good_tag (Frame.VLAN f) ->
  (0 <= Frame.EtherType f < 65536)%Z ->
  Frame.EtherType f <> EtherTypeVLAN ->
  Frame.VLAN f0 = [] ->
  exists b,
    Ethernet3.MarshalFCS f = (Some b, Ok tt)
    /\ Ethernet3.UnmarshalFCS b f0
       = (Frame.set_Payload
            (Frame.Payload f ++ repeat x00 (46 - length (Frame.Payload f))) f,
          Ok tt).
Proof.
  intros Hd Hs Hg Hr Hne H0.
  exists (wire f ++ be32 (ChecksumIEEE (wire f))). split.
  - apply MarshalFCS_ok, good_tags_ids_ok. assumption.
  - rewrite (UnmarshalFCS_app (wire f) _ (ChecksumIEEE (wire f)));
      [| reflexivity
       | unfold be32; rewrite Uint32_four; f_equal; apply word32_be32;
         apply ChecksumIEEE_range].
    rewrite Z.eqb_refl.
    assert (Hw : word16 (Z_to_byte (Z.shiftr (uint16 (Frame.EtherType f)) 8))
                        (Z_to_byte (uint16 (Frame.EtherType f)))
                 = Frame.EtherType f).
    { unfold uint16. rewrite Z.mod_small by lia. apply word16_be16. lia. }
    rewrite wire_on_wire by assumption.
    rewrite Ethernet3_on_wire; try assumption.
    + rewrite Hw, H0. reflexivity.
    + rewrite Hw. assumption.
Qed.

Lemma fcs_roundtrip_witness :
  let f := Frame.mk Broadcast [x02; x00; x00; x00; x00; x01]
                    [VLAN.mk 6 false 42] EtherTypeIPv6 [x01; x02] in
  exists b,
    Ethernet3.MarshalFCS f = (Some b, Ok tt)
    /\ Ethernet3.UnmarshalFCS b Frame.new
       = (Frame.set_Payload ([x01; x02] ++ repeat x00 44) f, Ok tt).
Proof.
  intros f. apply (fcs_roundtrip f Frame.new).
  - reflexivity.
  - reflexivity.
  - apply Forall_cons; [split; simpl; lia | apply Forall_nil].
  - vm_compute. split; [discriminate | reflexivity].
  - vm_compute. discriminate.
  - reflexivity.
Defined.

(** X19.  For each body there is exactly one four-byte trailer that
    [Frame.UnmarshalFCS] does not refuse with [ErrInvalidFCS]: the IEEE
    CRC32 of the body, high byte first.  Any other four bytes after the
    same body are refused, and the receiver is untouched. *)
Theorem fcs_trailer_unique (body t : list byte) (f : Frame.t) :
  length t = 4 ->
  (t <> be32 (ChecksumIEEE body) ->
   Ethernet3.UnmarshalFCS (body ++ t) f = (f, Err ErrInvalidFCS))
  /\ (t = be32 (ChecksumIEEE body) ->
      Ethernet3.UnmarshalFCS (body ++ t) f = Ethernet3.UnmarshalBinary body f
      /\ snd (Ethernet3.UnmarshalFCS (body ++ t) f) <> Err ErrInvalidFCS).
Proof.
  intros Ht. split.
  - intros Hne.
    destruct (list_of_length_4_eq t Ht) as (b0 & b1 & b2 & b3 & ->).
    rewrite (UnmarshalFCS_app body _ (word32 b0 b1 b2 b3) f Ht
               (Uint32_four _ _ _ _)).
    destruct (Z.eqb_spec (word32 b0 b1 b2 b3) (ChecksumIEEE body)) as [E | E];
      [| reflexivity].
    exfalso. apply Hne. rewrite <- E. symmetry. apply be32_word32.
  - intros ->.
    assert (Hu : Uint32 (be32 (ChecksumIEEE body)) = Some (ChecksumIEEE body)).
    { unfold be32. rewrite Uint32_four. f_equal. apply word32_be32.
      apply ChecksumIEEE_range. }
    rewrite (UnmarshalFCS_app body _ (ChecksumIEEE body) f Ht Hu).
    rewrite Z.eqb_refl. split; [reflexivity |].
    destruct (decoder_any Rev3 body) as [ts Hts].
    destruct (Hts f) as (_ & _ & Hno & _). exact Hno.
Qed.

Lemma fcs_trailer_unique_witness :
  (([x00; x00; x00; x00] : list byte) <> be32 (ChecksumIEEE []) ->
   Ethernet3.UnmarshalFCS ([] ++ [x00; x00; x00; x00]) Frame.new
   = (Frame.new, Err ErrInvalidFCS))
  /\ ([x00; x00; x00; x00] = be32 (ChecksumIEEE []) ->
      Ethernet3.UnmarshalFCS ([] ++ [x00; x00; x00; x00]) Frame.new
      = Ethernet3.UnmarshalBinary [] Frame.new
      /\ snd (Ethernet3.UnmarshalFCS ([] ++ [x00; x00; x00; x00]) Frame.new)
         <> Err ErrInvalidFCS).
Proof.
  apply (fcs_trailer_unique [] [x00; x00; x00; x00] Frame.new). reflexivity.
Defined.

End CheckedFrames.

Section EtherTypeNames.

Import Stdlib.Strings.String.
Local Open Scope string_scope.

Lemma append_inj_paren (a b : string) : a ++ ")" = b ++ ")" -> a = b.
Proof.
  revert b. induction a as [| c a IH]; intros [| c' b] H; simpl in H.
  - reflexivity.
  - injection H as _ H. destruct b; discriminate.
  - injection H as _ H. destruct a; discriminate.
  - injection H as -> H. f_equal. apply IH. exact H.
Qed.

(** The digits of a number read back as that number. *)
Lemma FormatInt_inj (i j : Z) :
  strconv.FormatInt i = strconv.FormatInt j -> i = j.
Proof.
  unfold strconv.FormatInt. intros H.
  assert (R : forall d, exists d',
             DecimalString.NilZero.int_of_string
               (DecimalString.NilZero.string_of_int d) = Some d'
             /\ Z.of_int d' = Z.of_int d).
  { intros d.
    destruct d as [u | u]; destruct u;
      try (eexists; split;
           [apply DecimalString.NilZero.isi; discriminate | reflexivity]).
    - eexists; split; [apply DecimalString.NilZero.isi_posnil | reflexivity].
    - eexists; split; [apply DecimalString.NilZero.isi_negnil | reflexivity]. }
  destruct (R (Z.to_int i)) as (di & Hi & Ei).
  destruct (R (Z.to_int j)) as (dj & Hj & Ej).
  rewrite H in Hi. rewrite Hi in Hj. injection Hj as ->.
  rewrite <- (DecimalZ.of_to i), <- (DecimalZ.of_to j). congruence.
Qed.

Lemma int64_small (i : Z) : (0 <= i < 65536)%Z -> int64 i = i.
Proof.
  intros H. unfold int64. rewrite Z.mod_small; lia.
Qed.

Lemma name_not_default (i : Z) (s : string) :
  (i = 2048 \/ i = 2054 \/ i = 33024 \/ i = 34525)%Z ->
  EtherType.String i <> "EtherType(" ++ s ++ ")".
Proof.
  intros [-> | [-> | [-> | ->]]]; vm_compute; discriminate.
Qed.

(** X20.  [EtherType.String] gives different EtherTypes different names:
    for two 16-bit values that differ, the strings differ, whether they are
    names of the four constants or the decimal form ["EtherType(n)"]. *)
Theorem ethertype_names_distinct (i j : Z) :
  (0 <= i < 65536)%Z -> (0 <= j < 65536)%Z -> i <> j ->
  EtherType.String i <> EtherType.String j.
Proof.
  intros Hi Hj Hne E.
  assert (D : forall k, (0 <= k < 65536)%Z ->
            (k = 2048 \/ k = 2054 \/ k = 33024 \/ k = 34525)%Z
            \/ EtherType.String k
               = "EtherType(" ++ strconv.FormatInt k ++ ")").
  { intros k Hk. unfold EtherType.String.
    destruct (Z.eqb_spec k 2048); [tauto |].
    destruct (Z.eqb_spec k 2054); [tauto |].
    destruct (Z.eqb_spec k 33024); [tauto |].
    destruct (Z.eqb_spec k 34525); [tauto |].
    right. rewrite int64_small by assumption. reflexivity. }
  destruct (D i Hi) as [Ni | Di]; destruct (D j Hj) as [Nj | Dj].
  - destruct Ni as [-> | [-> | [-> | ->]]];
      destruct Nj as [-> | [-> | [-> | ->]]];
      try (apply Hne; reflexivity); vm_compute in E; discriminate.
  - rewrite Dj in E. exact (name_not_default i _ Ni E).
  - rewrite Di in E. symmetry in E. exact (name_not_default j _ Nj E).
  - rewrite Di, Dj in E. apply Hne, FormatInt_inj, append_inj_paren.
    simpl in E. congruence.
Qed.

Lemma ethertype_names_distinct_witness :
  EtherType.String EtherTypeVLAN <> EtherType.String 33025.
Proof.
  apply (ethertype_names_distinct EtherTypeVLAN 33025).
  - unfold EtherTypeVLAN. lia.
  - lia.
  - unfold EtherTypeVLAN. lia.
Defined.

End EtherTypeNames.
